(** * ISO 9001:2015 QMS SDK: validation, compliance score, risk register

    A shallow embedding of the Go package [iso9001] (files iso9001.go,
    validation.go, risk_management.go, audit.go) together with the
    properties of its validation engine, its compliance score, its risk
    scoring and register, and its objective and audit managers.

    Conventions of the embedding:
    - Go's typed strings ([RiskLevel], [Priority], [RiskStatus], ...) are
      Rocq strings and the named constants are the strings of the source;
      [==] is [String.eqb] and the ordering operators on strings are the
      bytewise lexicographic [String.leb]/[String.ltb], as in Go.
    - A pointer field that may be nil is an [option]; slices are lists
      (a nil slice and an empty slice both have length 0).
    - [map[string]*T] is a [gmap string T]; [for _, v := range m] visits
      the bindings of [map_to_list], Go leaving the order unspecified.
    - [time.Time] is an integer instant, the zero instant being [0].  An
      operation of a manager reads the clock through its parameter [now]:
      [now i] is what its call number [i] of [time.Now()] returns, counted
      from 0, and nothing is assumed of two readings.  A query, which reads
      the clock once into a variable, takes that one reading.
    - [int] lengths are unbounded naturals; [float64] results of the score
      are exact rationals. *)

From Stdlib Require Import String Ascii ZArith QArith Qround Lqa List Lia.
From Stdlib Require Import DecimalString Sorting.Sorted Sorting.Permutation.
From stdpp Require Import gmap strings list fin_maps.

Open Scope string_scope.

(** ** Helpers for Go idioms *)

Definition Time := Z.

(** The clock as an operation sees it: [now i] is the result of the call
    number [i] of [time.Now()] during the operation.  [later n now] is the
    clock after [n] readings have been taken. *)
Definition Clock := nat -> Time.
Definition later (n : nat) (now : Clock) : Clock := fun i => now (n + i).

(** [t.IsZero()] *)
Definition IsZero (t : Time) : bool := (t =? 0)%Z.

(** [%d] of a non-negative index, as [fmt.Sprintf] prints it. *)
Definition itoa (n : nat) : string := NilEmpty.string_of_uint (Nat.to_uint n).

(** [len(s) == 0] *)
Definition len0 {A} (l : list A) : bool :=
  match l with [] => true | _ :: _ => false end.

(** [s == ""] *)
Definition empty (s : string) : bool := String.eqb s "".

(** [for i, x := range l { s = body i x s }], the index starting at [i]. *)
Fixpoint for_range_from {A St : Type} (i : nat) (l : list A)
    (body : nat -> A -> St -> St) (s : St) : St :=
  match l with
  | [] => s
  | x :: l' => for_range_from (S i) l' body (body i x s)
  end.

Definition for_range {A St : Type} (l : list A) (body : nat -> A -> St -> St) (s : St) : St :=
  for_range_from 0 l body s.

(** ** Domain model (iso9001.go) *)

Definition IssueType := string.
Definition IssueTypeExternal : IssueType := "external".
Definition IssueTypeInternal : IssueType := "internal".

Record Issue := mkIssue {
  Issue_ID : string;
  Issue_Description : string;
  Issue_Type : IssueType;
  Issue_Impact : string;
  Issue_Status : string;
  Issue_Created : Time }.

Record InterestedParty := mkInterestedParty {
  Party_ID : string;
  Party_Name : string;
  Party_Type : string;
  Party_Requirements : list string }.

Record OrganizationalContext := mkContext {
  ExternalIssues : list Issue;
  InternalIssues : list Issue;
  InterestedParties : list InterestedParty }.

Definition LeadershipCommitment := string.
Definition CommitmentQMSEffectiveness : LeadershipCommitment := "qms_effectiveness".
Definition CommitmentQualityPolicy : LeadershipCommitment := "quality_policy".
Definition CommitmentQMSIntegration : LeadershipCommitment := "qms_integration".
Definition CommitmentProcessApproach : LeadershipCommitment := "process_approach".
Definition CommitmentRiskThinking : LeadershipCommitment := "risk_based_thinking".
Definition CommitmentResources : LeadershipCommitment := "resources_available".
Definition CommitmentImportanceQMS : LeadershipCommitment := "importance_qms".
Definition CommitmentConformity : LeadershipCommitment := "conformity_requirements".
Definition CommitmentQMSResults : LeadershipCommitment := "qms_results".
Definition CommitmentEngagement : LeadershipCommitment := "personnel_engagement".
Definition CommitmentImprovement : LeadershipCommitment := "improvement".
Definition CommitmentCustomerFocus : LeadershipCommitment := "customer_focus".

Record Person := mkPerson {
  Person_ID : string;
  Person_Name : string;
  Person_Role : string;
  Person_Competence : list string;
  Person_Training : list string }.

Record OrganizationalRole := mkRole {
  Role_ID : string;
  Role_Name : string;
  Role_Responsibilities : list string;
  Role_Authorities : list string;
  Role_AssignedTo : string }.

Record QualityPolicy := mkPolicy {
  Policy_ID : string;
  Policy_Statement : string;
  Policy_Objectives : string;
  Policy_Commitment : string;
  Policy_Improvement : string;
  Policy_Communicated : bool;
  Policy_Available : bool;
  Policy_Created : Time;
  Policy_Updated : Time }.

Record Leadership := mkLeadership {
  TopManagement : list Person;
  Leadership_QualityPolicy : option QualityPolicy;
  Roles : list OrganizationalRole;
  Commitment : list LeadershipCommitment }.

Record Exclusion := mkExclusion {
  Exclusion_Clause : string;
  Exclusion_Description : string;
  Exclusion_Justification : string }.

Record QMSScope := mkScope {
  Scope_Description : string;
  Products : list string;
  Services : list string;
  Exclusions : list Exclusion;
  Scope_Justification : string }.

Record ProcessInput := mkProcessInput {
  Input_ID : string; Input_Name : string; Input_Type : string; Input_Source : string }.

Record ProcessOutput := mkProcessOutput {
  Output_ID : string; Output_Name : string; Output_Type : string; Output_Destination : string }.

Record ProcessCriteria := mkProcessCriteria {
  Criteria_ID : string;
  Criteria_Name : string;
  Criteria_Description : string;
  Criteria_Metric : string;
  Criteria_Target : string }.

Record Resource := mkResource {
  Resource_ID : string;
  Resource_Type : string;
  Resource_Name : string;
  Resource_Description : string;
  Resource_Quantity : string;
  Resource_Available : bool }.

Definition ActionType := string.
Definition ActionStatus := string.
Definition ActionStatusCompleted : ActionStatus := "completed".

Record Action := mkAction {
  Action_ID : string;
  Action_Description : string;
  Action_Type : ActionType;
  Action_Responsible : string;
  Action_Timeline : Time;
  Action_Status : ActionStatus;
  Action_Created : Time }.

Definition RiskLevel := string.
Definition RiskLevelVeryLow : RiskLevel := "very_low".
Definition RiskLevelLow : RiskLevel := "low".
Definition RiskLevelMedium : RiskLevel := "medium".
Definition RiskLevelHigh : RiskLevel := "high".
Definition RiskLevelVeryHigh : RiskLevel := "very_high".

(** audit.go declares [Priority]. *)
Definition Priority := string.
Definition PriorityLow : Priority := "low".
Definition PriorityMedium : Priority := "medium".
Definition PriorityHigh : Priority := "high".
Definition PriorityCritical : Priority := "critical".

Definition RiskStatus := string.
Definition RiskStatusIdentified : RiskStatus := "identified".
Definition RiskStatusAssessed : RiskStatus := "assessed".
Definition RiskStatusMitigated : RiskStatus := "mitigated".
Definition RiskStatusMonitored : RiskStatus := "monitored".

Record Risk := mkRisk {
  Risk_ID : string;
  Risk_Description : string;
  Causes : list string;
  Effects : list string;
  Likelihood : RiskLevel;
  Impact : RiskLevel;
  Risk_Priority : Priority;
  Mitigation : list Action;
  Risk_Status : RiskStatus;
  Risk_Created : Time }.

Definition OpportunityLevel := string.
Definition OpportunityStatus := string.
Definition OpportunityStatusIdentified : OpportunityStatus := "identified".
Definition OpportunityStatusPlanned : OpportunityStatus := "planned".
Definition OpportunityStatusImplemented : OpportunityStatus := "implemented".
Definition OpportunityStatusRealized : OpportunityStatus := "realized".

Record Opportunity := mkOpportunity {
  Opp_ID : string;
  Opp_Description : string;
  Benefits : list string;
  Opp_Likelihood : OpportunityLevel;
  Opp_Impact : OpportunityLevel;
  Opp_Priority : Z;
  Opp_Actions : list Action;
  Opp_Status : OpportunityStatus;
  Opp_Created : Time }.

Definition ProcessStatus := string.

Record Process := mkProcess {
  Process_ID : string;
  Process_Name : string;
  Process_Description : string;
  Inputs : list ProcessInput;
  Outputs : list ProcessOutput;
  Process_Resources : list Resource;
  Process_Responsibilities : list string;
  Process_Criteria : list ProcessCriteria;
  Process_Risks : list Risk;
  Process_Opportunities : list Opportunity;
  Process_Status : ProcessStatus;
  Process_Created : Time }.

Record ObjectiveTarget := mkTarget {
  Target_ID : string; Target_Metric : string; Target_Value : string; Target_Unit : string }.

Record ObjectiveTimeline := mkTimeline {
  StartDate : Time; TargetDate : Time; ReviewDate : Time }.

Definition ObjectiveStatus := string.
Definition ObjectiveStatusPlanned : ObjectiveStatus := "planned".
Definition ObjectiveStatusInProgress : ObjectiveStatus := "in_progress".
Definition ObjectiveStatusAchieved : ObjectiveStatus := "achieved".
Definition ObjectiveStatusNotAchieved : ObjectiveStatus := "not_achieved".

Record QualityObjective := mkObjective {
  Objective_ID : string;
  Objective_Name : string;
  Objective_Description : string;
  Measurable : bool;
  Targets : list ObjectiveTarget;
  Responsible : string;
  Timeline : ObjectiveTimeline;
  Objective_Status : ObjectiveStatus;
  Objective_Created : Time }.

Record QualityManagementSystem := mkQMS {
  QMS_ID : string;
  Scope : option QMSScope;
  Processes : list Process;
  Objectives : list QualityObjective;
  Risks : list Risk;
  Opportunities : list Opportunity;
  QMS_Created : Time }.

Record Organization := mkOrganization {
  Org_ID : string;
  Org_Name : string;
  Context : option OrganizationalContext;
  Org_Leadership : option Leadership;
  QMS : option QualityManagementSystem;
  Org_Created : Time;
  Org_Modified : Time }.

(** ** Validation engine (validation.go) *)

Record ValidationError := mkFinding {
  Clause : string;
  Field : string;
  Message : string;
  Severity : string }.

Record ValidationResult := mkResult {
  Valid : bool;
  Errors : list ValidationError;
  Warnings : list ValidationError;
  Infos : list ValidationError }.

(** [&ValidationResult{Valid: true}] *)
Definition newResult : ValidationResult := mkResult true [] [] [].

Definition addError (clause field message : string) (r : ValidationResult) : ValidationResult :=
  mkResult false (Errors r ++ [mkFinding clause field message "error"]) (Warnings r) (Infos r).

Definition addWarning (clause field message : string) (r : ValidationResult) : ValidationResult :=
  mkResult (Valid r) (Errors r) (Warnings r ++ [mkFinding clause field message "warning"]) (Infos r).

Definition addInfo (clause field message : string) (r : ValidationResult) : ValidationResult :=
  mkResult (Valid r) (Errors r) (Warnings r) (Infos r ++ [mkFinding clause field message "info"]).

Definition merge (other r : ValidationResult) : ValidationResult :=
  mkResult (if negb (Valid other) then false else Valid r)
           (Errors r ++ Errors other)
           (Warnings r ++ Warnings other)
           (Infos r ++ Infos other).

(** [if c { r = f r }] *)
Definition when (c : bool) (f : ValidationResult -> ValidationResult)
    (r : ValidationResult) : ValidationResult :=
  if c then f r else r.

(** Statements in sequence, first to last. *)
Definition seq_stmts (fs : list (ValidationResult -> ValidationResult))
    (r : ValidationResult) : ValidationResult :=
  fold_left (fun acc f => f acc) fs r.

(** Clause 4.1 *)
Definition validateContext (org : Organization) : ValidationResult :=
  match Context org with
  | None => addError "4.1" "context" "Organizational context must be defined" newResult
  | Some ctx =>
    seq_stmts [
      when (len0 (ExternalIssues ctx))
        (addWarning "4.1" "external_issues" "No external issues identified - consider reviewing legal, technological, competitive, market, cultural, social and economic environments");
      when (len0 (InternalIssues ctx))
        (addWarning "4.1" "internal_issues" "No internal issues identified - consider reviewing values, culture, knowledge and performance");
      for_range (ExternalIssues ctx ++ InternalIssues ctx) (fun i issue =>
        seq_stmts [
          when (empty (Issue_Description issue))
            (addError "4.1" ("issue_" ++ itoa i ++ "_description") "Issue must have a description");
          when (empty (Issue_Type issue))
            (addError "4.1" ("issue_" ++ itoa i ++ "_type") "Issue must have a type (external/internal)") ])
    ] newResult
  end.

(** The three flags of the clause 4.2 party loop. *)
Record PartyFlags := mkFlags {
  hasCustomers : bool; hasSuppliers : bool; hasRegulators : bool }.

Definition classifyParty (ty : string) (f : PartyFlags) : PartyFlags :=
  if String.eqb ty "customer" then mkFlags true (hasSuppliers f) (hasRegulators f)
  else if String.eqb ty "supplier" || String.eqb ty "external_provider"
    then mkFlags (hasCustomers f) true (hasRegulators f)
  else if String.eqb ty "regulator" || String.eqb ty "authority"
    then mkFlags (hasCustomers f) (hasSuppliers f) true
  else f.

(** Clause 4.2 *)
Definition validateInterestedParties (org : Organization) : ValidationResult :=
  match Context org with
  | None => addError "4.2" "interested_parties" "Interested parties must be identified and their requirements determined" newResult
  | Some ctx =>
    if len0 (InterestedParties ctx)
    then addError "4.2" "interested_parties" "Interested parties must be identified and their requirements determined" newResult
    else
      let '(result, flags) :=
        for_range (InterestedParties ctx) (fun _ party '(r, f) =>
          (seq_stmts [
             when (empty (Party_Name party))
               (addError "4.2" "party_name" "Interested party must have a name");
             when (len0 (Party_Requirements party))
               (addWarning "4.2" ("party_" ++ Party_Name party ++ "_requirements") "No requirements specified for interested party")
           ] r,
           classifyParty (Party_Type party) f))
          (newResult, mkFlags false false false) in
      seq_stmts [
        when (negb (hasCustomers flags))
          (addWarning "4.2" "customers" "No customers identified as interested parties");
        when (negb (hasSuppliers flags))
          (addWarning "4.2" "suppliers" "No suppliers/external providers identified as interested parties");
        when (negb (hasRegulators flags))
          (addInfo "4.2" "regulators" "Consider identifying regulatory authorities as interested parties")
      ] result
  end.

(** Clause 4.3 *)
Definition validateQMSScope (org : Organization) : ValidationResult :=
  match QMS org ≫= Scope with
  | None => addError "4.3" "scope" "QMS scope must be determined and documented" newResult
  | Some scope =>
    seq_stmts [
      when (empty (Scope_Description scope))
        (addError "4.3" "scope_description" "Scope must include a description of products and services covered");
      when (len0 (Products scope) && len0 (Services scope))
        (addError "4.3" "scope_coverage" "Scope must specify the types of products and services covered");
      for_range (Exclusions scope) (fun i exclusion =>
        seq_stmts [
          when (empty (Exclusion_Clause exclusion))
            (addError "4.3" ("exclusion_" ++ itoa i ++ "_clause") "Exclusion must specify which clause is not applicable");
          when (empty (Exclusion_Justification exclusion))
            (addError "4.3" ("exclusion_" ++ itoa i ++ "_justification") "Exclusion must be justified and not affect organization's ability to meet requirements") ])
    ] newResult
  end.

(** Clause 4.4 *)
Definition validateQMSProcesses (org : Organization) : ValidationResult :=
  match QMS org with
  | None => addError "4.4" "processes" "QMS processes must be established, implemented, maintained and continually improved" newResult
  | Some qms =>
    if len0 (Processes qms)
    then addError "4.4" "processes" "QMS processes must be established, implemented, maintained and continually improved" newResult
    else
      for_range (Processes qms) (fun i process =>
        seq_stmts [
          when (empty (Process_Name process))
            (addError "4.4" ("process_" ++ itoa i ++ "_name") "Process must have a name");
          when (len0 (Inputs process))
            (addWarning "4.4" ("process_" ++ Process_Name process ++ "_inputs") "Process inputs should be defined");
          when (len0 (Outputs process))
            (addWarning "4.4" ("process_" ++ Process_Name process ++ "_outputs") "Process outputs should be defined");
          when (len0 (Process_Responsibilities process))
            (addError "4.4" ("process_" ++ Process_Name process ++ "_responsibilities") "Process responsibilities and authorities must be assigned");
          when (len0 (Process_Criteria process))
            (addError "4.4" ("process_" ++ Process_Name process ++ "_criteria") "Process criteria and methods for monitoring must be determined");
          when (len0 (Process_Risks process))
            (addInfo "4.4" ("process_" ++ Process_Name process ++ "_risks") "Consider identifying risks and opportunities for this process") ])
        newResult
  end.

Definition requiredCommitments : list LeadershipCommitment := [
  CommitmentQMSEffectiveness; CommitmentQualityPolicy; CommitmentQMSIntegration;
  CommitmentProcessApproach; CommitmentRiskThinking; CommitmentResources;
  CommitmentImportanceQMS; CommitmentConformity; CommitmentQMSResults;
  CommitmentEngagement; CommitmentImprovement; CommitmentCustomerFocus ].

(** [commitmentMap[c]] for a map that may lack the key: Go's zero value is [false]. *)
Definition lookup_flag (m : gmap LeadershipCommitment bool) (c : LeadershipCommitment) : bool :=
  default false (m !! c).

(** Clause 5.1 *)
Definition validateLeadership (org : Organization) : ValidationResult :=
  match Org_Leadership org with
  | None => addError "5.1" "leadership" "Top management must demonstrate leadership and commitment" newResult
  | Some leadership =>
    let commitmentMap : gmap LeadershipCommitment bool :=
      for_range (Commitment leadership) (fun _ commitment m => <[commitment := true]> m) ∅ in
    seq_stmts [
      when (len0 (TopManagement leadership))
        (addError "5.1" "top_management" "Top management must be identified");
      for_range requiredCommitments (fun _ required =>
        when (negb (lookup_flag commitmentMap required))
          (addError "5.1" "leadership_commitment" ("Missing leadership commitment: " ++ required)))
    ] newResult
  end.

(** Clause 5.2 *)
Definition validateQualityPolicy (org : Organization) : ValidationResult :=
  match Org_Leadership org ≫= Leadership_QualityPolicy with
  | None => addError "5.2" "quality_policy" "Quality policy must be established and maintained" newResult
  | Some policy =>
    seq_stmts [
      when (empty (Policy_Statement policy))
        (addError "5.2" "policy_statement" "Quality policy must include a statement of intent");
      when (empty (Policy_Objectives policy))
        (addError "5.2" "policy_objectives" "Quality policy must provide a framework for setting quality objectives");
      when (empty (Policy_Commitment policy))
        (addError "5.2" "policy_commitment" "Quality policy must include commitment to satisfy applicable requirements");
      when (empty (Policy_Improvement policy))
        (addError "5.2" "policy_improvement" "Quality policy must include commitment to continual improvement");
      when (negb (Policy_Communicated policy))
        (addError "5.2" "policy_communication" "Quality policy must be communicated and understood within the organization");
      when (negb (Policy_Available policy))
        (addError "5.2" "policy_availability" "Quality policy must be available to relevant interested parties")
    ] newResult
  end.

(** Clause 5.3 *)
Definition validateRolesResponsibilities (org : Organization) : ValidationResult :=
  match Org_Leadership org with
  | None => addError "5.3" "roles_responsibilities" "Organizational roles, responsibilities and authorities must be assigned and communicated" newResult
  | Some leadership =>
    if len0 (Roles leadership)
    then addError "5.3" "roles_responsibilities" "Organizational roles, responsibilities and authorities must be assigned and communicated" newResult
    else
      for_range (Roles leadership) (fun i role =>
        seq_stmts [
          when (empty (Role_Name role))
            (addError "5.3" ("role_" ++ itoa i ++ "_name") "Role must have a name");
          when (len0 (Role_Responsibilities role))
            (addError "5.3" ("role_" ++ Role_Name role ++ "_responsibilities") "Role must have defined responsibilities");
          when (len0 (Role_Authorities role))
            (addError "5.3" ("role_" ++ Role_Name role ++ "_authorities") "Role must have defined authorities");
          when (empty (Role_AssignedTo role))
            (addError "5.3" ("role_" ++ Role_Name role ++ "_assignment") "Role must be assigned to a person") ])
        newResult
  end.

(** The two running totals of clause 6.1: the QMS-level lengths, to which the
    loop over the processes adds the lengths of each process's own lists. *)
Definition riskOpportunityTotals (qms : QualityManagementSystem) : nat * nat :=
  for_range (Processes qms) (fun _ process '(totalRisks, totalOpportunities) =>
      (totalRisks + length (Process_Risks process),
       totalOpportunities + length (Process_Opportunities process)))
    (length (Risks qms), length (Opportunities qms)).

(** Clause 6.1 *)
Definition validateRisksOpportunities (org : Organization) : ValidationResult :=
  match QMS org with
  | None => addError "6.1" "qms" "QMS must be defined to validate risks and opportunities" newResult
  | Some qms =>
    let '(totalRisks, totalOpportunities) := riskOpportunityTotals qms in
    seq_stmts [
      when (totalRisks =? 0)%nat
        (addWarning "6.1" "risks" "No risks identified - risk-based thinking should be applied to planning");
      when (totalOpportunities =? 0)%nat
        (addInfo "6.1" "opportunities" "Consider identifying opportunities for improvement");
      for_range (Risks qms) (fun i risk =>
        when (len0 (Mitigation risk) && negb (String.eqb (Risk_Status risk) RiskStatusMitigated))
          (addWarning "6.1" ("risk_" ++ itoa i ++ "_mitigation") "Risk should have mitigation actions defined"));
      for_range (Opportunities qms) (fun i opportunity =>
        when (len0 (Opp_Actions opportunity) && negb (String.eqb (Opp_Status opportunity) OpportunityStatusRealized))
          (addInfo "6.1" ("opportunity_" ++ itoa i ++ "_actions") "Opportunity should have actions defined for realization"))
    ] newResult
  end.

(** Clause 6.2 *)
Definition validateQualityObjectives (org : Organization) : ValidationResult :=
  match QMS org with
  | None => addError "6.2" "quality_objectives" "Quality objectives must be established at relevant functions and levels" newResult
  | Some qms =>
    if len0 (Objectives qms)
    then addError "6.2" "quality_objectives" "Quality objectives must be established at relevant functions and levels" newResult
    else
      for_range (Objectives qms) (fun i objective =>
        seq_stmts [
          when (empty (Objective_Name objective))
            (addError "6.2" ("objective_" ++ itoa i ++ "_name") "Quality objective must have a name");
          when (negb (Measurable objective))
            (addError "6.2" ("objective_" ++ Objective_Name objective ++ "_measurable") "Quality objectives must be measurable");
          when (len0 (Targets objective))
            (addError "6.2" ("objective_" ++ Objective_Name objective ++ "_targets") "Quality objectives must have specific targets");
          when (empty (Responsible objective))
            (addError "6.2" ("objective_" ++ Objective_Name objective ++ "_responsible") "Quality objectives must have responsible parties assigned");
          when (IsZero (TargetDate (Timeline objective)))
            (addError "6.2" ("objective_" ++ Objective_Name objective ++ "_timeline") "Quality objectives must have target dates") ])
        newResult
  end.

Definition ValidateOrganization (org : Organization) : ValidationResult :=
  seq_stmts [
    merge (validateContext org);
    merge (validateInterestedParties org);
    merge (validateQMSScope org);
    merge (validateQMSProcesses org);
    merge (validateLeadership org);
    merge (validateQualityPolicy org);
    merge (validateRolesResponsibilities org);
    merge (validateRisksOpportunities org);
    merge (validateQualityObjectives org)
  ] (mkResult true [] [] []).

(** ** Compliance score (validation.go) *)

(** [float64(n)] of a length. *)
Definition float64_of_int (n : Z) : Q := inject_Z n.

(** [int(x)]: Go's conversion of a float to an integer discards the
    fraction (truncation toward zero). *)
Definition int_of_float64 (x : Q) : Z := Z.quot (Qnum x) (Z.pos (Qden x)).

Definition totalChecks (result : ValidationResult) : Z :=
  Z.of_nat (length (Errors result)) + Z.of_nat (length (Warnings result))
  + Z.of_nat (length (Infos result)).

Definition errorPoints (result : ValidationResult) : Z := Z.of_nat (length (Errors result)) * 3.
Definition warningPoints (result : ValidationResult) : Z := Z.of_nat (length (Warnings result)) * 1.
Definition infoPoints (result : ValidationResult) : Z :=
  int_of_float64 (float64_of_int (Z.of_nat (length (Infos result))) * (1 # 2))%Q.

Definition totalPenaltyPoints (result : ValidationResult) : Z :=
  errorPoints result + warningPoints result + infoPoints result.

Definition maxPossiblePoints (result : ValidationResult) : Z := totalChecks result * 3.

Definition scoreOfResult (result : ValidationResult) : Q :=
  if (totalChecks result =? 0)%Z then 100%Q
  else if (maxPossiblePoints result =? 0)%Z then 100%Q
  else
    let score := (100 * (1 - float64_of_int (totalPenaltyPoints result)
                             / float64_of_int (maxPossiblePoints result)))%Q in
    if Qlt_le_dec score 0 then 0%Q else score.

Definition GetComplianceScore (org : Organization) : Q :=
  scoreOfResult (ValidateOrganization org).

(** Go's [math.Round]: the nearest integer, halves away from zero.  The
    source does not call it; it is the rounding the word "round" denotes and
    serves only to compare the documented penalty with the computed one. *)
Definition math_Round (x : Q) : Z :=
  if Qlt_le_dec x 0 then (- Qfloor (- x + (1 # 2))%Q)%Z else Qfloor (x + (1 # 2))%Q.

(** The score as the documentation words it: the info half-points rounded
    to the nearest integer, once, over the info count. *)
Definition documentedScore (e w i : nat) : Q :=
  let penalty := (3 * Z.of_nat e + 1 * Z.of_nat w
                  + math_Round ((1 # 2) * inject_Z (Z.of_nat i))%Q)%Z in
  let maxPossible := (3 * (Z.of_nat e + Z.of_nat w + Z.of_nat i))%Z in
  let score := (100 * (1 - inject_Z penalty / inject_Z maxPossible))%Q in
  if Qlt_le_dec score 0 then 0%Q else score.

(** The score with the info half-points truncated, as [infoPoints] does. *)
Definition truncatedScore (e w i : nat) : Q :=
  let penalty := (3 * Z.of_nat e + 1 * Z.of_nat w + Z.of_nat i / 2)%Z in
  let maxPossible := (3 * (Z.of_nat e + Z.of_nat w + Z.of_nat i))%Z in
  let score := (100 * (1 - inject_Z penalty / inject_Z maxPossible))%Q in
  if Qlt_le_dec score 0 then 0%Q else score.

(** ** Risk scoring and register (risk_management.go) *)

(** Go's [error]: [None] is [nil]. *)
Definition error := option string.

(** [a >= b] on strings: bytewise lexicographic. *)
Definition str_ge (a b : string) : bool := String.leb b a.

Definition RiskType := string.
Definition RiskTypeOperational : RiskType := "operational".

Record RiskEntry := mkRiskEntry {
  Entry_RiskID : string;
  Entry_Description : string;
  Entry_Type : RiskType;
  Entry_ProcessID : string;
  Probability : RiskLevel;
  Entry_Impact : RiskLevel;
  RiskScore : Z;
  Entry_Priority : string;
  Entry_Status : RiskStatus;
  LastAssessed : Time }.

Record RiskRegister := mkRegister {
  OrganizationRisks : list RiskEntry;
  ProcessRisks : gmap string (list RiskEntry);
  CriticalRisks : list RiskEntry;
  MitigationActions : list Action;
  LastUpdated : Time }.

Record RiskManager := mkRiskManager {
  RM_Risks : gmap string Risk;
  RM_Opportunities : gmap string Opportunity;
  Register : RiskRegister }.

Definition NewRiskManager : RiskManager :=
  mkRiskManager ∅ ∅ (mkRegister [] ∅ [] [] 0%Z).

Definition getRiskScore (level : RiskLevel) : Z :=
  if String.eqb level RiskLevelVeryHigh then 4
  else if String.eqb level RiskLevelHigh then 3
  else if String.eqb level RiskLevelMedium then 2
  else if String.eqb level RiskLevelLow then 1
  else if String.eqb level RiskLevelVeryLow then 1
  else 1.

Definition calculatePriority (likelihood impact : RiskLevel) : Priority :=
  let likelihoodScore := getRiskScore likelihood in
  let impactScore := getRiskScore impact in
  let totalScore := (likelihoodScore * impactScore)%Z in
  if (16 <=? totalScore)%Z then PriorityCritical
  else if (9 <=? totalScore)%Z then PriorityHigh
  else if (4 <=? totalScore)%Z then PriorityMedium
  else PriorityLow.

(** The insertion step of the sort: [x] goes before the first element it is
    less than. *)
Fixpoint insert_by {A : Type} (less : A -> A -> bool) (x : A) (l : list A) : list A :=
  match l with
  | [] => [x]
  | y :: l' => if less x y then x :: y :: l' else y :: insert_by less x l'
  end.

(** [sort.Slice(s, less)].  Its contract is a reordering of [s] in which no
    element is [less] than one before it; which of the equal elements comes
    first is not promised.  The definition is an insertion sort, the method
    of the [sort] package on short slices; the properties of the register
    rest on the contract alone ([sort_Slice_perm], [sort_Slice_sorted]). *)
Definition sort_Slice {A : Type} (less : A -> A -> bool) (s : list A) : list A :=
  fold_left (fun sorted x => insert_by less x sorted) s [].

(** The register entry built for one binding of [rm.Risks]. *)
Definition riskEntry (now : Time) (id : string) (risk : Risk) : RiskEntry :=
  mkRiskEntry id (Risk_Description risk) RiskTypeOperational ""
    (Likelihood risk) (Impact risk)
    (getRiskScore (Likelihood risk) * getRiskScore (Impact risk))%Z
    (Risk_Priority risk) (Risk_Status risk) now.

(** The first reading of the clock stamps the register; the loop reads the
    clock again for each entry, the entry of the binding visited at
    position [i] getting the reading [S i]. *)
Definition updateRegister (now : Clock) (rm : RiskManager) : RiskManager :=
  let lastUpdated := now 0 in
  let orgRisks :=
    for_range (map_to_list (RM_Risks rm)) (fun i '(id, risk) orgRisks =>
      (orgRisks ++ [riskEntry (now (S i)) id risk])%list) [] in
  let orgRisks := sort_Slice (fun a b => (RiskScore b <? RiskScore a)%Z) orgRisks in
  let critical := if (10 <? length orgRisks)%nat then take 10 orgRisks else orgRisks in
  mkRiskManager (RM_Risks rm) (RM_Opportunities rm)
    (mkRegister orgRisks (ProcessRisks (Register rm)) critical
       (MitigationActions (Register rm)) lastUpdated).

(** Field assignments on a [*Risk] and a [*Opportunity]. *)
Definition Risk_identified (now : Time) (r : Risk) : Risk :=
  mkRisk (Risk_ID r) (Risk_Description r) (Causes r) (Effects r) (Likelihood r)
    (Impact r) (Risk_Priority r) (Mitigation r) RiskStatusIdentified now.

Definition Risk_assessed (likelihood impact : RiskLevel) (r : Risk) : Risk :=
  mkRisk (Risk_ID r) (Risk_Description r) (Causes r) (Effects r) likelihood
    impact (calculatePriority likelihood impact) (Mitigation r) RiskStatusAssessed
    (Risk_Created r).

Definition Risk_mitigated (actions : list Action) (r : Risk) : Risk :=
  mkRisk (Risk_ID r) (Risk_Description r) (Causes r) (Effects r) (Likelihood r)
    (Impact r) (Risk_Priority r) (Mitigation r ++ actions)%list RiskStatusMitigated
    (Risk_Created r).

Definition Risk_set_Status (status : RiskStatus) (r : Risk) : Risk :=
  mkRisk (Risk_ID r) (Risk_Description r) (Causes r) (Effects r) (Likelihood r)
    (Impact r) (Risk_Priority r) (Mitigation r) status (Risk_Created r).

Definition Opp_identified (now : Time) (o : Opportunity) : Opportunity :=
  mkOpportunity (Opp_ID o) (Opp_Description o) (Benefits o) (Opp_Likelihood o)
    (Opp_Impact o) (Opp_Priority o) (Opp_Actions o) OpportunityStatusIdentified now.

Definition Opp_planned (actions : list Action) (o : Opportunity) : Opportunity :=
  mkOpportunity (Opp_ID o) (Opp_Description o) (Benefits o) (Opp_Likelihood o)
    (Opp_Impact o) (Opp_Priority o) actions OpportunityStatusPlanned (Opp_Created o).

Definition set_Risks (risks : gmap string Risk) (rm : RiskManager) : RiskManager :=
  mkRiskManager risks (RM_Opportunities rm) (Register rm).

Definition set_Opportunities (opps : gmap string Opportunity) (rm : RiskManager) : RiskManager :=
  mkRiskManager (RM_Risks rm) opps (Register rm).

Definition IdentifyRisk (now : Clock) (risk : Risk) (rm : RiskManager) : error * RiskManager :=
  if empty (Risk_ID risk) then (Some "risk must have an ID", rm)
  else if empty (Risk_Description risk) then (Some "risk must have a description", rm)
  else
    let risk := Risk_identified (now 0) risk in
    (None, updateRegister (later 1 now)
             (set_Risks (<[Risk_ID risk := risk]> (RM_Risks rm)) rm)).

Definition AssessRisk (now : Clock) (riskID : string) (likelihood impact : RiskLevel)
    (rm : RiskManager) : error * RiskManager :=
  match RM_Risks rm !! riskID with
  | None => (Some ("risk with ID " ++ riskID ++ " not found"), rm)
  | Some risk =>
    (None, updateRegister now
             (set_Risks (<[riskID := Risk_assessed likelihood impact risk]> (RM_Risks rm)) rm))
  end.

Definition MitigateRisk (now : Clock) (riskID : string) (actions : list Action)
    (rm : RiskManager) : error * RiskManager :=
  match RM_Risks rm !! riskID with
  | None => (Some ("risk with ID " ++ riskID ++ " not found"), rm)
  | Some risk =>
    (None, updateRegister now
             (set_Risks (<[riskID := Risk_mitigated actions risk]> (RM_Risks rm)) rm))
  end.

Definition MonitorRisk (now : Clock) (riskID : string) (status : RiskStatus)
    (rm : RiskManager) : error * RiskManager :=
  match RM_Risks rm !! riskID with
  | None => (Some ("risk with ID " ++ riskID ++ " not found"), rm)
  | Some risk =>
    (None, updateRegister now
             (set_Risks (<[riskID := Risk_set_Status status risk]> (RM_Risks rm)) rm))
  end.

Definition IdentifyOpportunity (now : Clock) (opportunity : Opportunity)
    (rm : RiskManager) : error * RiskManager :=
  if empty (Opp_ID opportunity) then (Some "opportunity must have an ID", rm)
  else if empty (Opp_Description opportunity)
    then (Some "opportunity must have a description", rm)
  else
    let opportunity := Opp_identified (now 0) opportunity in
    (None, updateRegister (later 1 now)
             (set_Opportunities (<[Opp_ID opportunity := opportunity]> (RM_Opportunities rm)) rm)).

Definition RealizeOpportunity (now : Clock) (opportunityID : string) (actions : list Action)
    (rm : RiskManager) : error * RiskManager :=
  match RM_Opportunities rm !! opportunityID with
  | None => (Some ("opportunity with ID " ++ opportunityID ++ " not found"), rm)
  | Some opportunity =>
    (None, updateRegister now
             (set_Opportunities (<[opportunityID := Opp_planned actions opportunity]>
                                   (RM_Opportunities rm)) rm))
  end.

(** The risks a [for _, risk := range rm.Risks] loop visits. *)
Definition range_Risks (rm : RiskManager) : list Risk := (map_to_list (RM_Risks rm)).*2.

Definition isCriticalRisk (risk : Risk) : bool :=
  String.eqb (Impact risk) RiskLevelVeryHigh && str_ge (Likelihood risk) RiskLevelHigh.

Definition GetCriticalRisks (rm : RiskManager) : list Risk :=
  for_range (range_Risks rm) (fun _ risk critical =>
    if isCriticalRisk risk then (critical ++ [risk])%list else critical) [].

(** The operations of the risk manager that recompute the register. *)
Inductive RiskOp :=
| OpIdentifyRisk (risk : Risk)
| OpAssessRisk (riskID : string) (likelihood impact : RiskLevel)
| OpMitigateRisk (riskID : string) (actions : list Action)
| OpMonitorRisk (riskID : string) (status : RiskStatus)
| OpIdentifyOpportunity (opportunity : Opportunity)
| OpRealizeOpportunity (opportunityID : string) (actions : list Action).

Definition runRiskOp (now : Clock) (op : RiskOp) (rm : RiskManager) : error * RiskManager :=
  match op with
  | OpIdentifyRisk risk => IdentifyRisk now risk rm
  | OpAssessRisk id l i => AssessRisk now id l i rm
  | OpMitigateRisk id actions => MitigateRisk now id actions rm
  | OpMonitorRisk id status => MonitorRisk now id status rm
  | OpIdentifyOpportunity o => IdentifyOpportunity now o rm
  | OpRealizeOpportunity id actions => RealizeOpportunity now id actions rm
  end.

(** The five levels of the scale, and the weight the documentation gives
    each. *)
Inductive Level := VeryLow | Low | Medium | High | VeryHigh.

Definition levelName (l : Level) : RiskLevel :=
  match l with
  | VeryLow => RiskLevelVeryLow
  | Low => RiskLevelLow
  | Medium => RiskLevelMedium
  | High => RiskLevelHigh
  | VeryHigh => RiskLevelVeryHigh
  end.

Definition weight (l : Level) : Z :=
  match l with VeryLow => 1 | Low => 1 | Medium => 2 | High => 3 | VeryHigh => 4 end.

(** The priority tier of a score, as the table of the documentation gives it. *)
Definition tierOfScore (score : Z) : Priority :=
  if (16 <=? score)%Z then "critical"
  else if (9 <=? score)%Z then "high"
  else if (4 <=? score)%Z then "medium"
  else "low".

(** The score a register entry gets for a (likelihood, impact) pair. *)
Definition riskScore (likelihood impact : RiskLevel) : Z :=
  (getRiskScore likelihood * getRiskScore impact)%Z.

(** ** Quality objectives manager (risk_management.go) *)

(** A [float64] as far as the comparisons of the source see it: a finite
    value is the rational it denotes. *)
Inductive float64 :=
| F64_NaN
| F64_Inf (negative : bool)
| F64_Fin (q : Q).

(** [x >= c] and [x > c] against a finite constant; both are false on NaN. *)
Definition f64_ge (x : float64) (c : Q) : bool :=
  match x with
  | F64_NaN => false
  | F64_Inf negative => negb negative
  | F64_Fin q => Qle_bool c q
  end.

Definition f64_gt (x : float64) (c : Q) : bool :=
  match x with
  | F64_NaN => false
  | F64_Inf negative => negb negative
  | F64_Fin q => negb (Qle_bool q c)
  end.

Record ObjectiveProgress := mkProgress {
  Progress_ObjectiveID : string;
  Progress_Date : Time;
  Progress : float64;
  Progress_Status : string;
  Comments : string }.

Record ObjectiveAchievement := mkAchievement {
  Achievement_ObjectiveID : string;
  AchievedDate : Time;
  Evidence : string;
  Celebrated : bool }.

Record ObjectiveTrend := mkTrend {
  Trend_ObjectiveID : string;
  Period : string;
  Trend : string;
  Data : list float64 }.

Record ObjectivesTracker := mkTracker {
  ProgressReports : list ObjectiveProgress;
  Achievements : list ObjectiveAchievement;
  Trends : list ObjectiveTrend }.

Record QualityObjectivesManager := mkQOM {
  QOM_Objectives : gmap string QualityObjective;
  Tracker : ObjectivesTracker }.

Definition NewQualityObjectivesManager : QualityObjectivesManager :=
  mkQOM ∅ (mkTracker [] [] []).

Definition Objective_created (now : Time) (o : QualityObjective) : QualityObjective :=
  mkObjective (Objective_ID o) (Objective_Name o) (Objective_Description o) (Measurable o)
    (Targets o) (Responsible o) (Timeline o) ObjectiveStatusPlanned now.

Definition Objective_set_Status (status : ObjectiveStatus) (o : QualityObjective)
    : QualityObjective :=
  mkObjective (Objective_ID o) (Objective_Name o) (Objective_Description o) (Measurable o)
    (Targets o) (Responsible o) (Timeline o) status (Objective_Created o).

Definition CreateObjective (now : Clock) (objective : QualityObjective)
    (qom : QualityObjectivesManager) : error * QualityObjectivesManager :=
  if empty (Objective_ID objective) then (Some "objective must have an ID", qom)
  else if empty (Objective_Name objective) then (Some "objective must have a name", qom)
  else if negb (Measurable objective) then (Some "quality objectives must be measurable", qom)
  else if len0 (Targets objective) then (Some "objective must have targets", qom)
  else if empty (Responsible objective)
    then (Some "objective must have a responsible party", qom)
  else
    let objective := Objective_created (now 0) objective in
    (None, mkQOM (<[Objective_ID objective := objective]> (QOM_Objectives qom)) (Tracker qom)).

Definition UpdateObjectiveProgress (objectiveID : string) (progress : ObjectiveProgress)
    (qom : QualityObjectivesManager) : error * QualityObjectivesManager :=
  match QOM_Objectives qom !! objectiveID with
  | None => (Some ("objective with ID " ++ objectiveID ++ " not found"), qom)
  | Some objective =>
    let progress := mkProgress objectiveID (Progress_Date progress) (Progress progress)
                      (Progress_Status progress) (Comments progress) in
    let reports := (ProgressReports (Tracker qom) ++ [progress])%list in
    if f64_ge (Progress progress) 100 then
      let achievement := mkAchievement objectiveID (Progress_Date progress)
                           (Comments progress) false in
      (None, mkQOM (<[objectiveID := Objective_set_Status ObjectiveStatusAchieved objective]>
                      (QOM_Objectives qom))
                   (mkTracker reports
                      (Achievements (Tracker qom) ++ [achievement])%list
                      (Trends (Tracker qom))))
    else if f64_gt (Progress progress) 0 then
      (None, mkQOM (<[objectiveID := Objective_set_Status ObjectiveStatusInProgress objective]>
                      (QOM_Objectives qom))
                   (mkTracker reports (Achievements (Tracker qom)) (Trends (Tracker qom))))
    else
      (None, mkQOM (QOM_Objectives qom)
                   (mkTracker reports (Achievements (Tracker qom)) (Trends (Tracker qom))))
  end.

(** The status an objective has after one progress report, given the status
    it had: what the two branches of [UpdateObjectiveProgress] assign. *)
Definition statusAfterReport (status : ObjectiveStatus) (p : float64) : ObjectiveStatus :=
  if f64_ge p 100 then ObjectiveStatusAchieved
  else if f64_gt p 0 then ObjectiveStatusInProgress
  else status.

(** A sequence of progress reports on one objective, in order; a failed call
    leaves the manager as it was. *)
Definition reportAll (objectiveID : string) (reports : list ObjectiveProgress)
    (qom : QualityObjectivesManager) : QualityObjectivesManager :=
  fold_left (fun qom p => snd (UpdateObjectiveProgress objectiveID p qom)) reports qom.


Inductive ObjectiveOp :=
| OpCreateObjective (objective : QualityObjective)
| OpUpdateObjectiveProgress (objectiveID : string) (progress : ObjectiveProgress).

Definition runObjectiveOp (now : Clock) (op : ObjectiveOp) (qom : QualityObjectivesManager)
    : error * QualityObjectivesManager :=
  match op with
  | OpCreateObjective objective => CreateObjective now objective qom
  | OpUpdateObjectiveProgress id progress => UpdateObjectiveProgress id progress qom
  end.

(** ** Audit manager (audit.go) *)

Definition AuditType := string.
Definition AuditStatus := string.
Definition AuditStatusPlanned : AuditStatus := "planned".
Definition AuditStatusInProgress : AuditStatus := "in_progress".
Definition AuditStatusCompleted : AuditStatus := "completed".
Definition AuditStatusReported : AuditStatus := "reported".
Definition AuditStatusClosed : AuditStatus := "closed".

Definition ReviewStatus := string.
Definition ReviewStatusPending : ReviewStatus := "pending".
Definition ReviewStatusCompleted : ReviewStatus := "completed".

Record AuditScope := mkAuditScope {
  AuditScope_Description : string;
  AuditScope_Processes : list string;
  Locations : list string;
  Departments : list string;
  AuditScope_Clauses : list string;
  AuditScope_Exclusions : list string;
  AuditScope_Objectives : list string }.

Record AuditParticipant := mkParticipant {
  Participant_ID : string;
  Participant_Name : string;
  Participant_Role : string;
  Participant_Competence : list string }.

Record CorrectiveAction := mkCorrectiveAction {
  CA_ID : string;
  CA_Description : string;
  CA_RootCause : string;
  CA_Actions : list string;
  CA_Responsible : string;
  CA_DueDate : Time;
  CA_Status : ActionStatus;
  Verification : string }.

Record AuditFinding := mkAuditFinding {
  Finding_ID : string;
  Finding_Clause : string;
  Finding_Description : string;
  Finding_Evidence : string;
  Finding_Severity : string;
  Finding_Category : string;
  Finding_RootCause : string;
  Finding_Process : string;
  Finding_Responsible : string;
  Finding_DueDate : Time;
  Finding_Status : string;
  CorrectiveActions : list CorrectiveAction;
  Finding_Created : Time }.

Record AuditRecommendation := mkRecommendation {
  Rec_ID : string;
  Rec_Description : string;
  Rec_Priority : Priority;
  Rec_Category : string;
  Rec_Responsible : string;
  Rec_Timeline : Time;
  Rec_Status : ActionStatus }.

Record AuditReport := mkAuditReport {
  Report_ID : string;
  Summary : string;
  Conclusions : string;
  Effectiveness : string;
  Report_Recommendations : list AuditRecommendation;
  IssuedDate : Time;
  ReviewedBy : string;
  ApprovedBy : string }.

Record AuditRisk := mkAuditRisk {
  AuditRisk_Level : RiskLevel;
  AuditRisk_Description : string;
  Mitigations : list string }.

Record Audit := mkAudit {
  Audit_ID : string;
  Audit_Title : string;
  Audit_Type : AuditType;
  Audit_Scope : AuditScope;
  PlannedStartDate : Time;
  PlannedEndDate : Time;
  ActualStartDate : option Time;
  ActualEndDate : option Time;
  Auditors : list AuditParticipant;
  Auditees : list AuditParticipant;
  Findings : list AuditFinding;
  Audit_Recommendations : list AuditRecommendation;
  Report : option AuditReport;
  Audit_Status : AuditStatus;
  RiskAssessment : AuditRisk;
  Audit_Created : Time;
  Audit_Modified : Time }.

Record ReviewAttendee := mkAttendee {
  Attendee_ID : string;
  Attendee_Name : string;
  Attendee_Role : string;
  Present : bool }.

Definition Audit_created (created modified : Time) (a : Audit) : Audit :=
  mkAudit (Audit_ID a) (Audit_Title a) (Audit_Type a) (Audit_Scope a) (PlannedStartDate a)
    (PlannedEndDate a) (ActualStartDate a) (ActualEndDate a) (Auditors a) (Auditees a)
    (Findings a) (Audit_Recommendations a) (Report a) AuditStatusPlanned (RiskAssessment a)
    created modified.

Definition Audit_started (now startDate : Time) (a : Audit) : Audit :=
  mkAudit (Audit_ID a) (Audit_Title a) (Audit_Type a) (Audit_Scope a) (PlannedStartDate a)
    (PlannedEndDate a) (Some startDate) (ActualEndDate a) (Auditors a) (Auditees a)
    (Findings a) (Audit_Recommendations a) (Report a) AuditStatusInProgress (RiskAssessment a)
    (Audit_Created a) now.

Definition Finding_set_Created (now : Time) (f : AuditFinding) : AuditFinding :=
  mkAuditFinding (Finding_ID f) (Finding_Clause f) (Finding_Description f) (Finding_Evidence f)
    (Finding_Severity f) (Finding_Category f) (Finding_RootCause f) (Finding_Process f)
    (Finding_Responsible f) (Finding_DueDate f) (Finding_Status f) (CorrectiveActions f) now.

Definition Audit_add_finding (modified : Time) (finding : AuditFinding) (a : Audit) : Audit :=
  mkAudit (Audit_ID a) (Audit_Title a) (Audit_Type a) (Audit_Scope a) (PlannedStartDate a)
    (PlannedEndDate a) (ActualStartDate a) (ActualEndDate a) (Auditors a) (Auditees a)
    (Findings a ++ [finding])%list (Audit_Recommendations a) (Report a)
    (Audit_Status a) (RiskAssessment a) (Audit_Created a) modified.

Definition Audit_completed (now endDate : Time) (report : option AuditReport) (a : Audit)
    : Audit :=
  mkAudit (Audit_ID a) (Audit_Title a) (Audit_Type a) (Audit_Scope a) (PlannedStartDate a)
    (PlannedEndDate a) (ActualStartDate a) (Some endDate) (Auditors a) (Auditees a)
    (Findings a) (Audit_Recommendations a) report AuditStatusCompleted (RiskAssessment a)
    (Audit_Created a) now.

Section AuditManager.

(** The input and output dossiers of a management review (clauses 9.3.2
    and 9.3.3) are lists of report records that no operation of the
    manager reads; the manager is generic in them. *)
Variables ManagementReviewInputs ManagementReviewOutputs : Type.

#[local] Set Warnings "-register-all".
Inductive ManagementReview := mkReview {
  Review_ID : string;
  Review_Title : string;
  Review_Date : Time;
  Attendees : list ReviewAttendee;
  Review_Inputs : ManagementReviewInputs;
  Review_Outputs : ManagementReviewOutputs;
  Review_Status : ReviewStatus;
  FollowUp : option ManagementReview;
  Review_Created : Time }.
#[local] Set Warnings "register-all".

Record AuditManager := mkAuditManager {
  Audits : gmap string Audit;
  ManagementReviews : gmap string ManagementReview }.

Definition NewAuditManager : AuditManager := mkAuditManager ∅ ∅.

Definition Review_created (now : Time) (r : ManagementReview) : ManagementReview :=
  mkReview (Review_ID r) (Review_Title r) (Review_Date r) (Attendees r) (Review_Inputs r)
    (Review_Outputs r) ReviewStatusPending (FollowUp r) now.

Definition Review_completed (outputs : ManagementReviewOutputs) (r : ManagementReview)
    : ManagementReview :=
  mkReview (Review_ID r) (Review_Title r) (Review_Date r) (Attendees r) (Review_Inputs r)
    outputs ReviewStatusCompleted (FollowUp r) (Review_Created r).

Definition CreateAudit (now : Clock) (audit : Audit) (am : AuditManager)
    : error * AuditManager :=
  if empty (Audit_ID audit) then (Some "audit must have an ID", am)
  else if empty (Audit_Title audit) then (Some "audit must have a title", am)
  else if empty (AuditScope_Description (Audit_Scope audit))
    then (Some "audit must have a defined scope", am)
  else
    let audit := Audit_created (now 0) (now 1) audit in
    (None, mkAuditManager (<[Audit_ID audit := audit]> (Audits am)) (ManagementReviews am)).

Definition StartAudit (now : Clock) (auditID : string) (startDate : Time) (am : AuditManager)
    : error * AuditManager :=
  match Audits am !! auditID with
  | None => (Some ("audit with ID " ++ auditID ++ " not found"), am)
  | Some audit =>
    if negb (String.eqb (Audit_Status audit) AuditStatusPlanned)
    then (Some "audit is not in planned status", am)
    else (None, mkAuditManager (<[auditID := Audit_started (now 0) startDate audit]> (Audits am))
                  (ManagementReviews am))
  end.

Definition AddFinding (now : Clock) (auditID : string) (finding : AuditFinding)
    (am : AuditManager) : error * AuditManager :=
  match Audits am !! auditID with
  | None => (Some ("audit with ID " ++ auditID ++ " not found"), am)
  | Some audit =>
    let finding := Finding_set_Created (now 0) finding in
    (None, mkAuditManager (<[auditID := Audit_add_finding (now 1) finding audit]> (Audits am))
             (ManagementReviews am))
  end.

Definition CompleteAudit (now : Clock) (auditID : string) (endDate : Time)
    (report : option AuditReport) (am : AuditManager) : error * AuditManager :=
  match Audits am !! auditID with
  | None => (Some ("audit with ID " ++ auditID ++ " not found"), am)
  | Some audit =>
    (None, mkAuditManager (<[auditID := Audit_completed (now 0) endDate report audit]>
                             (Audits am))
             (ManagementReviews am))
  end.

Definition CreateManagementReview (now : Clock) (review : ManagementReview)
    (am : AuditManager) : error * AuditManager :=
  if empty (Review_ID review) then (Some "management review must have an ID", am)
  else if empty (Review_Title review) then (Some "management review must have a title", am)
  else
    let review := Review_created (now 0) review in
    (None, mkAuditManager (Audits am) (<[Review_ID review := review]> (ManagementReviews am))).

Definition CompleteManagementReview (reviewID : string) (outputs : ManagementReviewOutputs)
    (am : AuditManager) : error * AuditManager :=
  match ManagementReviews am !! reviewID with
  | None => (Some ("management review with ID " ++ reviewID ++ " not found"), am)
  | Some review =>
    (None, mkAuditManager (Audits am)
             (<[reviewID := Review_completed outputs review]> (ManagementReviews am)))
  end.

Inductive AuditOp :=
| OpCreateAudit (audit : Audit)
| OpStartAudit (auditID : string) (startDate : Time)
| OpAddFinding (auditID : string) (finding : AuditFinding)
| OpCompleteAudit (auditID : string) (endDate : Time) (report : option AuditReport)
| OpCreateManagementReview (review : ManagementReview)
| OpCompleteManagementReview (reviewID : string) (outputs : ManagementReviewOutputs).

Definition runAuditOp (now : Clock) (op : AuditOp) (am : AuditManager) : error * AuditManager :=
  match op with
  | OpCreateAudit audit => CreateAudit now audit am
  | OpStartAudit id startDate => StartAudit now id startDate am
  | OpAddFinding id finding => AddFinding now id finding am
  | OpCompleteAudit id endDate report => CompleteAudit now id endDate report am
  | OpCreateManagementReview review => CreateManagementReview now review am
  | OpCompleteManagementReview id outputs => CompleteManagementReview id outputs am
  end.

(** *** Calls on the three managers and their preconditions *)

(** One call: an operation together with the manager it is applied to. *)
Inductive ManagerCall :=
| RiskCall (op : RiskOp) (rm : RiskManager)
| ObjectiveCall (op : ObjectiveOp) (qom : QualityObjectivesManager)
| AuditCall (op : AuditOp) (am : AuditManager).

Inductive ManagerState :=
| RiskState (rm : RiskManager)
| ObjectiveState (qom : QualityObjectivesManager)
| AuditState (am : AuditManager).

Definition stateBefore (c : ManagerCall) : ManagerState :=
  match c with
  | RiskCall _ rm => RiskState rm
  | ObjectiveCall _ qom => ObjectiveState qom
  | AuditCall _ am => AuditState am
  end.

Definition runCall (now : Clock) (c : ManagerCall) : error * ManagerState :=
  match c with
  | RiskCall op rm => let '(e, rm') := runRiskOp now op rm in (e, RiskState rm')
  | ObjectiveCall op qom => let '(e, qom') := runObjectiveOp now op qom in (e, ObjectiveState qom')
  | AuditCall op am => let '(e, am') := runAuditOp now op am in (e, AuditState am')
  end.

(** [exists] of a map lookup. *)
Definition known {V} (m : gmap string V) (id : string) : bool := bool_decide (is_Some (m !! id)).

(** The precondition of a call, as the documentation words it: the
    required fields are present, the referenced ID exists, and an audit
    to be started is in planned status. *)
Definition precondition (c : ManagerCall) : bool :=
  match c with
  | RiskCall (OpIdentifyRisk risk) _ =>
      negb (empty (Risk_ID risk)) && negb (empty (Risk_Description risk))
  | RiskCall (OpAssessRisk id _ _) rm => known (RM_Risks rm) id
  | RiskCall (OpMitigateRisk id _) rm => known (RM_Risks rm) id
  | RiskCall (OpMonitorRisk id _) rm => known (RM_Risks rm) id
  | RiskCall (OpIdentifyOpportunity o) _ =>
      negb (empty (Opp_ID o)) && negb (empty (Opp_Description o))
  | RiskCall (OpRealizeOpportunity id _) rm => known (RM_Opportunities rm) id
  | ObjectiveCall (OpCreateObjective o) _ =>
      negb (empty (Objective_ID o)) && negb (empty (Objective_Name o)) && Measurable o
      && negb (len0 (Targets o)) && negb (empty (Responsible o))
  | ObjectiveCall (OpUpdateObjectiveProgress id _) qom => known (QOM_Objectives qom) id
  | AuditCall (OpCreateAudit a) _ =>
      negb (empty (Audit_ID a)) && negb (empty (Audit_Title a))
      && negb (empty (AuditScope_Description (Audit_Scope a)))
  | AuditCall (OpStartAudit id _) am =>
      match Audits am !! id with
      | Some a => String.eqb (Audit_Status a) AuditStatusPlanned
      | None => false
      end
  | AuditCall (OpAddFinding id _) am => known (Audits am) id
  | AuditCall (OpCompleteAudit id _ _) am => known (Audits am) id
  | AuditCall (OpCreateManagementReview r) _ =>
      negb (empty (Review_ID r)) && negb (empty (Review_Title r))
  | AuditCall (OpCompleteManagementReview id _) am => known (ManagementReviews am) id
  end.

End AuditManager.

(** ** Sample data *)

(** A clock that reads [t] first and one unit more at each later reading. *)
Definition clockFrom (t : Time) : Clock := fun i => (t + Z.of_nat i)%Z.

Definition sampleIssue (ty : IssueType) : Issue :=
  mkIssue "ISSUE-1" "Market pressure" ty "medium" "active" 1%Z.

Definition sampleCustomer : InterestedParty :=
  mkInterestedParty "P-1" "Customers" "customer" ["Quality products"].
Definition sampleSupplier : InterestedParty :=
  mkInterestedParty "P-2" "Suppliers" "supplier" ["Clear specifications"].
Definition sampleRegulator : InterestedParty :=
  mkInterestedParty "P-3" "Regulator" "regulator" ["Compliance"].

Definition sampleAction : Action :=
  mkAction "A-1" "Train staff" "mitigation" "QM" 10%Z "planned" 1%Z.

Definition sampleRisk (likelihood impact : RiskLevel) : Risk :=
  mkRisk "RISK-001" "Supplier failure" ["single source"] ["late delivery"]
    likelihood impact "" [] "" 0%Z.

(** An opportunity with actions planned, and one without any. *)
Definition plannedOpportunity : Opportunity :=
  mkOpportunity "OPP-1" "New market" ["growth"] "medium" "medium" 1%Z [sampleAction]
    "planned" 1%Z.
Definition bareOpportunity : Opportunity :=
  mkOpportunity "OPP-2" "Automation" ["speed"] "medium" "medium" 1%Z [] "identified" 1%Z.

Definition sampleProcess : Process :=
  mkProcess "PROC-1" "Production" "Making things"
    [mkProcessInput "I-1" "Orders" "data" "Sales"]
    [mkProcessOutput "O-1" "Goods" "product" "Customer"]
    [] ["Plant manager"]
    [mkProcessCriteria "C-1" "Yield" "First pass yield" "yield" "98%"]
    [sampleRisk "medium" "medium"] [] "implemented" 1%Z.

Definition sampleObjective : QualityObjective :=
  mkObjective "OBJ-001" "Reduce defects" "Fewer defects" true
    [mkTarget "T-1" "defect_rate" "1" "percent"] "Quality manager"
    (mkTimeline 1%Z 100%Z 50%Z) "" 0%Z.

Definition samplePolicy : QualityPolicy :=
  mkPolicy "POL-1" "We deliver quality" "Framework for objectives"
    "We satisfy requirements" "We improve continually" true true 1%Z 1%Z.

Definition sampleLeadership (commitments : list LeadershipCommitment) : Leadership :=
  mkLeadership [mkPerson "PER-1" "Director" "CEO" [] []] (Some samplePolicy)
    [mkRole "ROLE-1" "Quality manager" ["QMS upkeep"] ["Stop shipment"] "PER-1"]
    commitments.

(** An organization complete in every clause except for what its interested
    parties, its QMS-level risks and its QMS-level opportunities bring. *)
Definition sampleQMS (risks : list Risk) (opportunities : list Opportunity)
    : QualityManagementSystem :=
  mkQMS "QMS-1" (Some (mkScope "Manufacturing" ["Widgets"] [] [] ""))
    [sampleProcess] [sampleObjective] risks opportunities 1%Z.

Definition sampleOrganization (parties : list InterestedParty) (risks : list Risk)
    (opportunities : list Opportunity) : Organization :=
  mkOrganization "ORG-1" "Acme"
    (Some (mkContext [sampleIssue IssueTypeExternal] [sampleIssue IssueTypeInternal] parties))
    (Some (sampleLeadership requiredCommitments))
    (Some (sampleQMS risks opportunities))
    1%Z 1%Z.

(** No finding at all. *)
Definition cleanOrganization : Organization :=
  sampleOrganization [sampleCustomer; sampleSupplier; sampleRegulator] [] [plannedOpportunity].

(** One info finding (no regulator among the parties) and nothing else. *)
Definition oneInfoOrganization : Organization :=
  sampleOrganization [sampleCustomer; sampleSupplier] [] [plannedOpportunity].

(** Two info findings and nothing else: no regulator, and one QMS-level
    opportunity without actions. *)
Definition twoInfoOrganization : Organization :=
  sampleOrganization [sampleCustomer; sampleSupplier] [] [bareOpportunity].

(** Three info findings and nothing else: no regulator, and two QMS-level
    opportunities without actions. *)
Definition threeInfoOrganization : Organization :=
  sampleOrganization [sampleCustomer; sampleSupplier] [] [bareOpportunity; bareOpportunity].

(** One unmitigated risk at the QMS level, next to the unmitigated risk
    nested in the process. *)
Definition nestedRiskOrganization : Organization :=
  sampleOrganization [sampleCustomer; sampleSupplier; sampleRegulator]
    [sampleRisk "high" "high"] [plannedOpportunity].

(** A leadership block lacking two of the twelve commitments. *)
Definition partialLeadershipOrganization : Organization :=
  mkOrganization "ORG-2" "Partial" None
    (Some (sampleLeadership [CommitmentCustomerFocus; CommitmentQualityPolicy;
       CommitmentQMSEffectiveness; CommitmentQMSIntegration; CommitmentProcessApproach;
       CommitmentResources; CommitmentImportanceQMS; CommitmentConformity;
       CommitmentQMSResults; CommitmentImprovement]))
    None 1%Z 1%Z.

(** A manager with one risk assessed as likelihood low, impact very high. *)
Definition lowLikelihoodManager : RiskManager :=
  snd (AssessRisk (clockFrom 2%Z) "RISK-001" RiskLevelLow RiskLevelVeryHigh
         (snd (IdentifyRisk (clockFrom 1%Z) (sampleRisk "" "") NewRiskManager))).

(** A manager on which eleven risks were identified and assessed, the
    [n]-th with likelihood medium and an impact that varies with [n]. *)
Definition numberedRisk (n : nat) : Risk :=
  mkRisk ("R" ++ itoa n) "Numbered risk" [] [] "" "" "" [] "" 0%Z.

Definition identifyAndAssess (rm : RiskManager) (n : nat) : RiskManager :=
  snd (AssessRisk (clockFrom 2%Z) ("R" ++ itoa n) RiskLevelMedium
         (if Nat.even n then RiskLevelHigh else RiskLevelLow)
         (snd (IdentifyRisk (clockFrom 1%Z) (numberedRisk n) rm))).

Definition tenRisksManager : RiskManager :=
  fold_left identifyAndAssess (seq 1 10) NewRiskManager.

Definition elevenRisksManager : RiskManager :=
  snd (runRiskOp (clockFrom 3%Z) (OpIdentifyRisk (numberedRisk 11)) tenRisksManager).

Definition sampleAudit : Audit :=
  mkAudit "AUDIT-001" "Internal audit" "internal"
    (mkAuditScope "Clauses 4 and 5" [] [] [] ["4"; "5"] [] [])
    7%Z 10%Z None None [mkParticipant "AUD-1" "Lead auditor" "Lead Auditor" ["QMS"]] [] [] []
    None "" (mkAuditRisk "" "" []) 0%Z 0%Z.

(** An audit manager whose one audit has been started. *)
Definition startedAuditManager : AuditManager unit unit :=
  snd (StartAudit unit unit (clockFrom 2%Z) "AUDIT-001" 2%Z
         (snd (CreateAudit unit unit (clockFrom 1%Z) sampleAudit (NewAuditManager unit unit)))).

(** Starting that audit a second time. *)
Definition secondStart : ManagerCall unit unit :=
  AuditCall unit unit (OpStartAudit unit unit "AUDIT-001" 3%Z) startedAuditManager.

(** A manager with one objective, as [CreateObjective] registers it. *)
Definition oneObjectiveManager : QualityObjectivesManager :=
  snd (CreateObjective (clockFrom 1%Z) sampleObjective NewQualityObjectivesManager).

Definition report (p : Q) : ObjectiveProgress :=
  mkProgress "" 5%Z (F64_Fin p) "on_track" "progress note".

(** ** What a validation statement emits *)

(** A statement [f] on the result under construction emits the findings
    [e], [w], [i] when, whatever the result so far, it appends exactly these
    to the three lists. *)
Definition emits (f : ValidationResult -> ValidationResult)
    (e w i : list ValidationError) : Prop :=
  forall r, Errors (f r) = (Errors r ++ e)%list
         /\ Warnings (f r) = (Warnings r ++ w)%list
         /\ Infos (f r) = (Infos r ++ i)%list.

(** The findings of a loop: those of each element, in order, the elements
    numbered from [i]. *)
Fixpoint findings_from {A : Type} (i : nat) (l : list A)
    (f : nat -> A -> list ValidationError) : list ValidationError :=
  match l with
  | [] => []
  | x :: l' => (f i x ++ findings_from (S i) l' f)%list
  end.

#[global] Instance ValidationError_eq_dec : EqDecision ValidationError.
Proof. solve_decision. Defined.

(** The findings the clause checkers word. *)
Definition topManagementError : ValidationError :=
  mkFinding "5.1" "top_management" "Top management must be identified" "error".

Definition missingCommitmentError (c : LeadershipCommitment) : ValidationError :=
  mkFinding "5.1" "leadership_commitment" ("Missing leadership commitment: " ++ c) "error".

Definition noRisksWarning : ValidationError :=
  mkFinding "6.1" "risks"
    "No risks identified - risk-based thinking should be applied to planning" "warning".

Definition noOpportunitiesInfo : ValidationError :=
  mkFinding "6.1" "opportunities" "Consider identifying opportunities for improvement" "info".

Definition riskMitigationWarning (i : nat) : ValidationError :=
  mkFinding "6.1" ("risk_" ++ itoa i ++ "_mitigation")
    "Risk should have mitigation actions defined" "warning".

Definition opportunityActionsInfo (i : nat) : ValidationError :=
  mkFinding "6.1" ("opportunity_" ++ itoa i ++ "_actions")
    "Opportunity should have actions defined for realization" "info".

(** A risk without mitigation actions that is not in mitigated status; an
    opportunity without actions that is not realized. *)
Definition unmitigated (risk : Risk) : bool :=
  len0 (Mitigation risk) && negb (String.eqb (Risk_Status risk) RiskStatusMitigated).

Definition unplanned (opportunity : Opportunity) : bool :=
  len0 (Opp_Actions opportunity)
  && negb (String.eqb (Opp_Status opportunity) OpportunityStatusRealized).

(** The per-record findings of clause 6.1 for a list of risks and a list of
    opportunities. *)
Definition perRiskWarnings (risks : list Risk) : list ValidationError :=
  findings_from 0 risks (fun i risk => if unmitigated risk then [riskMitigationWarning i] else []).

Definition perOpportunityInfos (opportunities : list Opportunity) : list ValidationError :=
  findings_from 0 opportunities
    (fun i o => if unplanned o then [opportunityActionsInfo i] else []).

(** All risks and all opportunities of a QMS: its own lists followed by the
    lists nested in its processes, nothing removed. *)
Definition flattenedRisks (qms : QualityManagementSystem) : list Risk :=
  (Risks qms ++ flat_map Process_Risks (Processes qms))%list.

Definition flattenedOpportunities (qms : QualityManagementSystem) : list Opportunity :=
  (Opportunities qms ++ flat_map Process_Opportunities (Processes qms))%list.

(** How often a finding occurs in a list of findings. *)
Definition occurrences (f : ValidationError) (l : list ValidationError) : nat :=
  length (List.filter (fun g => bool_decide (g = f)) l).

(** Register order: no entry scores less than a later one. *)
Definition scoreDescending (a b : RiskEntry) : Prop := (RiskScore b <= RiskScore a)%Z.

(** The required commitments a leadership block lacks, in the order of
    [requiredCommitments]. *)
Definition missingCommitments (leadership : Leadership) : list LeadershipCommitment :=
  List.filter (fun c => negb (bool_decide (c ∈ Commitment leadership))) requiredCommitments.

(** The register as a recomputation under the clock [now] leaves it. *)
Definition registerRecomputed (now : Clock) (rm : RiskManager) : Prop :=
  let reg := Register rm in
  length (CriticalRisks reg) = 10 `min` size (RM_Risks rm)
  /\ CriticalRisks reg = take 10 (OrganizationRisks reg)
  /\ StronglySorted scoreDescending (CriticalRisks reg)
  /\ StronglySorted scoreDescending (OrganizationRisks reg)
  /\ OrganizationRisks reg
     ≡ₚ imap (fun i '(id, risk) => riskEntry (now (S i)) id risk)
          (map_to_list (RM_Risks rm)).

(** ** High-level compliance check and report (validation.go, example code) *)

Definition ValidateQMSCompliance (org : Organization) : error :=
  let result := ValidateOrganization org in
  if negb (Valid result)
  then Some "QMS is not compliant with ISO 9001:2015 requirements"
  else None.

Record ComplianceGap := mkGap {
  Gap_Clause : string;
  Gap_Description : string;
  Gap_Severity : string;
  Gap_Priority : Priority }.

Record ImprovementArea := mkArea {
  Area : string;
  Area_Description : string;
  Area_Priority : Priority }.

Record ComplianceReport := mkReport {
  OrganizationID : string;
  AssessmentDate : Time;
  OverallCompliance : string;
  ComplianceScore : Q;
  CriticalGaps : list ComplianceGap;
  ImprovementAreas : list ImprovementArea;
  Strengths : list string;
  Recommendations : list string }.

(** [x >= c] on the score. *)
Definition score_ge (x c : Q) : bool := Qle_bool c x.

(** The [switch] on the score. *)
Definition complianceLevel (score : Q) : string :=
  if score_ge score 90 then "Excellent"
  else if score_ge score 80 then "Good"
  else if score_ge score 70 then "Satisfactory"
  else if score_ge score 60 then "Needs Improvement"
  else "Critical Gaps".

Definition gapOf (err : ValidationError) : ComplianceGap :=
  mkGap (Clause err) (Message err) "Critical" PriorityHigh.

Definition areaOf (warn : ValidationError) : ImprovementArea :=
  mkArea (Field warn) (Message warn) PriorityMedium.

Definition GenerateComplianceReport (now : Time) (org : Organization) : ComplianceReport :=
  let result := ValidateOrganization org in
  let score := GetComplianceScore org in
  let criticalGaps :=
    for_range (Errors result) (fun _ err gaps =>
      if String.eqb (Severity err) "error" then (gaps ++ [gapOf err])%list else gaps) [] in
  let improvementAreas :=
    for_range (Warnings result) (fun _ warn areas => (areas ++ [areaOf warn])%list) [] in
  let recommendations :=
    if negb (len0 criticalGaps)
    then ["Address critical compliance gaps immediately";
          "Implement corrective actions for identified nonconformities";
          "Strengthen QMS documentation and procedures"]
    else [] in
  let recommendations :=
    if negb (len0 improvementAreas)
    then (recommendations ++
          ["Develop action plans for improvement areas";
           "Enhance monitoring and measurement processes";
           "Provide additional training where needed"])%list
    else recommendations in
  let strengths :=
    match QMS org with
    | Some qms => if negb (len0 (Processes qms))
                  then ["Processes are defined and documented"] else []
    | None => []
    end in
  let strengths :=
    match Org_Leadership org ≫= Leadership_QualityPolicy with
    | Some _ => (strengths ++ ["Quality policy is established and communicated"])%list
    | None => strengths
    end in
  mkReport (Org_ID org) now (complianceLevel score) score criticalGaps improvementAreas
    strengths recommendations.

(** A validation result in which the validity flag tells whether there is an
    error, and every finding carries the severity of the list it is in. *)
Definition consistentResult (r : ValidationResult) : Prop :=
  Valid r = len0 (Errors r)
  /\ Forall (fun f => Severity f = "error") (Errors r)
  /\ Forall (fun f => Severity f = "warning") (Warnings r)
  /\ Forall (fun f => Severity f = "info") (Infos r).

(** An organization with none of its three blocks. *)
Definition blankOrganization (id name : string) : Organization :=
  mkOrganization id name None None None 0%Z 0%Z.


(** The three buckets of clause 4.2. *)
Definition isCustomer (party : InterestedParty) : bool :=
  String.eqb (Party_Type party) "customer".
Definition isSupplier (party : InterestedParty) : bool :=
  String.eqb (Party_Type party) "supplier" || String.eqb (Party_Type party) "external_provider".
Definition isRegulator (party : InterestedParty) : bool :=
  String.eqb (Party_Type party) "regulator" || String.eqb (Party_Type party) "authority".

Definition noCustomersWarning : ValidationError :=
  mkFinding "4.2" "customers" "No customers identified as interested parties" "warning".
Definition noSuppliersWarning : ValidationError :=
  mkFinding "4.2" "suppliers"
    "No suppliers/external providers identified as interested parties" "warning".
Definition noRegulatorsInfo : ValidationError :=
  mkFinding "4.2" "regulators"
    "Consider identifying regulatory authorities as interested parties" "info".

(** 1 for true, 0 for false. *)
Definition b2n (b : bool) : nat := if b then 1 else 0.

(** The sum of a count over a list. *)
Definition sumOver {A : Type} (count : A -> nat) (l : list A) : nat :=
  fold_right (fun x n => count x + n) 0 l.

(** A process with nothing but text in its description. *)
Definition bareProcess : Process :=
  mkProcess "" "" "Undocumented" [] [] [] [] [] [] [] "" 0%Z.

(** An organization whose context holds one external issue and two internal
    issues, the second of them without description and type. *)
Definition issuesOrganization : Organization :=
  mkOrganization "ORG-3" "Issues"
    (Some (mkContext [sampleIssue IssueTypeExternal]
             [sampleIssue IssueTypeInternal; mkIssue "ISSUE-3" "" "" "" "" 0%Z]
             [mkInterestedParty "P-9" "Buyers" "Customer" []]))
    None None 0%Z 0%Z.

(** An organization whose QMS has the bare process as its only process. *)
Definition bareProcessOrganization : Organization :=
  mkOrganization "ORG-4" "Bare" None None
    (Some (mkQMS "QMS-4" None [bareProcess] [] [] [] 0%Z)) 0%Z 0%Z.

(** ** Queries of the risk manager (risk_management.go) *)

(** The [priorityOrder] table of [comparePriority]. *)
Definition priorityOrder : gmap Priority Z :=
  <[PriorityCritical := 4%Z]>
    (<[PriorityHigh := 3%Z]> (<[PriorityMedium := 2%Z]> (<[PriorityLow := 1%Z]> ∅))).

(** [priorityOrder[p]]: a missing key reads as 0. *)
Definition priorityRank (p : Priority) : Z := default 0%Z (priorityOrder !! p).

Definition comparePriority (a b : Priority) : Z := (priorityRank a - priorityRank b)%Z.

Definition GetHighPriorityRisks (minPriority : Priority) (rm : RiskManager) : list Risk :=
  for_range (range_Risks rm) (fun _ risk highPriority =>
    if (0 <=? comparePriority (Risk_Priority risk) minPriority)%Z
    then (highPriority ++ [risk])%list else highPriority) [].

(** [t.Before(u)] *)
Definition Before (t u : Time) : bool := (t <? u)%Z.

Definition actionOverdue (now : Time) (action : Action) : bool :=
  negb (String.eqb (Action_Status action) ActionStatusCompleted)
  && Before (Action_Timeline action) now.

(** The inner loop of [GetOverdueMitigations]: the risk is appended at the
    first overdue action and the loop is left. *)
Fixpoint scanMitigation (now : Time) (risk : Risk) (actions : list Action)
    (overdue : list Risk) : list Risk :=
  match actions with
  | [] => overdue
  | action :: rest =>
    if actionOverdue now action then (overdue ++ [risk])%list
    else scanMitigation now risk rest overdue
  end.

Definition GetOverdueMitigations (now : Time) (rm : RiskManager) : list Risk :=
  for_range (range_Risks rm) (fun _ risk overdue =>
    scanMitigation now risk (Mitigation risk) overdue) [].

Record RiskHeatMap := mkHeatMap {
  HM_VeryHigh : gmap RiskLevel nat;
  HM_High : gmap RiskLevel nat;
  HM_Medium : gmap RiskLevel nat;
  HM_Low : gmap RiskLevel nat;
  HM_VeryLow : gmap RiskLevel nat }.

(** [m[k]], 0 when the key is missing, and [m[k]++]. *)
Definition cell (m : gmap RiskLevel nat) (k : RiskLevel) : nat := default 0 (m !! k).
Definition increment (k : RiskLevel) (m : gmap RiskLevel nat) : gmap RiskLevel nat :=
  <[k := S (cell m k)]> m.

Definition heatMapStep (risk : Risk) (h : RiskHeatMap) : RiskHeatMap :=
  if String.eqb (Impact risk) RiskLevelVeryHigh then
    mkHeatMap (increment (Likelihood risk) (HM_VeryHigh h)) (HM_High h) (HM_Medium h)
      (HM_Low h) (HM_VeryLow h)
  else if String.eqb (Impact risk) RiskLevelHigh then
    mkHeatMap (HM_VeryHigh h) (increment (Likelihood risk) (HM_High h)) (HM_Medium h)
      (HM_Low h) (HM_VeryLow h)
  else if String.eqb (Impact risk) RiskLevelMedium then
    mkHeatMap (HM_VeryHigh h) (HM_High h) (increment (Likelihood risk) (HM_Medium h))
      (HM_Low h) (HM_VeryLow h)
  else if String.eqb (Impact risk) RiskLevelLow then
    mkHeatMap (HM_VeryHigh h) (HM_High h) (HM_Medium h)
      (increment (Likelihood risk) (HM_Low h)) (HM_VeryLow h)
  else if String.eqb (Impact risk) RiskLevelVeryLow then
    mkHeatMap (HM_VeryHigh h) (HM_High h) (HM_Medium h) (HM_Low h)
      (increment (Likelihood risk) (HM_VeryLow h))
  else h.

Definition GetRiskHeatMap (rm : RiskManager) : RiskHeatMap :=
  for_range (range_Risks rm) (fun _ risk heatMap => heatMapStep risk heatMap)
    (mkHeatMap ∅ ∅ ∅ ∅ ∅).

(** The row of the heat map for an impact, empty for a string off the scale. *)
Definition heatMapRow (h : RiskHeatMap) (impact : RiskLevel) : gmap RiskLevel nat :=
  if String.eqb impact RiskLevelVeryHigh then HM_VeryHigh h
  else if String.eqb impact RiskLevelHigh then HM_High h
  else if String.eqb impact RiskLevelMedium then HM_Medium h
  else if String.eqb impact RiskLevelLow then HM_Low h
  else if String.eqb impact RiskLevelVeryLow then HM_VeryLow h
  else ∅.

Record RiskStatistics := mkStatistics {
  Stat_Identified : nat;
  Stat_Assessed : nat;
  Stat_Mitigated : nat;
  Stat_Monitored : nat;
  Stat_Critical : nat;
  Stat_High : nat;
  Stat_Medium : nat;
  Stat_Low : nat;
  OpportunitiesIdentified : nat;
  OpportunitiesPlanned : nat;
  OpportunitiesImplemented : nat;
  OpportunitiesRealized : nat }.

Definition countRiskStatus (status : RiskStatus) (s : RiskStatistics) : RiskStatistics :=
  if String.eqb status RiskStatusIdentified then
    mkStatistics (S (Stat_Identified s)) (Stat_Assessed s) (Stat_Mitigated s) (Stat_Monitored s)
      (Stat_Critical s) (Stat_High s) (Stat_Medium s) (Stat_Low s) (OpportunitiesIdentified s)
      (OpportunitiesPlanned s) (OpportunitiesImplemented s) (OpportunitiesRealized s)
  else if String.eqb status RiskStatusAssessed then
    mkStatistics (Stat_Identified s) (S (Stat_Assessed s)) (Stat_Mitigated s) (Stat_Monitored s)
      (Stat_Critical s) (Stat_High s) (Stat_Medium s) (Stat_Low s) (OpportunitiesIdentified s)
      (OpportunitiesPlanned s) (OpportunitiesImplemented s) (OpportunitiesRealized s)
  else if String.eqb status RiskStatusMitigated then
    mkStatistics (Stat_Identified s) (Stat_Assessed s) (S (Stat_Mitigated s)) (Stat_Monitored s)
      (Stat_Critical s) (Stat_High s) (Stat_Medium s) (Stat_Low s) (OpportunitiesIdentified s)
      (OpportunitiesPlanned s) (OpportunitiesImplemented s) (OpportunitiesRealized s)
  else if String.eqb status RiskStatusMonitored then
    mkStatistics (Stat_Identified s) (Stat_Assessed s) (Stat_Mitigated s) (S (Stat_Monitored s))
      (Stat_Critical s) (Stat_High s) (Stat_Medium s) (Stat_Low s) (OpportunitiesIdentified s)
      (OpportunitiesPlanned s) (OpportunitiesImplemented s) (OpportunitiesRealized s)
  else s.

Definition countRiskPriority (priority : Priority) (s : RiskStatistics) : RiskStatistics :=
  if String.eqb priority PriorityCritical then
    mkStatistics (Stat_Identified s) (Stat_Assessed s) (Stat_Mitigated s) (Stat_Monitored s)
      (S (Stat_Critical s)) (Stat_High s) (Stat_Medium s) (Stat_Low s) (OpportunitiesIdentified s)
      (OpportunitiesPlanned s) (OpportunitiesImplemented s) (OpportunitiesRealized s)
  else if String.eqb priority PriorityHigh then
    mkStatistics (Stat_Identified s) (Stat_Assessed s) (Stat_Mitigated s) (Stat_Monitored s)
      (Stat_Critical s) (S (Stat_High s)) (Stat_Medium s) (Stat_Low s) (OpportunitiesIdentified s)
      (OpportunitiesPlanned s) (OpportunitiesImplemented s) (OpportunitiesRealized s)
  else if String.eqb priority PriorityMedium then
    mkStatistics (Stat_Identified s) (Stat_Assessed s) (Stat_Mitigated s) (Stat_Monitored s)
      (Stat_Critical s) (Stat_High s) (S (Stat_Medium s)) (Stat_Low s) (OpportunitiesIdentified s)
      (OpportunitiesPlanned s) (OpportunitiesImplemented s) (OpportunitiesRealized s)
  else if String.eqb priority PriorityLow then
    mkStatistics (Stat_Identified s) (Stat_Assessed s) (Stat_Mitigated s) (Stat_Monitored s)
      (Stat_Critical s) (Stat_High s) (Stat_Medium s) (S (Stat_Low s)) (OpportunitiesIdentified s)
      (OpportunitiesPlanned s) (OpportunitiesImplemented s) (OpportunitiesRealized s)
  else s.

Definition countOpportunityStatus (status : OpportunityStatus) (s : RiskStatistics)
    : RiskStatistics :=
  if String.eqb status OpportunityStatusIdentified then
    mkStatistics (Stat_Identified s) (Stat_Assessed s) (Stat_Mitigated s) (Stat_Monitored s)
      (Stat_Critical s) (Stat_High s) (Stat_Medium s) (Stat_Low s)
      (S (OpportunitiesIdentified s)) (OpportunitiesPlanned s) (OpportunitiesImplemented s)
      (OpportunitiesRealized s)
  else if String.eqb status OpportunityStatusPlanned then
    mkStatistics (Stat_Identified s) (Stat_Assessed s) (Stat_Mitigated s) (Stat_Monitored s)
      (Stat_Critical s) (Stat_High s) (Stat_Medium s) (Stat_Low s)
      (OpportunitiesIdentified s) (S (OpportunitiesPlanned s)) (OpportunitiesImplemented s)
      (OpportunitiesRealized s)
  else if String.eqb status OpportunityStatusImplemented then
    mkStatistics (Stat_Identified s) (Stat_Assessed s) (Stat_Mitigated s) (Stat_Monitored s)
      (Stat_Critical s) (Stat_High s) (Stat_Medium s) (Stat_Low s)
      (OpportunitiesIdentified s) (OpportunitiesPlanned s) (S (OpportunitiesImplemented s))
      (OpportunitiesRealized s)
  else if String.eqb status OpportunityStatusRealized then
    mkStatistics (Stat_Identified s) (Stat_Assessed s) (Stat_Mitigated s) (Stat_Monitored s)
      (Stat_Critical s) (Stat_High s) (Stat_Medium s) (Stat_Low s)
      (OpportunitiesIdentified s) (OpportunitiesPlanned s) (OpportunitiesImplemented s)
      (S (OpportunitiesRealized s))
  else s.

Definition range_Opportunities (rm : RiskManager) : list Opportunity :=
  (map_to_list (RM_Opportunities rm)).*2.

Definition GetRiskStatistics (rm : RiskManager) : RiskStatistics :=
  let stats := mkStatistics 0 0 0 0 0 0 0 0 0 0 0 0 in
  let stats :=
    for_range (range_Risks rm) (fun _ risk stats =>
      countRiskPriority (Risk_Priority risk) (countRiskStatus (Risk_Status risk) stats)) stats in
  for_range (range_Opportunities rm) (fun _ opportunity stats =>
    countOpportunityStatus (Opp_Status opportunity) stats) stats.

(** How many elements of a list satisfy a test. *)
Definition countIf {A : Type} (p : A -> bool) (l : list A) : nat := length (List.filter p l).

Definition knownRiskStatus (risk : Risk) : bool :=
  String.eqb (Risk_Status risk) RiskStatusIdentified
  || String.eqb (Risk_Status risk) RiskStatusAssessed
  || String.eqb (Risk_Status risk) RiskStatusMitigated
  || String.eqb (Risk_Status risk) RiskStatusMonitored.

Definition knownPriority (risk : Risk) : bool :=
  String.eqb (Risk_Priority risk) PriorityCritical
  || String.eqb (Risk_Priority risk) PriorityHigh
  || String.eqb (Risk_Priority risk) PriorityMedium
  || String.eqb (Risk_Priority risk) PriorityLow.

(** ** Parsing of levels in the tool handlers *)

Definition parseRiskLevel (level : string) : RiskLevel :=
  if String.eqb level "very_low" then RiskLevelVeryLow
  else if String.eqb level "low" then RiskLevelLow
  else if String.eqb level "medium" then RiskLevelMedium
  else if String.eqb level "high" then RiskLevelHigh
  else if String.eqb level "very_high" then RiskLevelVeryHigh
  else RiskLevelMedium.

(** ** Managers as the operations can make them *)

(** The risk managers reached from a new one by calls of its operations,
    failed calls included. *)
Inductive reachableRiskManager : RiskManager -> Prop :=
| reachable_new_rm : reachableRiskManager NewRiskManager
| reachable_step_rm now op rm :
    reachableRiskManager rm -> reachableRiskManager (snd (runRiskOp now op rm)).

Inductive reachableObjectivesManager : QualityObjectivesManager -> Prop :=
| reachable_new_qom : reachableObjectivesManager NewQualityObjectivesManager
| reachable_step_qom now op qom :
    reachableObjectivesManager qom ->
    reachableObjectivesManager (snd (runObjectiveOp now op qom)).

(** A manager after two mitigations of the sample risk, the second with two
    actions. *)
Definition secondAction : Action :=
  mkAction "A-2" "Second source" "mitigation" "Purchasing" 20%Z "completed" 1%Z.

Definition identifiedManager : RiskManager :=
  snd (IdentifyRisk (clockFrom 1%Z) (sampleRisk "" "") NewRiskManager).

(** Every risk and every opportunity is stored under its own non-empty ID
    and has a description. *)
Definition keyedManager (rm : RiskManager) : Prop :=
  (forall k r, RM_Risks rm !! k = Some r ->
     Risk_ID r = k /\ k <> "" /\ Risk_Description r <> "")
  /\ (forall k o, RM_Opportunities rm !! k = Some o ->
        Opp_ID o = k /\ k <> "" /\ Opp_Description o <> "").

(** The register holds what a recomputation from the risks now stored
    leaves, whatever the clock read: one entry per stored risk, each stamped
    with some instant, in descending order of score, the critical view
    being the prefix of length 10. *)
Definition registerCurrent (rm : RiskManager) : Prop :=
  let reg := Register rm in
  (exists readings : list Time,
     length readings = size (RM_Risks rm)
     /\ OrganizationRisks reg
        ≡ₚ zip_with (fun t '(id, risk) => riskEntry t id risk) readings
             (map_to_list (RM_Risks rm)))
  /\ length (OrganizationRisks reg) = size (RM_Risks rm)
  /\ StronglySorted scoreDescending (OrganizationRisks reg)
  /\ CriticalRisks reg = take 10 (OrganizationRisks reg)
  /\ length (CriticalRisks reg) = 10 `min` size (RM_Risks rm).

(** The manager of the sample risk after two mitigations. *)
Definition twiceMitigatedManager : RiskManager :=
  snd (MitigateRisk (clockFrom 3%Z) "RISK-001" [secondAction]
         (snd (MitigateRisk (clockFrom 2%Z) "RISK-001" [sampleAction] identifiedManager))).

(** A manager holding the bare opportunity, as [IdentifyOpportunity] stores it. *)
Definition opportunityManager : RiskManager :=
  snd (IdentifyOpportunity (clockFrom 1%Z) bareOpportunity NewRiskManager).

(** ** Queries of the objectives manager (risk_management.go) *)

Definition range_Objectives (qom : QualityObjectivesManager) : list QualityObjective :=
  (map_to_list (QOM_Objectives qom)).*2.

Definition GetAchievedObjectives (qom : QualityObjectivesManager) : list QualityObjective :=
  for_range (range_Objectives qom) (fun _ objective achieved =>
    if String.eqb (Objective_Status objective) ObjectiveStatusAchieved
    then (achieved ++ [objective])%list else achieved) [].

Definition GetOverdueObjectives (now : Time) (qom : QualityObjectivesManager)
    : list QualityObjective :=
  for_range (range_Objectives qom) (fun _ objective overdue =>
    if negb (String.eqb (Objective_Status objective) ObjectiveStatusAchieved)
       && Before (TargetDate (Timeline objective)) now
    then (overdue ++ [objective])%list else overdue) [].

Record ObjectiveProgressSummary := mkSummary {
  TotalObjectives : nat;
  Summary_Planned : nat;
  Summary_InProgress : nat;
  Summary_Achieved : nat;
  Summary_NotAchieved : nat;
  AchievementRate : Q }.

Definition countObjectiveStatus (status : ObjectiveStatus) (s : ObjectiveProgressSummary)
    : ObjectiveProgressSummary :=
  if String.eqb status ObjectiveStatusPlanned then
    mkSummary (TotalObjectives s) (S (Summary_Planned s)) (Summary_InProgress s)
      (Summary_Achieved s) (Summary_NotAchieved s) (AchievementRate s)
  else if String.eqb status ObjectiveStatusInProgress then
    mkSummary (TotalObjectives s) (Summary_Planned s) (S (Summary_InProgress s))
      (Summary_Achieved s) (Summary_NotAchieved s) (AchievementRate s)
  else if String.eqb status ObjectiveStatusAchieved then
    mkSummary (TotalObjectives s) (Summary_Planned s) (Summary_InProgress s)
      (S (Summary_Achieved s)) (Summary_NotAchieved s) (AchievementRate s)
  else if String.eqb status ObjectiveStatusNotAchieved then
    mkSummary (TotalObjectives s) (Summary_Planned s) (Summary_InProgress s)
      (Summary_Achieved s) (S (Summary_NotAchieved s)) (AchievementRate s)
  else s.

Definition CalculateObjectiveProgress (qom : QualityObjectivesManager)
    : ObjectiveProgressSummary :=
  let summary := mkSummary (size (QOM_Objectives qom)) 0 0 0 0 0%Q in
  let summary :=
    for_range (range_Objectives qom) (fun _ objective summary =>
      countObjectiveStatus (Objective_Status objective) summary) summary in
  if (0 <? TotalObjectives summary)%nat then
    mkSummary (TotalObjectives summary) (Summary_Planned summary) (Summary_InProgress summary)
      (Summary_Achieved summary) (Summary_NotAchieved summary)
      (float64_of_int (Z.of_nat (Summary_Achieved summary))
       / float64_of_int (Z.of_nat (TotalObjectives summary)) * 100)%Q
  else summary.

(** The report as [UpdateObjectiveProgress] logs it: under the ID of the call. *)
Definition loggedReport (objectiveID : string) (p : ObjectiveProgress) : ObjectiveProgress :=
  mkProgress objectiveID (Progress_Date p) (Progress p) (Progress_Status p) (Comments p).

(** The achievement logged for a report of 100 or more. *)
Definition loggedAchievement (objectiveID : string) (p : ObjectiveProgress)
    : ObjectiveAchievement :=
  mkAchievement objectiveID (Progress_Date p) (Comments p) false.

(** What holds of the objectives a manager stores and of its tracker. *)
Definition soundObjectivesManager (qom : QualityObjectivesManager) : Prop :=
  (forall k o, QOM_Objectives qom !! k = Some o ->
     Objective_ID o = k /\ k <> "" /\ Objective_Name o <> "" /\ Measurable o = true
     /\ Targets o <> [] /\ Responsible o <> ""
     /\ In (Objective_Status o)
          [ObjectiveStatusPlanned; ObjectiveStatusInProgress; ObjectiveStatusAchieved])
  /\ Forall (fun p => is_Some (QOM_Objectives qom !! Progress_ObjectiveID p))
       (ProgressReports (Tracker qom))
  /\ Forall (fun a => is_Some (QOM_Objectives qom !! Achievement_ObjectiveID a))
       (Achievements (Tracker qom)).

(** The objective manager after the reports 100 and 50 on its one objective. *)
Definition reportedManager : QualityObjectivesManager :=
  snd (runObjectiveOp (clockFrom 3%Z) (OpUpdateObjectiveProgress "OBJ-001" (report 50))
         (snd (runObjectiveOp (clockFrom 2%Z) (OpUpdateObjectiveProgress "OBJ-001" (report 100))
                 (snd (runObjectiveOp (clockFrom 1%Z) (OpCreateObjective sampleObjective)
                         NewQualityObjectivesManager))))).

(** ** Queries of the audit manager (audit.go) *)

Definition FindingStatus := string.
Definition FindingStatusOpen : FindingStatus := "open".
Definition FindingStatusInProgress : FindingStatus := "in_progress".
Definition FindingStatusClosed : FindingStatus := "closed".
Definition FindingStatusAccepted : FindingStatus := "accepted".

Section AuditQueries.

Variables ManagementReviewInputs ManagementReviewOutputs : Type.

#[local] Arguments Audits {_ _} _.
#[local] Arguments ManagementReviews {_ _} _.
#[local] Arguments Review_ID {_ _} _.
#[local] Arguments Review_Title {_ _} _.
#[local] Arguments Review_Status {_ _} _.
#[local] Arguments NewAuditManager {_ _}.
#[local] Arguments runAuditOp {_ _} _ _ _.

(** The audits in the order in which [range am.Audits] yields them. *)
Definition range_Audits (am : AuditManager ManagementReviewInputs ManagementReviewOutputs)
    : list Audit :=
  (map_to_list (Audits am)).*2.

Definition GetAuditsDue (now : Time)
    (am : AuditManager ManagementReviewInputs ManagementReviewOutputs) : list Audit :=
  for_range (range_Audits am) (fun _ audit due =>
    if String.eqb (Audit_Status audit) AuditStatusPlanned
       && Before (PlannedStartDate audit) now
    then (due ++ [audit])%list else due) [].

Definition findingOverdue (now : Time) (finding : AuditFinding) : bool :=
  negb (String.eqb (Finding_Status finding) FindingStatusClosed)
  && Before (Finding_DueDate finding) now.

Definition GetOverdueFindings (now : Time)
    (am : AuditManager ManagementReviewInputs ManagementReviewOutputs) : list AuditFinding :=
  for_range (range_Audits am) (fun _ audit overdue =>
    for_range (Findings audit) (fun _ finding overdue =>
      if findingOverdue now finding then (overdue ++ [finding])%list else overdue) overdue) [].

(** The audit managers that the operations build from a new one. *)
Inductive reachableAuditManager
    : AuditManager ManagementReviewInputs ManagementReviewOutputs -> Prop :=
| reachable_new_am : reachableAuditManager NewAuditManager
| reachable_step_am now op am :
    reachableAuditManager am ->
    reachableAuditManager (snd (runAuditOp now op am)).

(** What holds of an audit and of a review stored under the key [k]. *)
Definition soundAudit (k : string) (audit : Audit) : Prop :=
  Audit_ID audit = k /\ k <> "" /\ Audit_Title audit <> ""
  /\ AuditScope_Description (Audit_Scope audit) <> ""
  /\ In (Audit_Status audit) [AuditStatusPlanned; AuditStatusInProgress; AuditStatusCompleted]
  /\ (Audit_Status audit = AuditStatusInProgress -> is_Some (ActualStartDate audit))
  /\ (Audit_Status audit = AuditStatusCompleted -> is_Some (ActualEndDate audit)).

Definition soundReview (k : string)
    (review : ManagementReview ManagementReviewInputs ManagementReviewOutputs) : Prop :=
  Review_ID review = k /\ k <> "" /\ Review_Title review <> ""
  /\ In (Review_Status review) [ReviewStatusPending; ReviewStatusCompleted].

Definition soundAuditManager
    (am : AuditManager ManagementReviewInputs ManagementReviewOutputs) : Prop :=
  map_Forall soundAudit (Audits am) /\ map_Forall soundReview (ManagementReviews am).

End AuditQueries.

(** An audit manager whose one audit is planned, and one whose audit was
    completed without having been started. *)
Definition plannedAuditManager : AuditManager unit unit :=
  snd (runAuditOp unit unit (clockFrom 1%Z) (OpCreateAudit unit unit sampleAudit) (NewAuditManager unit unit)).

Definition sampleFinding (status : FindingStatus) (due : Time) : AuditFinding :=
  mkAuditFinding "F-1" "7.5" "Procedure not controlled" "Uncontrolled copy" "minor"
    "nonconformity" "" "PROC-1" "QM" due status [] 0%Z.

Definition auditedManager : AuditManager unit unit :=
  snd (runAuditOp unit unit (clockFrom 4%Z) (OpAddFinding unit unit "AUDIT-001" (sampleFinding "open" 5%Z))
         (snd (runAuditOp unit unit (clockFrom 2%Z) (OpStartAudit unit unit "AUDIT-001" 2%Z)
                 plannedAuditManager))).

(** * Properties *)

(** ** Statements and loops of the validators *)

Lemma emits_addError clause field message :
  emits (addError clause field message) [mkFinding clause field message "error"] [] [].
Proof. intros r; cbn. by rewrite !app_nil_r. Qed.

Lemma emits_addWarning clause field message :
  emits (addWarning clause field message) [] [mkFinding clause field message "warning"] [].
Proof. intros r; cbn. by rewrite !app_nil_r. Qed.

Lemma emits_addInfo clause field message :
  emits (addInfo clause field message) [] [] [mkFinding clause field message "info"].
Proof. intros r; cbn. by rewrite !app_nil_r. Qed.

Lemma emits_seq_nil : emits (seq_stmts []) [] [] [].
Proof. intros r; cbn. by rewrite !app_nil_r. Qed.

Lemma emits_seq_cons f fs e w i es ws is_ :
  emits f e w i -> emits (seq_stmts fs) es ws is_ ->
  emits (seq_stmts (f :: fs)) (e ++ es) (w ++ ws) (i ++ is_).
Proof.
  intros Hf Hfs r. unfold seq_stmts in *; cbn.
  destruct (Hfs (f r)) as (-> & -> & ->), (Hf r) as (-> & -> & ->).
  by rewrite !app_assoc.
Qed.

Lemma emits_for_range_from {A} (body : nat -> A -> ValidationResult -> ValidationResult)
    fe fw fi :
  (forall i x, emits (body i x) (fe i x) (fw i x) (fi i x)) ->
  forall l i, emits (for_range_from i l body)
                (findings_from i l fe) (findings_from i l fw) (findings_from i l fi).
Proof.
  intros Hbody l. induction l as [|x l IH]; intros i r; cbn.
  - by rewrite !app_nil_r.
  - destruct (IH (S i) (body i x r)) as (-> & -> & ->).
    destruct (Hbody i x r) as (-> & -> & ->).
    by rewrite !app_assoc.
Qed.

Lemma findings_from_nil {A} (l : list A) i :
  findings_from i l (fun _ _ => []) = [].
Proof. revert i; induction l as [|x l IH]; intros i; cbn; [done | apply IH]. Qed.

Lemma emits_when_error c clause field message :
  emits (when c (addError clause field message))
    (if c then [mkFinding clause field message "error"] else []) [] [].
Proof. intros r. destruct c; cbn; by rewrite !app_nil_r. Qed.

Lemma emits_when_warning c clause field message :
  emits (when c (addWarning clause field message))
    [] (if c then [mkFinding clause field message "warning"] else []) [].
Proof. intros r. destruct c; cbn; by rewrite !app_nil_r. Qed.

Lemma emits_when_info c clause field message :
  emits (when c (addInfo clause field message))
    [] [] (if c then [mkFinding clause field message "info"] else []).
Proof. intros r. destruct c; cbn; by rewrite !app_nil_r. Qed.

Lemma emits_for_range {A} (body : nat -> A -> ValidationResult -> ValidationResult)
    fe fw fi l :
  (forall i x, emits (body i x) (fe i x) (fw i x) (fi i x)) ->
  emits (for_range l body) (findings_from 0 l fe) (findings_from 0 l fw) (findings_from 0 l fi).
Proof. intros Hbody. by apply emits_for_range_from. Qed.

(** A checker that runs a statement on a fresh result returns what the
    statement emits. *)
Lemma emits_newResult f e w i :
  emits f e w i ->
  Errors (f newResult) = e /\ Warnings (f newResult) = w /\ Infos (f newResult) = i.
Proof. intros Hf. by destruct (Hf newResult) as (-> & -> & ->). Qed.

(** Decomposes a block of conditional findings and loops over them. *)
Ltac emits_block :=
  repeat first
    [ apply emits_seq_nil
    | eapply emits_seq_cons
    | apply emits_when_error
    | apply emits_when_warning
    | apply emits_when_info
    | apply emits_addError
    | apply emits_addWarning
    | apply emits_addInfo
    | eapply emits_for_range; intros ].

Lemma findings_from_filter_map {A} (p : A -> bool) (f : A -> ValidationError) l :
  forall i, findings_from i l (fun _ x => if p x then [f x] else [])
            = map f (List.filter p l).
Proof.
  induction l as [|x l IH]; intros i; cbn; [done |].
  rewrite IH. by destruct (p x).
Qed.

Lemma occurrences_app f l l' :
  occurrences f (l ++ l') = occurrences f l + occurrences f l'.
Proof. unfold occurrences. by rewrite List.filter_app, length_app. Qed.

Lemma occurrences_absent f l : f ∉ l -> occurrences f l = 0.
Proof.
  unfold occurrences. induction l as [|g l IH]; intros Hnot; cbn; [done |].
  rewrite not_elem_of_cons in Hnot. destruct Hnot as [Hne Hl].
  rewrite bool_decide_eq_false_2 by congruence. by apply IH.
Qed.

Lemma occurrences_map_NoDup {A} `{EqDecision A} (f : A -> ValidationError) (l : list A) x :
  (forall a b, f a = f b -> a = b) -> NoDup l ->
  occurrences (f x) (map f l) = if bool_decide (x ∈ l) then 1 else 0.
Proof.
  intros Hinj. unfold occurrences.
  induction 1 as [|y l Hy Hnd IH]; cbn; [done |].
  destruct (decide (y = x)) as [->|Hne].
  - rewrite bool_decide_eq_true_2 by done. cbn.
    rewrite (bool_decide_eq_true_2 (x ∈ x :: l)) by (by left).
    rewrite (bool_decide_eq_false_2 (x ∈ l)) in IH by done. by rewrite IH.
  - rewrite bool_decide_eq_false_2 by (intros Heq; by apply Hinj in Heq).
    rewrite IH. erewrite (bool_decide_ext (x ∈ y :: l) (x ∈ l)); [done |].
    rewrite elem_of_cons. intuition congruence.
Qed.

(** ** Clause 5.1: leadership commitments *)

Lemma commitmentMap_flag (l : list LeadershipCommitment) :
  forall i (m : gmap LeadershipCommitment bool) c,
    lookup_flag (for_range_from i l (fun _ commitment m => <[commitment := true]> m) m) c
    = bool_decide (c ∈ l) || lookup_flag m c.
Proof.
  induction l as [|x l IH]; intros i m c; cbn.
  - done.
  - rewrite IH. unfold lookup_flag at 1.
    destruct (decide (x = c)) as [->|Hne].
    + rewrite lookup_insert_eq; cbn.
      rewrite (bool_decide_eq_true_2 (c ∈ c :: l)); [| by left].
      by rewrite orb_true_r.
    + rewrite lookup_insert_ne by done. fold (lookup_flag m c).
      f_equal. apply bool_decide_ext. rewrite elem_of_cons. intuition congruence.
Qed.

Lemma missingCommitmentError_inj c c' :
  missingCommitmentError c = missingCommitmentError c' -> c = c'.
Proof. unfold missingCommitmentError; cbn. intros H. injection H. auto. Qed.

Lemma NoDup_requiredCommitments : NoDup requiredCommitments.
Proof. apply (bool_decide_unpack _). by vm_compute. Qed.

Lemma validateLeadership_emits org leadership :
  Org_Leadership org = Some leadership ->
  Errors (validateLeadership org)
  = ((if len0 (TopManagement leadership) then [topManagementError] else [])
     ++ map missingCommitmentError (missingCommitments leadership))%list
  /\ Warnings (validateLeadership org) = []
  /\ Infos (validateLeadership org) = [].
Proof.
  intros Hld. unfold validateLeadership. rewrite Hld.
  set (cm := for_range _ _ _).
  match goal with |- context [seq_stmts ?fs newResult] =>
    edestruct (emits_newResult (seq_stmts fs)) as (He & Hw & Hi); [emits_block |]
  end.
  rewrite He, Hw, Hi. cbn [app].
  rewrite !findings_from_nil, !app_nil_r. repeat split.
  f_equal. rewrite (findings_from_filter_map _ missingCommitmentError).
  f_equal. unfold missingCommitments. apply List.filter_ext. intros c.
  unfold cm, for_range. rewrite commitmentMap_flag.
  unfold lookup_flag. rewrite lookup_empty; cbn. by rewrite orb_false_r.
Qed.

(** C6.  For an organization with a leadership block, the clause 5.1 checker
    reports the missing ones among the twelve required commitments, each by
    an error finding of its own that names the tag, after the finding on top
    management if any; a required commitment occurs in exactly one such
    finding when the commitment list lacks it and in none when the list has
    it; the checker emits no warning and no info. *)
Theorem validateLeadership_missing_commitments org leadership :
  Org_Leadership org = Some leadership ->
  Errors (validateLeadership org)
  = ((if len0 (TopManagement leadership) then [topManagementError] else [])
     ++ map missingCommitmentError (missingCommitments leadership))%list
  /\ (forall c, c ∈ requiredCommitments ->
        occurrences (missingCommitmentError c) (Errors (validateLeadership org))
        = if bool_decide (c ∈ Commitment leadership) then 0 else 1)
  /\ requiredCommitments
     = ["qms_effectiveness"; "quality_policy"; "qms_integration"; "process_approach";
        "risk_based_thinking"; "resources_available"; "importance_qms";
        "conformity_requirements"; "qms_results"; "personnel_engagement"; "improvement";
        "customer_focus"]
  /\ Warnings (validateLeadership org) = []
  /\ Infos (validateLeadership org) = [].
Proof.
  intros Hld. destruct (validateLeadership_emits org leadership Hld) as (He & Hw & Hi).
  repeat split; try done.
  intros c Hc. rewrite He, occurrences_app.
  rewrite occurrences_absent.
  2:{ destruct (len0 (TopManagement leadership)); [| apply not_elem_of_nil].
      rewrite list_elem_of_singleton. discriminate. }
  rewrite (occurrences_map_NoDup missingCommitmentError).
  - unfold missingCommitments.
    destruct (bool_decide_reflect (c ∈ Commitment leadership)) as [Hin|Hnin].
    + rewrite bool_decide_eq_false_2; [done |].
      intros Hf. apply list_elem_of_In, List.filter_In in Hf as [_ Hf].
      by rewrite bool_decide_eq_true_2 in Hf.
    + rewrite bool_decide_eq_true_2; [done |].
      apply list_elem_of_In, List.filter_In. split; [by apply list_elem_of_In |].
      by rewrite bool_decide_eq_false_2.
  - apply missingCommitmentError_inj.
  - unfold missingCommitments. apply NoDup_ListNoDup, List.NoDup_filter, NoDup_ListNoDup.
    apply NoDup_requiredCommitments.
Qed.

Lemma validateLeadership_missing_commitments_witness :
  Errors (validateLeadership partialLeadershipOrganization)
  = [missingCommitmentError CommitmentRiskThinking;
     missingCommitmentError CommitmentEngagement]
  /\ occurrences (missingCommitmentError CommitmentRiskThinking)
       (Errors (validateLeadership partialLeadershipOrganization)) = 1
  /\ occurrences (missingCommitmentError CommitmentCustomerFocus)
       (Errors (validateLeadership partialLeadershipOrganization)) = 0.
Proof.
  destruct (validateLeadership_missing_commitments partialLeadershipOrganization
              (sampleLeadership [CommitmentCustomerFocus; CommitmentQualityPolicy;
                 CommitmentQMSEffectiveness; CommitmentQMSIntegration;
                 CommitmentProcessApproach; CommitmentResources; CommitmentImportanceQMS;
                 CommitmentConformity; CommitmentQMSResults; CommitmentImprovement])
              eq_refl) as (He & Hocc & _).
  split; [exact He |].
  split.
  - exact (Hocc CommitmentRiskThinking ltac:(vm_compute; repeat constructor)).
  - exact (Hocc CommitmentCustomerFocus ltac:(vm_compute; repeat constructor)).
Defined.

(** ** Clause 6.1: risks and opportunities *)

Lemma findings_from_cond_elem {A} (p : A -> bool) (f : nat -> ValidationError) (l : list A) x :
  forall i,
    x ∈ findings_from i l (fun j y => if p y then [f j] else [])
    <-> exists j y, l !! j = Some y /\ p y = true /\ x = f (i + j).
Proof.
  induction l as [|y l IH]; intros i; cbn.
  - split; [intros H; by apply elem_of_nil in H | by intros (j & z & H & _)].
  - rewrite elem_of_app, IH. split.
    + intros [Hx | (j & z & Hj & Hp & ->)].
      * destruct (p y) eqn:Hp; [| by apply elem_of_nil in Hx].
        apply list_elem_of_singleton in Hx as ->.
        exists 0, y. by rewrite Nat.add_0_r.
      * exists (S j), z. repeat split; [done.. |]. f_equal; lia.
    + intros ([|j] & z & Hj & Hp & ->); cbn in Hj.
      * left. injection Hj as ->. rewrite Hp, Nat.add_0_r. by apply list_elem_of_singleton.
      * right. exists j, z. repeat split; [done.. |]. f_equal; lia.
Qed.

Lemma findings_from_cond_length {A} (p : A -> bool) (f : nat -> ValidationError) (l : list A) :
  forall i, length (findings_from i l (fun j y => if p y then [f j] else []))
            = length (List.filter p l).
Proof.
  induction l as [|y l IH]; intros i; cbn; [done |].
  rewrite length_app, IH. by destruct (p y).
Qed.

Lemma totals_from (ps : list Process) :
  forall i a b,
    for_range_from i ps (fun _ process '(totalRisks, totalOpportunities) =>
        (totalRisks + length (Process_Risks process),
         totalOpportunities + length (Process_Opportunities process))) (a, b)
    = (a + length (flat_map Process_Risks ps),
       b + length (flat_map Process_Opportunities ps)).
Proof.
  induction ps as [|p ps IH]; intros i a b; cbn.
  - by rewrite !Nat.add_0_r.
  - rewrite IH, !length_app. f_equal; lia.
Qed.

Lemma riskOpportunityTotals_flattened qms :
  riskOpportunityTotals qms
  = (length (flattenedRisks qms), length (flattenedOpportunities qms)).
Proof.
  unfold riskOpportunityTotals, for_range, flattenedRisks, flattenedOpportunities.
  by rewrite totals_from, !length_app.
Qed.

Lemma validateRisksOpportunities_emits org qms :
  QMS org = Some qms ->
  Errors (validateRisksOpportunities org) = []
  /\ Warnings (validateRisksOpportunities org)
     = ((if (length (flattenedRisks qms) =? 0)%nat then [noRisksWarning] else [])
        ++ perRiskWarnings (Risks qms))%list
  /\ Infos (validateRisksOpportunities org)
     = ((if (length (flattenedOpportunities qms) =? 0)%nat then [noOpportunitiesInfo] else [])
        ++ perOpportunityInfos (Opportunities qms))%list.
Proof.
  intros Hqms. unfold validateRisksOpportunities.
  rewrite Hqms, riskOpportunityTotals_flattened.
  match goal with |- context [seq_stmts ?fs newResult] =>
    edestruct (emits_newResult (seq_stmts fs)) as (He & Hw & Hi); [emits_block |]
  end.
  rewrite He, Hw, Hi. cbn [app].
  by rewrite !findings_from_nil, !app_nil_r.
Qed.

Lemma noRisksWarning_not_per_risk risks : noRisksWarning ∉ perRiskWarnings risks.
Proof.
  unfold perRiskWarnings. intros H.
  apply (findings_from_cond_elem unmitigated riskMitigationWarning) in H
    as (j & y & _ & _ & Heq).
  unfold noRisksWarning, riskMitigationWarning in Heq. cbn in Heq. discriminate.
Qed.

Lemma noOpportunitiesInfo_not_per_opportunity opps :
  noOpportunitiesInfo ∉ perOpportunityInfos opps.
Proof.
  unfold perOpportunityInfos. intros H.
  apply (findings_from_cond_elem unplanned opportunityActionsInfo) in H
    as (j & y & _ & _ & Heq).
  unfold noOpportunitiesInfo, opportunityActionsInfo in Heq. cbn in Heq. discriminate.
Qed.

Lemma elem_of_guarded_head (c : bool) (x : ValidationError) l :
  x ∉ l -> (x ∈ ((if c then [x] else []) ++ l)%list <-> c = true).
Proof.
  intros Hl. rewrite elem_of_app. destruct c.
  - split; [done | intros _; left; by apply list_elem_of_singleton].
  - split; [| done]. intros [H | H]; [by apply elem_of_nil in H | done].
Qed.

(** C9.  For an organization with a QMS, the two totals of the clause 6.1
    checker are the lengths of the flattened lists (the QMS-level list
    followed by the list of every process, nothing removed); the warning that
    no risk is identified is emitted exactly when the flattened risk total is
    0, and the info that no opportunity is identified exactly when the
    flattened opportunity total is 0. *)
Theorem validateRisksOpportunities_flattened_totals org qms :
  QMS org = Some qms ->
  riskOpportunityTotals qms
  = (length (Risks qms) + length (flat_map Process_Risks (Processes qms)),
     length (Opportunities qms) + length (flat_map Process_Opportunities (Processes qms)))
  /\ (noRisksWarning ∈ Warnings (validateRisksOpportunities org)
      <-> length (flattenedRisks qms) = 0)
  /\ (noOpportunitiesInfo ∈ Infos (validateRisksOpportunities org)
      <-> length (flattenedOpportunities qms) = 0).
Proof.
  intros Hqms.
  destruct (validateRisksOpportunities_emits org qms Hqms) as (_ & Hw & Hi).
  split; [| split].
  - rewrite riskOpportunityTotals_flattened.
    unfold flattenedRisks, flattenedOpportunities. by rewrite !length_app.
  - rewrite Hw, elem_of_guarded_head by apply noRisksWarning_not_per_risk.
    apply Nat.eqb_eq.
  - rewrite Hi, elem_of_guarded_head by apply noOpportunitiesInfo_not_per_opportunity.
    apply Nat.eqb_eq.
Qed.

Lemma validateRisksOpportunities_flattened_totals_witness :
  riskOpportunityTotals (sampleQMS [] [plannedOpportunity]) = (0 + 1, 1 + 0)
  /\ (noRisksWarning ∈ Warnings (validateRisksOpportunities cleanOrganization)
      <-> length (flattenedRisks (sampleQMS [] [plannedOpportunity])) = 0)
  /\ (noOpportunitiesInfo ∈ Infos (validateRisksOpportunities cleanOrganization)
      <-> length (flattenedOpportunities (sampleQMS [] [plannedOpportunity])) = 0).
Proof.
  exact (validateRisksOpportunities_flattened_totals cleanOrganization
           (sampleQMS [] [plannedOpportunity]) eq_refl).
Defined.

(** C10.  For an organization with a QMS, the per-record findings of the
    clause 6.1 checker are those of the QMS-level lists alone: after the
    finding on the total, the warnings are one mitigation warning for each
    QMS-level risk that has no mitigation action and is not in mitigated
    status, numbered by its position, and the infos one for each QMS-level
    opportunity that has no action and is not realized; the lists nested in
    the processes enter only through the totals. *)
Theorem validateRisksOpportunities_per_record org qms :
  QMS org = Some qms ->
  Warnings (validateRisksOpportunities org)
  = ((if (length (flattenedRisks qms) =? 0)%nat then [noRisksWarning] else [])
     ++ perRiskWarnings (Risks qms))%list
  /\ Infos (validateRisksOpportunities org)
     = ((if (length (flattenedOpportunities qms) =? 0)%nat then [noOpportunitiesInfo] else [])
        ++ perOpportunityInfos (Opportunities qms))%list
  /\ Errors (validateRisksOpportunities org) = []
  /\ (forall w, w ∈ perRiskWarnings (Risks qms)
        <-> exists i risk, Risks qms !! i = Some risk
              /\ len0 (Mitigation risk) = true
              /\ Risk_Status risk <> RiskStatusMitigated
              /\ w = riskMitigationWarning i)
  /\ (forall f, f ∈ perOpportunityInfos (Opportunities qms)
        <-> exists i o, Opportunities qms !! i = Some o
              /\ len0 (Opp_Actions o) = true
              /\ Opp_Status o <> OpportunityStatusRealized
              /\ f = opportunityActionsInfo i)
  /\ length (perRiskWarnings (Risks qms)) = length (List.filter unmitigated (Risks qms))
  /\ length (perOpportunityInfos (Opportunities qms))
     = length (List.filter unplanned (Opportunities qms)).
Proof.
  intros Hqms.
  destruct (validateRisksOpportunities_emits org qms Hqms) as (He & Hw & Hi).
  split; [exact Hw |]. split; [exact Hi |]. split; [exact He |].
  split; [| split; [| split]].
  - intros w. unfold perRiskWarnings.
    rewrite (findings_from_cond_elem unmitigated riskMitigationWarning).
    split.
    + intros (i & risk & Hl & Hu & ->).
      apply andb_true_iff in Hu as [Hm Hs]. apply negb_true_iff, String.eqb_neq in Hs.
      by exists i, risk.
    + intros (i & risk & Hl & Hm & Hs & ->).
      exists i, risk. split; [done |]. split; [| done].
      unfold unmitigated. rewrite Hm. cbn. by apply negb_true_iff, String.eqb_neq.
  - intros f. unfold perOpportunityInfos.
    rewrite (findings_from_cond_elem unplanned opportunityActionsInfo).
    split.
    + intros (i & o & Hl & Hu & ->).
      apply andb_true_iff in Hu as [Hm Hs]. apply negb_true_iff, String.eqb_neq in Hs.
      by exists i, o.
    + intros (i & o & Hl & Hm & Hs & ->).
      exists i, o. split; [done |]. split; [| done].
      unfold unplanned. rewrite Hm. cbn. by apply negb_true_iff, String.eqb_neq.
  - apply findings_from_cond_length.
  - apply findings_from_cond_length.
Qed.

Lemma validateRisksOpportunities_per_record_witness :
  Warnings (validateRisksOpportunities nestedRiskOrganization) = [riskMitigationWarning 0]
  /\ Infos (validateRisksOpportunities nestedRiskOrganization) = []
  /\ length (flattenedRisks (sampleQMS [sampleRisk "high" "high"] [plannedOpportunity])) = 2.
Proof.
  destruct (validateRisksOpportunities_per_record nestedRiskOrganization
              (sampleQMS [sampleRisk "high" "high"] [plannedOpportunity]) eq_refl)
    as (Hw & Hi & _).
  split; [exact Hw | split; [exact Hi | reflexivity]].
Defined.

(** ** Compliance score *)

Lemma infoPoints_half result : infoPoints result = (Z.of_nat (length (Infos result)) / 2)%Z.
Proof.
  unfold infoPoints, int_of_float64, float64_of_int. cbn.
  rewrite Z.mul_1_r. apply Z.quot_div_nonneg; lia.
Qed.

Lemma ratio_bounds (p m : Z) :
  (0 <= p <= m)%Z -> (0 < m)%Z ->
  (0 <= inject_Z p / inject_Z m)%Q /\ (inject_Z p / inject_Z m <= 1)%Q
  /\ ((inject_Z p / inject_Z m == 0)%Q <-> p = 0%Z).
Proof.
  intros [Hp Hpm] Hm.
  assert (0 < inject_Z m)%Q as HmQ by (unfold Qlt; cbn; lia).
  assert (~ (inject_Z m == 0)%Q) as Hm0 by (unfold Qeq; cbn; lia).
  split; [| split].
  - apply Qle_shift_div_l; [done |]. rewrite Qmult_0_l. unfold Qle; cbn; lia.
  - apply Qle_shift_div_r; [done |]. rewrite Qmult_1_l. unfold Qle; cbn; lia.
  - split.
    + intros H.
      assert (inject_Z p == 0)%Q as H0.
      { rewrite <- (Qmult_div_r (inject_Z p) (inject_Z m)) by done.
        rewrite H. apply Qmult_0_r. }
      unfold Qeq in H0. cbn in H0. lia.
    + intros ->. unfold Qdiv. apply Qmult_0_l.
Qed.

Lemma penalty_bounds result :
  (0 <= totalPenaltyPoints result <= maxPossiblePoints result)%Z.
Proof.
  unfold totalPenaltyPoints, maxPossiblePoints, totalChecks, errorPoints, warningPoints.
  rewrite infoPoints_half.
  pose proof (Z.div_pos (Z.of_nat (length (Infos result))) 2).
  pose proof (Z.div_le_upper_bound (Z.of_nat (length (Infos result))) 2
                (Z.of_nat (length (Infos result)))).
  lia.
Qed.

Lemma penalty_zero result :
  totalPenaltyPoints result = 0%Z
  <-> length (Errors result) = 0 /\ length (Warnings result) = 0
      /\ length (Infos result) <= 1.
Proof.
  unfold totalPenaltyPoints, errorPoints, warningPoints. rewrite infoPoints_half.
  split.
  - intros H. pose proof (Z.div_pos (Z.of_nat (length (Infos result))) 2).
    assert (Z.of_nat (length (Infos result)) / 2 = 0)%Z as H2 by lia.
    apply Z.div_small_iff in H2; lia.
  - intros (He & Hw & Hi). rewrite He, Hw. cbn.
    apply Z.div_small. lia.
Qed.

(** The score of a validation result: within [0, 100], and 100 exactly when
    no penalty point is counted. *)
Lemma scoreOfResult_bounds result :
  (0 <= scoreOfResult result)%Q /\ (scoreOfResult result <= 100)%Q
  /\ ((scoreOfResult result == 100)%Q
      <-> length (Errors result) = 0 /\ length (Warnings result) = 0
          /\ length (Infos result) <= 1).
Proof.
  unfold scoreOfResult.
  destruct (Z.eqb_spec (totalChecks result) 0) as [H0 | H0].
  { split; [done |]. split; [apply Qle_refl |]. split; [| reflexivity].
    intros _. unfold totalChecks in H0. lia. }
  assert (0 < maxPossiblePoints result)%Z as Hm.
  { unfold maxPossiblePoints. unfold totalChecks in *. lia. }
  destruct (Z.eqb_spec (maxPossiblePoints result) 0) as [Hm0 | _]; [lia |].
  pose proof (penalty_bounds result) as Hp.
  destruct (ratio_bounds _ _ Hp Hm) as (Hlo & Hhi & Hz).
  set (x := (inject_Z (totalPenaltyPoints result)
             / inject_Z (maxPossiblePoints result))%Q) in *.
  unfold float64_of_int. fold x. cbv zeta.
  rewrite <- penalty_zero, <- Hz.
  destruct (Qlt_le_dec (100 * (1 - x)) 0) as [Hneg | Hnn].
  - exfalso. lra.
  - split; [done |]. split; [lra |]. split; intros H; lra.
Qed.

(** The score of every organization lies in [0, 100]. *)
Lemma GetComplianceScore_range org :
  (0 <= GetComplianceScore org)%Q /\ (GetComplianceScore org <= 100)%Q.
Proof.
  destruct (scoreOfResult_bounds (ValidateOrganization org)) as (H0 & H100 & _).
  by split.
Qed.

(** C2.  The code misses the claim, and its own comment that an info weighs
    0.5 points: the organization whose validation yields one info and no
    other finding has one finding, is charged no penalty point for it, the
    half point being lost in the conversion to an integer, and scores exactly
    100; so a score of 100 does not tell that there is no finding. *)
Theorem GetComplianceScore_perfect_with_one_info :
  let result := ValidateOrganization oneInfoOrganization in
  (length (Errors result), length (Warnings result), length (Infos result)) = (0, 0, 1)
  /\ totalChecks result = 1%Z
  /\ infoPoints result = 0%Z
  /\ totalPenaltyPoints result = 0%Z
  /\ (GetComplianceScore oneInfoOrganization == 100)%Q
  /\ ~ ((GetComplianceScore oneInfoOrganization == 100)%Q <-> totalChecks result = 0%Z).
Proof.
  cbv zeta. do 5 (split; [by vm_compute |]).
  intros [H _].
  assert (GetComplianceScore oneInfoOrganization == 100)%Q as Hs by (by vm_compute).
  specialize (H Hs). vm_compute in H. discriminate.
Qed.

(** What the code returns when validation yields at least one finding:
    100 * (1 - penalty / maxPossible) floored at 0 with maxPossible =
    3 (E + W + I) and penalty = 3 E + W + I / 2, the division being the
    integer one that the conversion of the info half points performs. *)
Lemma GetComplianceScore_truncated_penalty org :
  0 < length (Errors (ValidateOrganization org))
      + length (Warnings (ValidateOrganization org))
      + length (Infos (ValidateOrganization org)) ->
  (GetComplianceScore org
   == truncatedScore (length (Errors (ValidateOrganization org)))
        (length (Warnings (ValidateOrganization org)))
        (length (Infos (ValidateOrganization org))))%Q.
Proof.
  intros Hpos. unfold GetComplianceScore, scoreOfResult, truncatedScore.
  set (result := ValidateOrganization org) in *.
  destruct (Z.eqb_spec (totalChecks result) 0) as [H0 | H0];
    [unfold totalChecks in H0; lia |].
  destruct (Z.eqb_spec (maxPossiblePoints result) 0) as [Hm0 | _];
    [unfold maxPossiblePoints in Hm0; lia |].
  unfold float64_of_int.
  replace (totalPenaltyPoints result)
    with (3 * Z.of_nat (length (Errors result)) + 1 * Z.of_nat (length (Warnings result))
          + Z.of_nat (length (Infos result)) / 2)%Z.
  2:{ unfold totalPenaltyPoints, errorPoints, warningPoints.
      rewrite infoPoints_half. lia. }
  replace (maxPossiblePoints result)
    with (3 * (Z.of_nat (length (Errors result)) + Z.of_nat (length (Warnings result))
               + Z.of_nat (length (Infos result))))%Z.
  2:{ unfold maxPossiblePoints, totalChecks. lia. }
  reflexivity.
Qed.

(** C3.  The code misses the penalty of the claim, and its own comment
    that an info weighs 0.5 points: with three infos and nothing else the
    rounding of 1.5 gives a penalty of 2 points and the score 700/9, while
    the code drops the half point, charges 1 point and returns 800/9; so
    the organization with three infos scores above the one with two, which
    is charged the same point and scores 250/3. *)
Theorem GetComplianceScore_not_rounded :
  let result := ValidateOrganization threeInfoOrganization in
  (length (Errors result), length (Warnings result), length (Infos result)) = (0, 0, 3)
  /\ infoPoints result = 1%Z
  /\ (GetComplianceScore threeInfoOrganization == 800 # 9)%Q
  /\ (documentedScore 0 0 3 == 700 # 9)%Q
  /\ ~ (GetComplianceScore threeInfoOrganization == documentedScore 0 0 3)%Q
  /\ (length (Errors (ValidateOrganization twoInfoOrganization)),
      length (Warnings (ValidateOrganization twoInfoOrganization)),
      length (Infos (ValidateOrganization twoInfoOrganization))) = (0, 0, 2)
  /\ infoPoints (ValidateOrganization twoInfoOrganization) = 1%Z
  /\ (GetComplianceScore twoInfoOrganization == 250 # 3)%Q
  /\ (GetComplianceScore twoInfoOrganization < GetComplianceScore threeInfoOrganization)%Q.
Proof.
  cbv zeta. do 4 (split; [by vm_compute |]).
  split; [intros H; vm_compute in H; discriminate |].
  do 3 (split; [by vm_compute |]). by vm_compute.
Qed.

(** ** Risk score and priority *)

(** C5.  On each of the 25 pairs of levels the risk score is the product of
    the weights 1, 1, 2, 3, 4 of the likelihood and of the impact (the same
    for very low and low), the scores that occur are 1, 2, 3, 4, 6, 8, 9, 12
    and 16, and the priority depends on the score alone: critical from 16,
    high from 9, medium from 4, low below. *)
Theorem risk_score_and_priority_table (l i : Level) (now : Time) (id : string) (r : Risk) :
  getRiskScore (levelName l) = weight l
  /\ riskScore (levelName l) (levelName i) = (weight l * weight i)%Z
  /\ RiskScore (riskEntry now id (Risk_assessed (levelName l) (levelName i) r))
     = (weight l * weight i)%Z
  /\ riskScore (levelName VeryLow) (levelName i) = riskScore (levelName Low) (levelName i)
  /\ riskScore (levelName l) (levelName VeryLow) = riskScore (levelName l) (levelName Low)
  /\ calculatePriority (levelName l) (levelName i) = tierOfScore (weight l * weight i)
  /\ Risk_Priority (Risk_assessed (levelName l) (levelName i) r)
     = tierOfScore (weight l * weight i)
  /\ In (weight l * weight i)%Z [1; 2; 3; 4; 6; 8; 9; 12; 16]%Z
  /\ (calculatePriority (levelName l) (levelName i) = PriorityCritical
      <-> (weight l * weight i = 16)%Z)
  /\ (calculatePriority (levelName l) (levelName i) = PriorityHigh
      <-> In (weight l * weight i)%Z [9; 12]%Z)
  /\ (calculatePriority (levelName l) (levelName i) = PriorityMedium
      <-> In (weight l * weight i)%Z [4; 6; 8]%Z)
  /\ (calculatePriority (levelName l) (levelName i) = PriorityLow
      <-> In (weight l * weight i)%Z [1; 2; 3]%Z).
Proof.
  destruct l, i; vm_compute; intuition (try discriminate; try congruence).
Qed.

(** ** The query for critical risks *)

Lemma GetCriticalRisks_filter rm :
  GetCriticalRisks rm = List.filter isCriticalRisk (range_Risks rm).
Proof.
  unfold GetCriticalRisks, for_range.
  enough (forall l i acc,
            for_range_from i l (fun (_ : nat) risk critical =>
              if isCriticalRisk risk then (critical ++ [risk])%list else critical) acc
            = (acc ++ List.filter isCriticalRisk l)%list) as H by apply H.
  induction l as [|risk l IH]; intros i acc; cbn.
  - by rewrite app_nil_r.
  - rewrite IH. destruct (isCriticalRisk risk); [| done].
    by rewrite <- app_assoc.
Qed.

(** What the query returns: the risks of the manager whose impact is very
    high and whose likelihood, as a string, is not before "high". *)
Lemma GetCriticalRisks_spec rm risk :
  risk ∈ GetCriticalRisks rm
  <-> (exists id, RM_Risks rm !! id = Some risk)
      /\ Impact risk = RiskLevelVeryHigh
      /\ String.leb RiskLevelHigh (Likelihood risk) = true.
Proof.
  rewrite GetCriticalRisks_filter, list_elem_of_In, List.filter_In, <- list_elem_of_In.
  unfold range_Risks, isCriticalRisk, str_ge.
  rewrite list_elem_of_fmap, andb_true_iff, String.eqb_eq.
  split.
  - intros [([id r] & -> & Hin) [Hi Hl]]. apply elem_of_map_to_list in Hin. eauto.
  - intros ([id Hid] & Hi & Hl). split; [| done].
    exists (id, risk). split; [done |]. by apply elem_of_map_to_list.
Qed.

(** Each of the five level names is at or after "high" in the order of
    strings, so on the scale the likelihood test never fails. *)
Lemma every_level_at_least_high (l : Level) : str_ge (levelName l) RiskLevelHigh = true.
Proof. by destruct l. Qed.

Lemma isCriticalRisk_on_scale (l i : Level) (r : Risk) :
  isCriticalRisk (Risk_assessed (levelName l) (levelName i) r) = true <-> i = VeryHigh.
Proof.
  unfold isCriticalRisk. cbn [Impact Likelihood Risk_assessed].
  rewrite every_level_at_least_high, andb_true_r.
  destruct i; cbn; split; intros H; try done; discriminate.
Qed.

(** C1, the code at the failing input.  After a risk is identified and
    assessed with likelihood low and impact very high, the query for critical
    risks returns it. *)
Theorem GetCriticalRisks_returns_low_likelihood :
  exists risk,
    RM_Risks lowLikelihoodManager !! "RISK-001" = Some risk
    /\ Impact risk = RiskLevelVeryHigh
    /\ Likelihood risk = RiskLevelLow
    /\ GetCriticalRisks lowLikelihoodManager = [risk].
Proof.
  eexists. split; [by vm_compute |]. split; [done |]. split; [done |]. by vm_compute.
Qed.

(** ** The register *)

Section Sorting.

Context {A : Type} (less : A -> A -> bool) (R : A -> A -> Prop).
Hypothesis R_trans : forall x y z, R x y -> R y z -> R x z.
Hypothesis less_R : forall x y, less x y = true -> R x y.
Hypothesis not_less_R : forall x y, less x y = false -> R y x.

Lemma insert_by_perm x l : insert_by less x l ≡ₚ x :: l.
Proof.
  induction l as [|y l IH]; cbn; [done |].
  destruct (less x y); [done |]. rewrite IH. apply Permutation_swap.
Qed.

Lemma sort_Slice_perm l : sort_Slice less l ≡ₚ l.
Proof.
  unfold sort_Slice.
  enough (forall acc, fold_left (fun sorted x => insert_by less x sorted) l acc ≡ₚ acc ++ l)
    as H by apply H.
  induction l as [|x l IH]; intros acc; cbn.
  - by rewrite app_nil_r.
  - rewrite IH, insert_by_perm. cbn. apply Permutation_middle.
Qed.

Lemma insert_by_sorted x l :
  StronglySorted R l -> StronglySorted R (insert_by less x l).
Proof.
  induction 1 as [|y l Hl IH Hy]; cbn.
  - repeat constructor.
  - destruct (less x y) eqn:Hxy.
    + constructor; [by constructor |].
      constructor; [by apply less_R |].
      eapply Forall_impl; [exact Hy |]. intros z Hz.
      eapply R_trans; [by apply less_R | done].
    + constructor; [done |].
      rewrite insert_by_perm. constructor; [by apply not_less_R | done].
Qed.

Lemma sort_Slice_sorted l : StronglySorted R (sort_Slice less l).
Proof.
  unfold sort_Slice.
  enough (forall acc, StronglySorted R acc ->
            StronglySorted R (fold_left (fun sorted x => insert_by less x sorted) l acc))
    as H by (apply H; constructor).
  induction l as [|x l IH]; intros acc Hacc; cbn; [done |].
  by apply IH, insert_by_sorted.
Qed.

Lemma take_sorted n l : StronglySorted R l -> StronglySorted R (take n l).
Proof.
  intros Hl. revert n. induction Hl as [|y l Hl IH Hy]; intros [|n]; cbn;
    try constructor; [apply IH | by apply Forall_take].
Qed.

End Sorting.

Lemma entries_of_range (now : Clock) (l : list (string * Risk)) :
  for_range l (fun (i : nat) '(id, risk) orgRisks =>
      (orgRisks ++ [riskEntry (now (S i)) id risk])%list) []
  = imap (fun i '(id, risk) => riskEntry (now (S i)) id risk) l.
Proof.
  unfold for_range.
  enough (forall k acc,
            for_range_from k l (fun (i : nat) '(id, risk) orgRisks =>
                (orgRisks ++ [riskEntry (now (S i)) id risk])%list) acc
            = (acc ++ imap (fun i '(id, risk) => riskEntry (now (S (k + i))) id risk) l)%list)
    as H by apply H.
  induction l as [|[id risk] l IH]; intros k acc; cbn [for_range_from imap].
  - by rewrite app_nil_r.
  - rewrite IH, <- app_assoc, Nat.add_0_r. cbn [app]. do 2 f_equal.
    apply imap_ext. intros i [id' risk'] _. cbn. by rewrite Nat.add_succ_r.
Qed.

(** The view of any register that obeys the contract of the sort, whatever
    the order in which the map was visited and equal scores were placed. *)
Lemma critical_view_of_any_order (entries sorted : list RiskEntry) :
  sorted ≡ₚ entries -> StronglySorted scoreDescending sorted ->
  length (take 10 sorted) = 10 `min` length entries
  /\ StronglySorted scoreDescending (take 10 sorted).
Proof.
  intros Hperm Hsorted. split; [| by apply take_sorted].
  by rewrite length_take, Hperm.
Qed.

Lemma updateRegister_recomputed now rm : registerRecomputed now (updateRegister now rm).
Proof.
  unfold registerRecomputed, updateRegister.
  cbn [Register CriticalRisks OrganizationRisks RM_Risks].
  rewrite entries_of_range.
  set (entries := imap _ (map_to_list (RM_Risks rm))).
  set (less := fun a b : RiskEntry => (RiskScore b <? RiskScore a)%Z).
  assert (StronglySorted scoreDescending (sort_Slice less entries)) as Hsorted.
  { apply sort_Slice_sorted; unfold scoreDescending, less.
    - intros x y z; lia.
    - intros x y H%Z.ltb_lt; lia.
    - intros x y H%Z.ltb_ge; lia. }
  assert (length (sort_Slice less entries) = size (RM_Risks rm)) as Hlen.
  { rewrite (sort_Slice_perm less entries). unfold entries.
    by rewrite length_imap, length_map_to_list. }
  assert ((if (10 <? length (sort_Slice less entries))%nat
           then take 10 (sort_Slice less entries) else sort_Slice less entries)
          = take 10 (sort_Slice less entries)) as ->.
  { destruct (Nat.ltb_spec 10 (length (sort_Slice less entries))); [done |].
    by rewrite take_ge. }
  rewrite length_take, Hlen.
  repeat split; try done.
  - by apply take_sorted.
  - apply sort_Slice_perm.
Qed.

(** C7.  After each operation of the risk manager that recomputes the
    register, the critical view has min(10, number of known risks) entries;
    it is the prefix of length 10 of the register, whatever the priority of
    the entries; and the register, hence the view, is in descending order of
    score and holds one entry for each known risk. *)
Theorem register_critical_view now op rm rm' :
  runRiskOp now op rm = (None, rm') ->
  length (CriticalRisks (Register rm')) = 10 `min` size (RM_Risks rm')
  /\ CriticalRisks (Register rm') = take 10 (OrganizationRisks (Register rm'))
  /\ StronglySorted scoreDescending (CriticalRisks (Register rm'))
  /\ StronglySorted scoreDescending (OrganizationRisks (Register rm'))
  /\ exists first,
       OrganizationRisks (Register rm')
       ≡ₚ imap (fun i '(id, risk) => riskEntry (now (first + i)) id risk)
            (map_to_list (RM_Risks rm')).
Proof.
  intros Hrun.
  enough (exists first, registerRecomputed (later first now) rm')
    as (first & H1 & H2 & H3 & H4 & H5).
  { do 4 (split; [done |]). exists (first + 1). rewrite H5. apply Permutation_refl'.
    apply imap_ext. intros i [id risk] _. unfold later. cbn. do 2 f_equal. lia. }
  destruct op; cbn in Hrun;
    unfold IdentifyRisk, AssessRisk, MitigateRisk, MonitorRisk, IdentifyOpportunity,
      RealizeOpportunity in Hrun;
    repeat match type of Hrun with
           | (if ?c then _ else _) = _ => destruct c
           | match ?o with Some _ => _ | None => _ end = _ => destruct o
           end;
    try discriminate; injection Hrun as <-;
    first [ exists 1; apply updateRegister_recomputed
          | exists 0; apply (updateRegister_recomputed (later 0 now)) ].
Qed.

Lemma register_critical_view_witness :
  length (CriticalRisks (Register elevenRisksManager)) = 10
  /\ size (RM_Risks elevenRisksManager) = 11
  /\ StronglySorted scoreDescending (CriticalRisks (Register elevenRisksManager))
  /\ Forall (fun entry => Entry_Priority entry <> PriorityCritical)
       (CriticalRisks (Register elevenRisksManager)).
Proof.
  destruct (register_critical_view (clockFrom 3%Z) (OpIdentifyRisk (numberedRisk 11)) tenRisksManager
              elevenRisksManager ltac:(vm_compute; reflexivity)) as (Hlen & _ & Hsorted & _).
  split; [| split; [by vm_compute | split; [exact Hsorted |]]].
  - rewrite Hlen. by vm_compute.
  - vm_compute. repeat constructor; discriminate.
Defined.

(** ** Failed calls *)

Lemma known_false {V} (m : gmap string V) id : known m id = false -> m !! id = None.
Proof.
  unfold known. intros H%bool_decide_eq_false. by apply eq_None_not_Some.
Qed.

Lemma known_true {V} (m : gmap string V) id : known m id = true -> exists v, m !! id = Some v.
Proof. unfold known. by intros H%bool_decide_eq_true. Qed.

Section FailedCalls.

Variables ManagementReviewInputs ManagementReviewOutputs : Type.

Abbreviation Call := (ManagerCall ManagementReviewInputs ManagementReviewOutputs).

(** C8.  A call whose precondition is unmet (a required field is empty, the
    referenced ID is unknown, or the audit to start is not in planned
    status) returns an error and leaves the manager exactly as it was. *)
Theorem failed_call_leaves_state_unchanged (now : Clock) (c : Call) :
  precondition _ _ c = false ->
  exists e, runCall _ _ now c = (Some e, stateBefore _ _ c).
Proof.
  destruct c as [op rm | op qom | op am]; destruct op; cbn;
    unfold IdentifyRisk, AssessRisk, MitigateRisk, MonitorRisk, IdentifyOpportunity,
      RealizeOpportunity, CreateObjective, UpdateObjectiveProgress, CreateAudit,
      StartAudit, AddFinding, CompleteAudit, CreateManagementReview,
      CompleteManagementReview;
    intros Hpre;
    try (apply known_false in Hpre; rewrite Hpre; eauto);
    repeat match goal with
           | H : ?b = false |- context [?b] => rewrite H; cbn; eauto
           | |- context [if negb ?b then _ else _] => destruct b; cbn in *; eauto
           | |- context [if ?b then _ else _] => destruct b; cbn in *; eauto
           | |- context [match ?o with Some _ => _ | None => _ end] =>
               destruct o; cbn in *; eauto
           end;
    try discriminate.
Qed.

(** Conversely a call whose precondition is met returns no error. *)
Lemma met_precondition_succeeds (now : Clock) (c : Call) :
  precondition _ _ c = true -> fst (runCall _ _ now c) = None.
Proof.
  destruct c as [op rm | op qom | op am]; destruct op; cbn;
    unfold IdentifyRisk, AssessRisk, MitigateRisk, MonitorRisk, IdentifyOpportunity,
      RealizeOpportunity, CreateObjective, UpdateObjectiveProgress, CreateAudit,
      StartAudit, AddFinding, CompleteAudit, CreateManagementReview,
      CompleteManagementReview;
    intros Hpre;
    try (apply known_true in Hpre as [v Hpre]; rewrite Hpre; cbn);
    try done;
    repeat match goal with
           | H : ?b = true |- context [?b] => rewrite H; cbn; try done
           | |- context [if negb ?b then _ else _] => destruct b; cbn in *; try done
           | |- context [if ?b then _ else _] => destruct b; cbn in *; try done
           | |- context [match ?o with Some _ => _ | None => _ end] =>
               destruct o; cbn in *; try done
           end.
Qed.

End FailedCalls.

Lemma failed_call_leaves_state_unchanged_witness :
  precondition unit unit secondStart = false
  /\ exists e, runCall unit unit (clockFrom 3%Z) secondStart = (Some e, AuditState unit unit startedAuditManager).
Proof.
  split; [by vm_compute |].
  apply (failed_call_leaves_state_unchanged unit unit (clockFrom 3%Z) secondStart).
  by vm_compute.
Defined.

(** ** Objective progress *)






(** * Further properties *)

(** ** The validity flag and the severities *)

Lemma for_range_from_inv {A St : Type} (I : St -> Prop) (body : nat -> A -> St -> St) :
  (forall i x s, I s -> I (body i x s)) ->
  forall l i s, I s -> I (for_range_from i l body s).
Proof.
  intros Hbody l. induction l as [|x l IH]; intros i s Hs; cbn; [done |].
  by apply IH, Hbody.
Qed.

Lemma for_range_inv {A St : Type} (I : St -> Prop) (body : nat -> A -> St -> St) l s :
  (forall i x s, I s -> I (body i x s)) -> I s -> I (for_range l body s).
Proof. intros Hbody Hs. unfold for_range. by apply (for_range_from_inv I). Qed.

Lemma seq_stmts_inv (I : ValidationResult -> Prop) fs :
  Forall (fun f => forall r, I r -> I (f r)) fs ->
  forall r, I r -> I (seq_stmts fs r).
Proof.
  unfold seq_stmts. induction 1 as [|f fs Hf Hfs IH]; intros r Hr; cbn; [done |].
  by apply IH, Hf.
Qed.

Lemma consistent_newResult : consistentResult newResult.
Proof. by repeat split. Qed.

Lemma consistent_addError clause field message r :
  consistentResult r -> consistentResult (addError clause field message r).
Proof.
  intros (Hv & He & Hw & Hi). repeat split; cbn; try done.
  - by destruct (Errors r).
  - apply Forall_app. split; [done |]. by repeat constructor.
Qed.

Lemma consistent_addWarning clause field message r :
  consistentResult r -> consistentResult (addWarning clause field message r).
Proof.
  intros (Hv & He & Hw & Hi). repeat split; cbn; try done.
  apply Forall_app. split; [done |]. by repeat constructor.
Qed.

Lemma consistent_addInfo clause field message r :
  consistentResult r -> consistentResult (addInfo clause field message r).
Proof.
  intros (Hv & He & Hw & Hi). repeat split; cbn; try done.
  apply Forall_app. split; [done |]. by repeat constructor.
Qed.

Lemma consistent_when c f r :
  (forall r, consistentResult r -> consistentResult (f r)) ->
  consistentResult r -> consistentResult (when c f r).
Proof. intros Hf Hr. destruct c; cbn; [by apply Hf | done]. Qed.

Lemma consistent_merge other r :
  consistentResult other -> consistentResult r -> consistentResult (merge other r).
Proof.
  intros (Hv' & He' & Hw' & Hi') (Hv & He & Hw & Hi).
  repeat split; cbn; try (apply Forall_app; by split).
  rewrite Hv', Hv. by destruct (Errors r), (Errors other).
Qed.

(** Splits a [Forall] over a list given by its elements. *)
Ltac forall_elements :=
  repeat match goal with
         | |- Forall _ (_ :: _) => apply List.Forall_cons
         | |- Forall _ [] => apply List.Forall_nil
         end.

(** Closes the consistency of a block of statements on a consistent result. *)
Ltac consistency :=
  repeat first
    [ assumption
    | apply consistent_newResult
    | apply consistent_addError
    | apply consistent_addWarning
    | apply consistent_addInfo
    | apply consistent_when; intros
    | apply seq_stmts_inv; [forall_elements; intros |]
    | apply (for_range_inv consistentResult); [intros |] ].

Lemma validateContext_consistent org : consistentResult (validateContext org).
Proof. unfold validateContext. destruct (Context org); consistency. Qed.

Lemma validateInterestedParties_consistent org :
  consistentResult (validateInterestedParties org).
Proof.
  unfold validateInterestedParties. destruct (Context org) as [ctx |]; [| consistency].
  destruct (len0 (InterestedParties ctx)); [consistency |].
  match goal with |- context [for_range ?l ?body ?s] =>
    assert (consistentResult (fst (for_range l body s))) as Hloop
  end.
  { apply (for_range_inv (fun s => consistentResult (fst s))); [| consistency].
    intros i party [r f] Hr; cbn in *. consistency. }
  destruct (for_range _ _ _) as [result flags]; cbn in Hloop. consistency.
Qed.

Lemma validateQMSScope_consistent org : consistentResult (validateQMSScope org).
Proof. unfold validateQMSScope. destruct (QMS org ≫= Scope); consistency. Qed.

Lemma validateQMSProcesses_consistent org : consistentResult (validateQMSProcesses org).
Proof.
  unfold validateQMSProcesses. destruct (QMS org) as [qms |]; [| consistency].
  destruct (len0 (Processes qms)); consistency.
Qed.

Lemma validateLeadership_consistent org : consistentResult (validateLeadership org).
Proof. unfold validateLeadership. destruct (Org_Leadership org); consistency. Qed.

Lemma validateQualityPolicy_consistent org : consistentResult (validateQualityPolicy org).
Proof.
  unfold validateQualityPolicy.
  destruct (Org_Leadership org ≫= Leadership_QualityPolicy); consistency.
Qed.

Lemma validateRolesResponsibilities_consistent org :
  consistentResult (validateRolesResponsibilities org).
Proof.
  unfold validateRolesResponsibilities. destruct (Org_Leadership org) as [ld |]; [| consistency].
  destruct (len0 (Roles ld)); consistency.
Qed.

Lemma validateRisksOpportunities_consistent org :
  consistentResult (validateRisksOpportunities org).
Proof.
  unfold validateRisksOpportunities. destruct (QMS org) as [qms |]; [| consistency].
  destruct (riskOpportunityTotals qms). consistency.
Qed.

Lemma validateQualityObjectives_consistent org :
  consistentResult (validateQualityObjectives org).
Proof.
  unfold validateQualityObjectives. destruct (QMS org) as [qms |]; [| consistency].
  destruct (len0 (Objectives qms)); consistency.
Qed.

Lemma ValidateOrganization_consistent org : consistentResult (ValidateOrganization org).
Proof.
  unfold ValidateOrganization. apply seq_stmts_inv; [| by repeat split].
  forall_elements; intros r Hr; apply consistent_merge; try done.
  - apply validateContext_consistent.
  - apply validateInterestedParties_consistent.
  - apply validateQMSScope_consistent.
  - apply validateQMSProcesses_consistent.
  - apply validateLeadership_consistent.
  - apply validateQualityPolicy_consistent.
  - apply validateRolesResponsibilities_consistent.
  - apply validateRisksOpportunities_consistent.
  - apply validateQualityObjectives_consistent.
Qed.

(** X1.  The validity flag of a validation is true exactly when the list of
    errors is empty, whatever the warnings and infos, and the high-level
    compliance check returns no error exactly in that case. *)
Theorem ValidateOrganization_valid_iff_no_errors org :
  (Valid (ValidateOrganization org) = true <-> Errors (ValidateOrganization org) = [])
  /\ (ValidateQMSCompliance org = None <-> Errors (ValidateOrganization org) = []).
Proof.
  destruct (ValidateOrganization_consistent org) as (Hv & _).
  unfold ValidateQMSCompliance. rewrite Hv.
  destruct (Errors (ValidateOrganization org)); cbn; split; split; intros; done.
Qed.

(** X2.  Every finding of a validation carries the severity of the list it
    is returned in: error in the errors, warning in the warnings, info in the
    infos. *)
Theorem ValidateOrganization_severities org f :
  (f ∈ Errors (ValidateOrganization org) -> Severity f = "error")
  /\ (f ∈ Warnings (ValidateOrganization org) -> Severity f = "warning")
  /\ (f ∈ Infos (ValidateOrganization org) -> Severity f = "info").
Proof.
  destruct (ValidateOrganization_consistent org) as (_ & He & Hw & Hi).
  rewrite Forall_forall in He, Hw, Hi. auto.
Qed.

(** ** Absent blocks *)

(** X3.  On an organization without context, leadership and QMS each of the
    nine checkers stops at its first test: the validation returns nine
    errors, one per clause from 4.1 to 6.2 in this order, no warning and no
    info, the result is invalid and the score is 0. *)
Theorem ValidateOrganization_absent_blocks org :
  Context org = None -> Org_Leadership org = None -> QMS org = None ->
  map Clause (Errors (ValidateOrganization org))
  = ["4.1"; "4.2"; "4.3"; "4.4"; "5.1"; "5.2"; "5.3"; "6.1"; "6.2"]
  /\ Warnings (ValidateOrganization org) = []
  /\ Infos (ValidateOrganization org) = []
  /\ Valid (ValidateOrganization org) = false
  /\ (GetComplianceScore org == 0)%Q.
Proof.
  intros Hc Hl Hq.
  assert (ValidateOrganization org = ValidateOrganization (blankOrganization "" "")) as Heq.
  { unfold ValidateOrganization, validateContext, validateInterestedParties,
      validateQMSScope, validateQMSProcesses, validateLeadership, validateQualityPolicy,
      validateRolesResponsibilities, validateRisksOpportunities, validateQualityObjectives.
    by rewrite Hc, Hl, Hq. }
  unfold GetComplianceScore. rewrite Heq. by vm_compute.
Qed.

Lemma ValidateOrganization_absent_blocks_witness :
  length (Errors (ValidateOrganization (blankOrganization "ORG-0" "Blank"))) = 9
  /\ (GetComplianceScore (blankOrganization "ORG-0" "Blank") == 0)%Q.
Proof.
  destruct (ValidateOrganization_absent_blocks (blankOrganization "ORG-0" "Blank")
              eq_refl eq_refl eq_refl) as (He & _ & _ & _ & Hs).
  split; [| exact Hs].
  rewrite <- (length_map Clause), He. reflexivity.
Defined.

(** ** The score as a function of the three counts *)

Lemma ratio_le (p m p' m' : Z) :
  (0 < m)%Z -> (0 < m')%Z -> (p * m' <= p' * m)%Z ->
  (inject_Z p / inject_Z m <= inject_Z p' / inject_Z m')%Q.
Proof.
  intros Hm Hm' H. destruct m as [|m|m], m' as [|m'|m']; try lia.
  unfold Qle, Qdiv, Qmult, Qinv, inject_Z; cbn. lia.
Qed.

Lemma ratio_lt (p m p' m' : Z) :
  (0 < m)%Z -> (0 < m')%Z -> (p * m' < p' * m)%Z ->
  (inject_Z p / inject_Z m < inject_Z p' / inject_Z m')%Q.
Proof.
  intros Hm Hm' H. destruct m as [|m|m], m' as [|m'|m']; try lia.
  unfold Qlt, Qdiv, Qmult, Qinv, inject_Z; cbn. lia.
Qed.

Lemma ratio_one (p m : Z) :
  (0 < m)%Z -> ((inject_Z p / inject_Z m == 1)%Q <-> p = m).
Proof.
  intros Hm. destruct m as [|m|m]; try lia.
  unfold Qeq, Qdiv, Qmult, Qinv, inject_Z; cbn. lia.
Qed.

Lemma scoreOfResult_formula result :
  totalChecks result <> 0%Z ->
  scoreOfResult result
  = (100 * (1 - inject_Z (totalPenaltyPoints result)
                / inject_Z (maxPossiblePoints result)))%Q
  /\ (0 < maxPossiblePoints result)%Z.
Proof.
  intros H0. unfold scoreOfResult.
  destruct (Z.eqb_spec (totalChecks result) 0) as [| _]; [done |].
  assert (0 < maxPossiblePoints result)%Z as Hm.
  { unfold maxPossiblePoints. unfold totalChecks in *. lia. }
  destruct (Z.eqb_spec (maxPossiblePoints result) 0) as [Hm0 | _]; [lia |].
  split; [| done].
  pose proof (penalty_bounds result) as Hp.
  destruct (ratio_bounds _ _ Hp Hm) as (Hlo & Hhi & _).
  unfold float64_of_int. cbv zeta.
  destruct (Qlt_le_dec _ 0) as [Hneg | Hnn]; [| done].
  exfalso. lra.
Qed.

Lemma penalty_counts result :
  exists c : Z,
    (0 <= 2 * c <= Z.of_nat (length (Infos result)))%Z
    /\ (Z.of_nat (length (Infos result)) <= 2 * c + 1)%Z
    /\ totalPenaltyPoints result
       = (3 * Z.of_nat (length (Errors result)) + Z.of_nat (length (Warnings result)) + c)%Z
    /\ maxPossiblePoints result
       = (3 * (Z.of_nat (length (Errors result)) + Z.of_nat (length (Warnings result))
               + Z.of_nat (length (Infos result))))%Z.
Proof.
  exists (Z.of_nat (length (Infos result)) / 2)%Z.
  unfold totalPenaltyPoints, maxPossiblePoints, totalChecks, errorPoints, warningPoints.
  rewrite infoPoints_half.
  pose proof (Z.div_mod (Z.of_nat (length (Infos result))) 2 ltac:(lia)).
  pose proof (Z.mod_pos_bound (Z.of_nat (length (Infos result))) 2 ltac:(lia)).
  lia.
Qed.

(** X4.  Of two validations with as many warnings and as many infos, the one
    with more errors never scores higher. *)
Theorem GetComplianceScore_antitone_in_errors org org' :
  length (Warnings (ValidateOrganization org)) = length (Warnings (ValidateOrganization org')) ->
  length (Infos (ValidateOrganization org)) = length (Infos (ValidateOrganization org')) ->
  length (Errors (ValidateOrganization org)) <= length (Errors (ValidateOrganization org')) ->
  (GetComplianceScore org' <= GetComplianceScore org)%Q.
Proof.
  unfold GetComplianceScore.
  set (r := ValidateOrganization org). set (r' := ValidateOrganization org').
  intros Hw Hi He.
  destruct (Z.eq_dec (totalChecks r) 0%Z) as [H0 | H0].
  { assert (scoreOfResult r = 100%Q) as ->.
    { unfold scoreOfResult. by rewrite H0. }
    apply scoreOfResult_bounds. }
  assert (totalChecks r' <> 0%Z) as H0' by (unfold totalChecks in *; lia).
  destruct (scoreOfResult_formula r H0) as [-> Hm].
  destruct (scoreOfResult_formula r' H0') as [-> Hm'].
  destruct (penalty_counts r) as (c & Hc1 & Hc2 & Hp & Hmx).
  destruct (penalty_counts r') as (c' & Hc1' & Hc2' & Hp' & Hmx').
  assert (c' = c) as -> by lia.
  assert (inject_Z (totalPenaltyPoints r) / inject_Z (maxPossiblePoints r)
          <= inject_Z (totalPenaltyPoints r') / inject_Z (maxPossiblePoints r'))%Q as Hle.
  { apply ratio_le; [done.. |]. rewrite Hp, Hp', Hmx, Hmx'. nia. }
  lra.
Qed.

Lemma GetComplianceScore_antitone_in_errors_witness :
  (GetComplianceScore (blankOrganization "ORG-0" "Blank") <= GetComplianceScore cleanOrganization)%Q.
Proof.
  apply GetComplianceScore_antitone_in_errors; vm_compute; lia.
Defined.

(** X5.  The score is 0 exactly when validation yields at least one error
    and nothing but errors. *)
Theorem GetComplianceScore_zero_iff_only_errors org :
  (GetComplianceScore org == 0)%Q
  <-> Errors (ValidateOrganization org) <> []
      /\ Warnings (ValidateOrganization org) = []
      /\ Infos (ValidateOrganization org) = [].
Proof.
  unfold GetComplianceScore. set (r := ValidateOrganization org).
  rewrite <- !length_zero_iff_nil.
  destruct (Z.eq_dec (totalChecks r) 0%Z) as [H0 | H0].
  { assert (scoreOfResult r = 100%Q) as ->.
    { unfold scoreOfResult. by rewrite H0. }
    unfold totalChecks in H0. split; [intros H; by vm_compute in H | lia]. }
  destruct (scoreOfResult_formula r H0) as [-> Hm].
  destruct (penalty_counts r) as (c & Hc1 & Hc2 & Hp & Hmx).
  pose proof (ratio_one (totalPenaltyPoints r) (maxPossiblePoints r) Hm) as Hone.
  split.
  - intros H.
    assert (totalPenaltyPoints r = maxPossiblePoints r) as Heq by (apply Hone; lra).
    unfold totalChecks in H0. lia.
  - intros (He & Hw & Hi).
    assert (totalPenaltyPoints r = maxPossiblePoints r) as Heq by lia.
    apply Hone in Heq. lra.
Qed.

(** X6.  A validation without errors scores at least 200/3, that is 66.67,
    however many warnings and infos it has. *)
Theorem GetComplianceScore_without_errors org :
  Errors (ValidateOrganization org) = [] ->
  (200 # 3 <= GetComplianceScore org)%Q.
Proof.
  unfold GetComplianceScore. set (r := ValidateOrganization org).
  intros He%length_zero_iff_nil.
  destruct (Z.eq_dec (totalChecks r) 0%Z) as [H0 | H0].
  { assert (scoreOfResult r = 100%Q) as ->; [| done].
    unfold scoreOfResult. by rewrite H0. }
  destruct (scoreOfResult_formula r H0) as [-> Hm].
  destruct (penalty_counts r) as (c & Hc1 & Hc2 & Hp & Hmx).
  assert (inject_Z (totalPenaltyPoints r) / inject_Z (maxPossiblePoints r)
          <= inject_Z 1 / inject_Z 3)%Q as Hle by (apply ratio_le; lia).
  assert (inject_Z 1 / inject_Z 3 == 1 # 3)%Q as H13 by done.
  lra.
Qed.

Lemma GetComplianceScore_without_errors_witness :
  (200 # 3 <= GetComplianceScore threeInfoOrganization)%Q.
Proof. apply GetComplianceScore_without_errors. by vm_compute. Defined.

(** X7.  A validation with at least one error scores less than 250/3, that
    is 83.34, however many warnings and infos surround the error. *)
Theorem GetComplianceScore_with_an_error org :
  Errors (ValidateOrganization org) <> [] ->
  (GetComplianceScore org < 250 # 3)%Q.
Proof.
  unfold GetComplianceScore. set (r := ValidateOrganization org).
  rewrite <- length_zero_iff_nil. intros He.
  assert (totalChecks r <> 0%Z) as H0 by (unfold totalChecks; lia).
  destruct (scoreOfResult_formula r H0) as [-> Hm].
  destruct (penalty_counts r) as (c & Hc1 & Hc2 & Hp & Hmx).
  assert (inject_Z 1 / inject_Z 6
          < inject_Z (totalPenaltyPoints r) / inject_Z (maxPossiblePoints r))%Q as Hlt
    by (apply ratio_lt; lia).
  assert (inject_Z 1 / inject_Z 6 == 1 # 6)%Q as H16 by done.
  lra.
Qed.

Lemma GetComplianceScore_with_an_error_witness :
  (GetComplianceScore partialLeadershipOrganization < 250 # 3)%Q.
Proof. apply GetComplianceScore_with_an_error. by vm_compute. Defined.

(** ** The compliance report *)

Lemma collect_filter_map {A B : Type} (p : A -> bool) (f : A -> B) (l : list A) :
  for_range l (fun (_ : nat) x acc => if p x then (acc ++ [f x])%list else acc) []
  = map f (List.filter p l).
Proof.
  unfold for_range.
  enough (forall i acc,
            for_range_from i l (fun (_ : nat) x acc =>
              if p x then (acc ++ [f x])%list else acc) acc
            = (acc ++ map f (List.filter p l))%list) as H by apply H.
  induction l as [|x l IH]; intros i acc; cbn.
  - by rewrite app_nil_r.
  - rewrite IH. destruct (p x); [| done]. by rewrite <- app_assoc.
Qed.

Lemma collect_map {A B : Type} (f : A -> B) (l : list A) :
  for_range l (fun (_ : nat) x acc => (acc ++ [f x])%list) [] = map f l.
Proof.
  unfold for_range.
  enough (forall i acc,
            for_range_from i l (fun (_ : nat) x acc => (acc ++ [f x])%list) acc
            = (acc ++ map f l)%list) as H by apply H.
  induction l as [|x l IH]; intros i acc; cbn.
  - by rewrite app_nil_r.
  - rewrite IH. by rewrite <- app_assoc.
Qed.

Lemma filter_all {A : Type} (p : A -> bool) (l : list A) :
  Forall (fun x => p x = true) l -> List.filter p l = l.
Proof. induction 1 as [|x l Hx Hl IH]; cbn; [done |]. by rewrite Hx, IH. Qed.

Lemma report_gaps now org :
  CriticalGaps (GenerateComplianceReport now org)
  = map gapOf (Errors (ValidateOrganization org)).
Proof.
  unfold GenerateComplianceReport. cbn [CriticalGaps].
  rewrite (collect_filter_map (fun err => String.eqb (Severity err) "error") gapOf).
  rewrite filter_all; [done |].
  destruct (ValidateOrganization_consistent org) as (_ & He & _).
  eapply Forall_impl; [exact He |]. intros f Hf. by apply String.eqb_eq.
Qed.

Lemma report_areas now org :
  ImprovementAreas (GenerateComplianceReport now org)
  = map areaOf (Warnings (ValidateOrganization org)).
Proof. unfold GenerateComplianceReport. cbn [ImprovementAreas]. apply collect_map. Qed.

(** X8.  The report lists one critical gap per error of the validation, in
    order, with its clause and message (the severity test of the loop never
    drops an error), and one improvement area per warning with its field and
    message; the infos appear nowhere but in the score; three
    recommendations are added when there is an error and three more when
    there is a warning. *)
Theorem GenerateComplianceReport_gaps_and_areas now org :
  CriticalGaps (GenerateComplianceReport now org)
  = map gapOf (Errors (ValidateOrganization org))
  /\ ImprovementAreas (GenerateComplianceReport now org)
     = map areaOf (Warnings (ValidateOrganization org))
  /\ ComplianceScore (GenerateComplianceReport now org) = GetComplianceScore org
  /\ length (Recommendations (GenerateComplianceReport now org))
     = (if len0 (Errors (ValidateOrganization org)) then 0 else 3)
       + (if len0 (Warnings (ValidateOrganization org)) then 0 else 3).
Proof.
  split; [apply report_gaps |]. split; [apply report_areas |]. split; [done |].
  pose proof (report_gaps now org) as Hg. pose proof (report_areas now org) as Ha.
  unfold GenerateComplianceReport in *. cbn [CriticalGaps ImprovementAreas Recommendations] in *.
  rewrite Hg, Ha.
  by destruct (Errors (ValidateOrganization org)), (Warnings (ValidateOrganization org)).
Qed.

Lemma complianceLevel_excellent score :
  complianceLevel score = "Excellent" -> (90 <= score)%Q.
Proof.
  unfold complianceLevel, score_ge. intros H.
  destruct (Qle_bool 90 score) eqn:H90; [by apply Qle_bool_iff |].
  repeat match type of H with (if ?c then _ else _) = _ => destruct c end; discriminate.
Qed.

Lemma complianceLevel_critical score :
  complianceLevel score = "Critical Gaps" -> (score < 60)%Q.
Proof.
  unfold complianceLevel, score_ge. intros H.
  destruct (Qle_bool 90 score); [discriminate |].
  destruct (Qle_bool 80 score); [discriminate |].
  destruct (Qle_bool 70 score); [discriminate |].
  destruct (Qle_bool 60 score) eqn:H60; [discriminate |].
  apply Qnot_le_lt. intros Hle. apply Qle_bool_iff in Hle. congruence.
Qed.

(** X9.  A report whose level is Excellent has no critical gap, and a report
    whose level is Critical Gaps has at least one: without errors the score
    is at least 66.67, with an error it is below 83.34. *)
Theorem GenerateComplianceReport_level_and_gaps now org :
  (OverallCompliance (GenerateComplianceReport now org) = "Excellent" ->
   CriticalGaps (GenerateComplianceReport now org) = [])
  /\ (OverallCompliance (GenerateComplianceReport now org) = "Critical Gaps" ->
      CriticalGaps (GenerateComplianceReport now org) <> []).
Proof.
  rewrite report_gaps. unfold GenerateComplianceReport; cbn [OverallCompliance].
  split.
  - intros H%complianceLevel_excellent.
    destruct (Errors (ValidateOrganization org)) eqn:He; [done |].
    pose proof (GetComplianceScore_with_an_error org) as Hlt.
    rewrite He in Hlt. specialize (Hlt ltac:(done)). lra.
  - intros H%complianceLevel_critical.
    destruct (Errors (ValidateOrganization org)) eqn:He; [| done].
    pose proof (GetComplianceScore_without_errors org He). lra.
Qed.

(** ** Clause 4.1: the numbering of the issues *)




Lemma findings_from_length {A} (f : nat -> A -> list ValidationError) (c : A -> nat) l :
  (forall i x, length (f i x) = c x) ->
  forall i, length (findings_from i l f) = sumOver c l.
Proof.
  intros Hf. induction l as [|x l IH]; intros i; cbn; [done |].
  by rewrite length_app, Hf, IH.
Qed.



Lemma findings_from_inv {A} (f : nat -> A -> list ValidationError) l x :
  forall i, x ∈ findings_from i l f -> exists j y, l !! j = Some y /\ x ∈ f (i + j) y.
Proof.
  induction l as [|z l IH]; intros i Hx; cbn in Hx; [by apply elem_of_nil in Hx |].
  apply elem_of_app in Hx as [Hx | Hx].
  - exists 0, z. by rewrite Nat.add_0_r.
  - destruct (IH _ Hx) as (j & y & Hj & Hy). exists (S j), y. split; [done |].
    by replace (i + S j) with (S i + j) by lia.
Qed.

(** Refutes the membership [H] of a finding in a list built from
    conditional singletons of other findings. *)
Ltac no_such_finding H :=
  repeat match type of H with
         | _ ∈ (_ ++ _)%list => apply elem_of_app in H as [H | H]
         | _ ∈ [] => by apply elem_of_nil in H
         | _ ∈ (if ?c then _ else _) => destruct c
         | _ ∈ [_] => apply list_elem_of_singleton in H; discriminate
         end.

Lemma filter_length_sum {A} (p : A -> bool) (l : list A) :
  length (List.filter p l) = sumOver (fun x => b2n (p x)) l.
Proof.
  unfold sumOver. induction l as [|x l IH]; cbn; [done |].
  rewrite <- IH. by destruct (p x).
Qed.

(** ** Clause 4.2: the three kinds of parties *)

Lemma pair_loop {A R F : Type} (g : nat -> A -> R -> R) (h : A -> F -> F) (l : list A) :
  forall i r f,
    for_range_from i l (fun i x '(r, f) => (g i x r, h x f)) (r, f)
    = (for_range_from i l g r, fold_left (fun f x => h x f) l f).
Proof. induction l as [|x l IH]; intros i r f; cbn; [done | apply IH]. Qed.

Lemma classifyParty_flags party f :
  hasCustomers (classifyParty (Party_Type party) f) = hasCustomers f || isCustomer party
  /\ hasSuppliers (classifyParty (Party_Type party) f) = hasSuppliers f || isSupplier party
  /\ hasRegulators (classifyParty (Party_Type party) f) = hasRegulators f || isRegulator party.
Proof.
  unfold classifyParty, isCustomer, isSupplier, isRegulator.
  generalize (Party_Type party). intros ty.
  destruct (String.eqb_spec ty "customer") as [-> |];
    [cbn; by rewrite !orb_true_r, !orb_false_r |].
  destruct (String.eqb_spec ty "supplier") as [-> |];
    [cbn; by rewrite !orb_true_r, !orb_false_r |].
  destruct (String.eqb_spec ty "external_provider") as [-> |];
    [cbn; by rewrite !orb_true_r, !orb_false_r |].
  destruct (String.eqb_spec ty "regulator") as [-> |];
    [cbn; by rewrite !orb_true_r, !orb_false_r |].
  destruct (String.eqb_spec ty "authority") as [-> |];
    cbn; by rewrite ?orb_true_r, ?orb_false_r.
Qed.

Lemma classified_flags (l : list InterestedParty) :
  forall f,
    let f' := fold_left (fun f party => classifyParty (Party_Type party) f) l f in
    hasCustomers f' = hasCustomers f || existsb isCustomer l
    /\ hasSuppliers f' = hasSuppliers f || existsb isSupplier l
    /\ hasRegulators f' = hasRegulators f || existsb isRegulator l.
Proof.
  induction l as [|party l IH]; intros f; cbn.
  - by rewrite !orb_false_r.
  - destruct (IH (classifyParty (Party_Type party) f)) as (-> & -> & ->).
    destruct (classifyParty_flags party f) as (-> & -> & ->).
    by rewrite !orb_assoc.
Qed.

(** X11.  For an organization with at least one interested party, the clause
    4.2 checker warns that no customer is identified exactly when no party
    has the type "customer", and that no supplier is identified exactly when
    no party has the type "supplier" or "external_provider"; a missing
    regulator ("regulator" or "authority") yields the only info; the types
    are compared as written, letter case included; the errors are one per
    party without a name. *)
Theorem validateInterestedParties_buckets org ctx :
  Context org = Some ctx -> InterestedParties ctx <> [] ->
  (noCustomersWarning ∈ Warnings (validateInterestedParties org)
   <-> existsb isCustomer (InterestedParties ctx) = false)
  /\ (noSuppliersWarning ∈ Warnings (validateInterestedParties org)
      <-> existsb isSupplier (InterestedParties ctx) = false)
  /\ Infos (validateInterestedParties org)
     = (if existsb isRegulator (InterestedParties ctx) then [] else [noRegulatorsInfo])
  /\ length (Errors (validateInterestedParties org))
     = length (List.filter (fun party => empty (Party_Name party)) (InterestedParties ctx)).
Proof.
  intros Hctx Hne. unfold validateInterestedParties. rewrite Hctx.
  destruct (InterestedParties ctx) as [|p0 ps] eqn:Hps; [done |].
  cbn [len0]. rewrite <- Hps. clear Hne.
  unfold for_range. rewrite pair_loop.
  destruct (classified_flags (InterestedParties ctx) (mkFlags false false false))
    as (Hc & Hs & Hr). cbn in Hc, Hs, Hr.
  set (flags := fold_left _ _ _) in *.
  match goal with |- context [for_range_from 0 ?l ?g newResult] =>
    edestruct (emits_newResult (for_range l g)) as (He & Hw & Hi); [emits_block |];
    fold (for_range l g newResult); set (loop := for_range l g newResult) in *
  end.
  match goal with |- context [seq_stmts ?fs loop] =>
    assert (exists e w i, emits (seq_stmts fs) e w i /\ e = [] /\
              w = ((if negb (hasCustomers flags) then [noCustomersWarning] else [])
                   ++ (if negb (hasSuppliers flags) then [noSuppliersWarning] else []))%list
              /\ i = (if negb (hasRegulators flags) then [noRegulatorsInfo] else []))
      as (e & w & i & Hem & -> & -> & ->)
  end.
  { eexists _, _, _. split; [emits_block |]. cbn [app]. by rewrite !app_nil_r. }
  destruct (Hem loop) as (-> & -> & ->). rewrite He, Hw, Hi, Hc, Hs, Hr.
  rewrite app_nil_r, findings_from_nil, app_nil_l.
  split; [| split; [| split]].
  - split.
    + intros Hin. destruct (existsb isCustomer (InterestedParties ctx)); [| done].
      exfalso. apply elem_of_app in Hin as [Hin | Hin].
      * apply findings_from_inv in Hin as (j & q & _ & Hin). no_such_finding Hin.
      * cbn in Hin. no_such_finding Hin.
    + intros ->. apply elem_of_app. right. by left.
  - split.
    + intros Hin. destruct (existsb isSupplier (InterestedParties ctx)); [| done].
      exfalso. apply elem_of_app in Hin as [Hin | Hin].
      * apply findings_from_inv in Hin as (j & q & _ & Hin). no_such_finding Hin.
      * cbn in Hin. no_such_finding Hin.
    + intros ->. apply elem_of_app. right. apply elem_of_app. right. by left.
  - by destruct (existsb isRegulator (InterestedParties ctx)).
  - rewrite ?app_nil_r.
    rewrite (findings_from_length _ (fun party => b2n (empty (Party_Name party)))).
    + by rewrite filter_length_sum.
    + intros n q. rewrite !length_app. by destruct (empty (Party_Name q)).
Qed.

Lemma validateInterestedParties_buckets_witness :
  noCustomersWarning ∈ Warnings (validateInterestedParties issuesOrganization)
  <-> existsb isCustomer [mkInterestedParty "P-9" "Buyers" "Customer" []] = false.
Proof.
  exact (proj1 (validateInterestedParties_buckets issuesOrganization
                  (mkContext [sampleIssue IssueTypeExternal]
                     [sampleIssue IssueTypeInternal; mkIssue "ISSUE-3" "" "" "" "" 0%Z]
                     [mkInterestedParty "P-9" "Buyers" "Customer" []])
                  eq_refl ltac:(discriminate))).
Defined.

(** ** Clause 4.4: every test of every process counts *)

(** X12.  For an organization with at least one process, the clause 4.4
    checker evaluates all six tests on every process, none hiding another:
    the errors number one per process without name, one per process without
    responsibilities and one per process without criteria; the warnings one
    per process without inputs and one per process without outputs; the
    infos one per process without risks of its own, its opportunities not
    being looked at. *)
Theorem validateQMSProcesses_counts org qms :
  QMS org = Some qms -> Processes qms <> [] ->
  length (Errors (validateQMSProcesses org))
  = sumOver (fun p => b2n (empty (Process_Name p)) + b2n (len0 (Process_Responsibilities p))
                      + b2n (len0 (Process_Criteria p))) (Processes qms)
  /\ length (Warnings (validateQMSProcesses org))
     = sumOver (fun p => b2n (len0 (Inputs p)) + b2n (len0 (Outputs p))) (Processes qms)
  /\ length (Infos (validateQMSProcesses org))
     = sumOver (fun p => b2n (len0 (Process_Risks p))) (Processes qms).
Proof.
  intros Hqms Hne. unfold validateQMSProcesses. rewrite Hqms.
  destruct (Processes qms) as [|p0 ps] eqn:Hps; [done |].
  cbn [len0]. rewrite <- Hps. clear Hne Hps p0 ps.
  match goal with |- context [for_range ?l ?g newResult] =>
    edestruct (emits_newResult (for_range l g)) as (He & Hw & Hi); [emits_block |]
  end.
  rewrite He, Hw, Hi. split; [| split]; apply findings_from_length; intros i p;
    rewrite ?length_app;
    destruct (empty (Process_Name p)), (len0 (Inputs p)), (len0 (Outputs p)),
      (len0 (Process_Responsibilities p)), (len0 (Process_Criteria p)),
      (len0 (Process_Risks p)); reflexivity.
Qed.

Lemma validateQMSProcesses_counts_witness :
  length (Errors (validateQMSProcesses bareProcessOrganization)) = 3
  /\ length (Warnings (validateQMSProcesses bareProcessOrganization)) = 2
  /\ length (Infos (validateQMSProcesses bareProcessOrganization)) = 1.
Proof.
  exact (validateQMSProcesses_counts bareProcessOrganization
           (mkQMS "QMS-4" None [bareProcess] [] [] [] 0%Z) eq_refl ltac:(discriminate)).
Defined.

(** ** Levels off the scale *)

Lemma getRiskScore_cases (level : RiskLevel) :
  (level = RiskLevelVeryHigh /\ getRiskScore level = 4%Z)
  \/ (level = RiskLevelHigh /\ getRiskScore level = 3%Z)
  \/ (level = RiskLevelMedium /\ getRiskScore level = 2%Z)
  \/ (level <> RiskLevelVeryHigh /\ level <> RiskLevelHigh /\ level <> RiskLevelMedium
      /\ getRiskScore level = 1%Z).
Proof.
  unfold getRiskScore.
  destruct (String.eqb_spec level RiskLevelVeryHigh) as [-> | H1]; [by left |].
  destruct (String.eqb_spec level RiskLevelHigh) as [-> | H2]; [right; by left |].
  destruct (String.eqb_spec level RiskLevelMedium) as [-> | H3]; [right; right; by left |].
  right; right; right. repeat split; try done.
  by destruct (String.eqb level RiskLevelLow), (String.eqb level RiskLevelVeryLow).
Qed.

(** X13.  Whatever strings stand for the likelihood and the impact, the risk
    score lies between 1 and 16 and the priority is one of the four tiers;
    every string other than "medium", "high" and "very_high" weighs 1, so a
    risk that was never assessed (empty levels) enters the register with
    score 1, and a level name in another letter case counts as the lowest
    level. *)
Theorem risk_score_of_any_strings (likelihood impact : RiskLevel) :
  (1 <= riskScore likelihood impact <= 16)%Z
  /\ In (calculatePriority likelihood impact)
       [PriorityLow; PriorityMedium; PriorityHigh; PriorityCritical]
  /\ (likelihood <> RiskLevelMedium -> likelihood <> RiskLevelHigh ->
      likelihood <> RiskLevelVeryHigh -> getRiskScore likelihood = 1%Z)
  /\ riskScore "" "" = 1%Z
  /\ getRiskScore "HIGH" = 1%Z.
Proof.
  unfold riskScore, calculatePriority.
  destruct (getRiskScore_cases likelihood) as [[-> ->] | [[-> ->] | [[-> ->] | (? & ? & ? & ->)]]];
    destruct (getRiskScore_cases impact) as [[-> ->] | [[-> ->] | [[-> ->] | (? & ? & ? & ->)]]];
    cbn; intuition (try lia; try congruence).
Qed.

Lemma parseRiskLevel_cases (s : string) :
  (In s [RiskLevelVeryLow; RiskLevelLow; RiskLevelMedium; RiskLevelHigh; RiskLevelVeryHigh]
   /\ parseRiskLevel s = s)
  \/ (~ In s [RiskLevelVeryLow; RiskLevelLow; RiskLevelMedium; RiskLevelHigh; RiskLevelVeryHigh]
      /\ parseRiskLevel s = RiskLevelMedium).
Proof.
  unfold parseRiskLevel.
  destruct (String.eqb_spec s "very_low") as [-> | H1]; [left; cbn; tauto |].
  destruct (String.eqb_spec s "low") as [-> | H2]; [left; cbn; tauto |].
  destruct (String.eqb_spec s "medium") as [-> | H3]; [left; cbn; tauto |].
  destruct (String.eqb_spec s "high") as [-> | H4]; [left; cbn; tauto |].
  destruct (String.eqb_spec s "very_high") as [-> | H5]; [left; cbn; tauto |].
  right. split; [| done]. intros Hin. cbn in Hin.
  unfold RiskLevelVeryLow, RiskLevelLow, RiskLevelMedium, RiskLevelHigh, RiskLevelVeryHigh
    in Hin.
  intuition congruence.
Qed.

(** X14.  The parser of levels of the tool handlers returns a level of the
    five-level scale for every input, returns a level name unchanged, and
    maps every other string to medium; so an unrecognised input is assessed
    with weight 2, while the same string given to the scoring directly
    weighs 1. *)
Theorem parseRiskLevel_on_scale (s : string) :
  In (parseRiskLevel s)
    [RiskLevelVeryLow; RiskLevelLow; RiskLevelMedium; RiskLevelHigh; RiskLevelVeryHigh]
  /\ (forall l : Level, parseRiskLevel (levelName l) = levelName l)
  /\ parseRiskLevel (parseRiskLevel s) = parseRiskLevel s
  /\ (~ In s [RiskLevelVeryLow; RiskLevelLow; RiskLevelMedium; RiskLevelHigh; RiskLevelVeryHigh] ->
      parseRiskLevel s = RiskLevelMedium
      /\ getRiskScore (parseRiskLevel s) = 2%Z /\ getRiskScore s = 1%Z).
Proof.
  split; [| split; [| split]].
  - destruct (parseRiskLevel_cases s) as [[Hin ->] | [_ ->]]; [done | cbn; tauto].
  - by intros [].
  - destruct (parseRiskLevel_cases s) as [[Hin ->] | [_ ->]]; [| done].
    destruct (parseRiskLevel_cases s) as [[_ ->] | [Hn _]]; done.
  - intros Hn. destruct (parseRiskLevel_cases s) as [[Hin _] | [_ ->]]; [done |].
    split; [done |]. split; [done |].
    destruct (getRiskScore_cases s) as [[-> _] | [[-> _] | [[-> _] | (_ & _ & _ & ->)]]];
      try done; exfalso; apply Hn; cbn; tauto.
Qed.

(** ** What the operations of the risk manager store *)

(** Splits a goal on a call of the risk manager into the failing and the
    succeeding runs of each operation. *)
Ltac risk_op_cases op :=
  destruct op; cbn [runRiskOp];
  unfold IdentifyRisk, AssessRisk, MitigateRisk, MonitorRisk, IdentifyOpportunity,
    RealizeOpportunity, empty;
  repeat match goal with
         | |- context [if String.eqb ?s "" then _ else _] =>
             destruct (String.eqb_spec s "")
         | |- context [match ?m !! ?k with Some _ => _ | None => _ end] =>
             let H := fresh "Hold" in destruct (m !! k) eqn:H
         end;
  cbn [snd fst].

Lemma keyedManager_step now op rm :
  keyedManager rm -> keyedManager (snd (runRiskOp now op rm)).
Proof.
  intros [Hr Ho]. risk_op_cases op; try (by split);
    unfold keyedManager, updateRegister, set_Risks, set_Opportunities;
    cbn [RM_Risks RM_Opportunities Risk_identified Opp_identified Risk_ID Opp_ID];
    (split; [| try done]); try done; intros k x;
    rewrite lookup_insert; case_decide as Hk; try (by auto);
    intros [= <-]; subst; cbn; try done.
  - by apply (Hr k r).
  - by apply (Hr k r).
  - by apply (Hr k r).
  - by apply (Ho k o).
Qed.

(** X15.  In every risk manager reached from a new one through its
    operations, each risk is stored under its own ID, the ID and the
    description are not empty, and the same holds of the opportunities. *)
Theorem reachable_risk_manager_keys rm :
  reachableRiskManager rm ->
  (forall k r, RM_Risks rm !! k = Some r ->
     Risk_ID r = k /\ k <> "" /\ Risk_Description r <> "")
  /\ (forall k o, RM_Opportunities rm !! k = Some o ->
        Opp_ID o = k /\ k <> "" /\ Opp_Description o <> "").
Proof.
  induction 1 as [| now op rm _ IH].
  - split; intros k x Hk; unfold NewRiskManager in Hk;
      cbn [RM_Risks RM_Opportunities] in Hk; by rewrite lookup_empty in Hk.
  - by apply keyedManager_step.
Qed.

Lemma reachable_lowLikelihoodManager : reachableRiskManager lowLikelihoodManager.
Proof.
  exact (reachable_step_rm (clockFrom 2%Z) (OpAssessRisk "RISK-001" RiskLevelLow RiskLevelVeryHigh) _
           (reachable_step_rm (clockFrom 1%Z) (OpIdentifyRisk (sampleRisk "" "")) _ reachable_new_rm)).
Defined.

Lemma reachable_risk_manager_keys_witness :
  reachableRiskManager lowLikelihoodManager
  /\ (forall k r, RM_Risks lowLikelihoodManager !! k = Some r ->
        Risk_ID r = k /\ k <> "" /\ Risk_Description r <> "").
Proof.
  split; [exact reachable_lowLikelihoodManager |].
  exact (proj1 (reachable_risk_manager_keys lowLikelihoodManager
                  reachable_lowLikelihoodManager)).
Defined.

Lemma imap_readings {A B : Type} (g : Time -> A -> B) (l : list A) :
  forall c : nat -> Time,
    imap (fun i x => g (c i) x) l = zip_with g (map c (seq 0 (length l))) l.
Proof.
  induction l as [|x l IH]; intros c; [done |].
  cbn [imap length seq map zip_with]. f_equal.
  rewrite <- seq_shift, map_map. apply (IH (fun i => c (S i))).
Qed.

Lemma registerRecomputed_current now rm : registerRecomputed now rm -> registerCurrent rm.
Proof.
  intros (Hlen & Hc & _ & Hs & Hp).
  assert (length (OrganizationRisks (Register rm)) = size (RM_Risks rm)) as Hsize
    by by rewrite Hp, length_imap, length_map_to_list.
  split; [| done].
  exists (map (fun i => now (S i)) (seq 0 (size (RM_Risks rm)))).
  split; [by rewrite length_map, length_seq |].
  rewrite Hp, <- (length_map_to_list (RM_Risks rm)). apply Permutation_refl'.
  apply (imap_readings (fun t '(id, risk) => riskEntry t id risk)).
Qed.

Lemma registerCurrent_step now op rm :
  registerCurrent rm -> registerCurrent (snd (runRiskOp now op rm)).
Proof.
  intros Hrm. risk_op_cases op; try done;
    eapply registerRecomputed_current, updateRegister_recomputed.
Qed.

(** X16.  In every risk manager reached from a new one through its
    operations, failed calls included, the register is a recomputation from
    the risks now stored: it holds one entry per stored risk, built from that
    risk and stamped with some instant (the clock being read anew for every
    entry, nothing ties the stamps to one another or to the time of the
    register), in descending order of score, and the critical view is its
    prefix of length 10, hence of min(10, number of risks) entries. *)
Theorem reachable_register_is_current rm :
  reachableRiskManager rm ->
  (exists readings : list Time,
     length readings = size (RM_Risks rm)
     /\ OrganizationRisks (Register rm)
        ≡ₚ zip_with (fun t '(id, risk) => riskEntry t id risk) readings
             (map_to_list (RM_Risks rm)))
  /\ length (OrganizationRisks (Register rm)) = size (RM_Risks rm)
  /\ StronglySorted scoreDescending (OrganizationRisks (Register rm))
  /\ CriticalRisks (Register rm) = take 10 (OrganizationRisks (Register rm))
  /\ length (CriticalRisks (Register rm)) = 10 `min` size (RM_Risks rm).
Proof.
  intros Hreach. change (registerCurrent rm).
  induction Hreach as [| now op rm _ IH]; [| by apply registerCurrent_step].
  split; [| repeat split; try done; constructor].
  exists []. split; [done |].
  unfold NewRiskManager. cbn [RM_Risks Register OrganizationRisks].
  by rewrite map_to_list_empty.
Qed.

Lemma reachable_register_is_current_witness :
  reachableRiskManager lowLikelihoodManager
  /\ length (OrganizationRisks (Register lowLikelihoodManager))
     = size (RM_Risks lowLikelihoodManager)
  /\ CriticalRisks (Register lowLikelihoodManager)
     = take 10 (OrganizationRisks (Register lowLikelihoodManager)).
Proof.
  destruct (reachable_register_is_current lowLikelihoodManager reachable_lowLikelihoodManager)
    as (_ & Hl & _ & Hc & _).
  exact (conj reachable_lowLikelihoodManager (conj Hl Hc)).
Defined.

(** X17.  A successful IdentifyRisk stores the risk under its ID with status
    identified and the first clock reading of the call as creation time,
    whatever status the caller passed, and keeps the levels, the priority and the mitigation the caller
    passed; a risk already stored under that ID is replaced; the other risks
    and the opportunities are untouched, and the number of risks grows by one
    exactly when the ID was new. *)
Theorem IdentifyRisk_stores now risk rm rm' :
  IdentifyRisk now risk rm = (None, rm') ->
  (exists stored,
     RM_Risks rm' !! Risk_ID risk = Some stored
     /\ Risk_Status stored = RiskStatusIdentified /\ Risk_Created stored = now 0
     /\ Risk_Description stored = Risk_Description risk
     /\ Likelihood stored = Likelihood risk /\ Impact stored = Impact risk
     /\ Risk_Priority stored = Risk_Priority risk /\ Mitigation stored = Mitigation risk)
  /\ (forall k, k <> Risk_ID risk -> RM_Risks rm' !! k = RM_Risks rm !! k)
  /\ RM_Opportunities rm' = RM_Opportunities rm
  /\ size (RM_Risks rm')
     = (if known (RM_Risks rm) (Risk_ID risk) then size (RM_Risks rm)
        else S (size (RM_Risks rm))).
Proof.
  unfold IdentifyRisk. intros H.
  destruct (empty (Risk_ID risk)); [discriminate |].
  destruct (empty (Risk_Description risk)); [discriminate |].
  injection H as <-. cbn [updateRegister set_Risks RM_Risks RM_Opportunities Risk_identified Risk_ID].
  split; [| split; [| split]].
  - exists (Risk_identified (now 0) risk). by rewrite lookup_insert_eq.
  - intros k Hk. by rewrite lookup_insert_ne.
  - done.
  - rewrite map_size_insert. unfold known.
    destruct (RM_Risks rm !! Risk_ID risk) eqn:Hl.
    + by rewrite bool_decide_eq_true_2.
    + rewrite bool_decide_eq_false_2; [done |]. by intros [? ?].
Qed.

Lemma IdentifyRisk_stores_witness :
  exists stored,
    RM_Risks identifiedManager !! "RISK-001" = Some stored
    /\ Risk_Status stored = RiskStatusIdentified /\ Risk_Created stored = 1%Z
    /\ Risk_Description stored = "Supplier failure"
    /\ Likelihood stored = "" /\ Impact stored = ""
    /\ Risk_Priority stored = "" /\ Mitigation stored = [].
Proof.
  exact (proj1 (IdentifyRisk_stores (clockFrom 1%Z) (sampleRisk "" "") NewRiskManager identifiedManager
                  ltac:(vm_compute; reflexivity))).
Defined.

(** X18.  AssessRisk on a known risk succeeds; it sets the likelihood, the
    impact, the priority computed from them and the status assessed, keeps
    the ID, description, causes, effects, mitigation and creation time, and
    leaves the other risks and the opportunities untouched; the recomputed
    register holds an entry for the risk with the product of the two weights
    as score. *)
Theorem AssessRisk_updates now id likelihood impact rm old :
  RM_Risks rm !! id = Some old ->
  exists rm' new,
    AssessRisk now id likelihood impact rm = (None, rm')
    /\ RM_Risks rm' !! id = Some new
    /\ Likelihood new = likelihood /\ Impact new = impact
    /\ Risk_Priority new = calculatePriority likelihood impact
    /\ Risk_Status new = RiskStatusAssessed
    /\ Risk_ID new = Risk_ID old /\ Risk_Description new = Risk_Description old
    /\ Causes new = Causes old /\ Effects new = Effects old
    /\ Mitigation new = Mitigation old /\ Risk_Created new = Risk_Created old
    /\ (forall k, k <> id -> RM_Risks rm' !! k = RM_Risks rm !! k)
    /\ RM_Opportunities rm' = RM_Opportunities rm
    /\ size (RM_Risks rm') = size (RM_Risks rm)
    /\ exists entry,
         entry ∈ OrganizationRisks (Register rm')
         /\ Entry_RiskID entry = id
         /\ RiskScore entry = (getRiskScore likelihood * getRiskScore impact)%Z
         /\ Entry_Priority entry = calculatePriority likelihood impact
         /\ Entry_Status entry = RiskStatusAssessed.
Proof.
  intros Hold. unfold AssessRisk. rewrite Hold.
  eexists _, (Risk_assessed likelihood impact old). split; [done |].
  pose proof (updateRegister_recomputed now
    (set_Risks (<[id := Risk_assessed likelihood impact old]> (RM_Risks rm)) rm))
    as (_ & _ & _ & _ & Hp).
  cbn [updateRegister set_Risks RM_Risks RM_Opportunities] in *.
  split; [by rewrite lookup_insert_eq |].
  repeat (split; [done |]).
  split; [intros k Hk; by rewrite lookup_insert_ne |]. split; [done |].
  split; [by rewrite map_size_insert_Some |].
  assert ((id, Risk_assessed likelihood impact old)
          ∈ map_to_list (<[id := Risk_assessed likelihood impact old]> (RM_Risks rm))) as Hin
    by (apply elem_of_map_to_list; by rewrite lookup_insert_eq).
  apply list_elem_of_lookup in Hin as [i Hi].
  exists (riskEntry (now (S i)) id (Risk_assessed likelihood impact old)).
  split; [| done]. rewrite Hp.
  apply (elem_of_lookup_imap_2
           (fun i '(id, risk) => riskEntry (now (S i)) id risk) _ _ i Hi).
Qed.

Lemma AssessRisk_updates_witness :
  exists rm' new,
    AssessRisk (clockFrom 2%Z) "RISK-001" RiskLevelLow RiskLevelVeryHigh identifiedManager = (None, rm')
    /\ RM_Risks rm' !! "RISK-001" = Some new
    /\ Risk_Priority new = PriorityMedium.
Proof.
  destruct (AssessRisk_updates (clockFrom 2%Z) "RISK-001" RiskLevelLow RiskLevelVeryHigh identifiedManager
              (Risk_identified 1%Z (sampleRisk "" "")) ltac:(by vm_compute))
    as (rm' & new & Hrun & Hl & _ & _ & Hp & _).
  exists rm', new. split; [exact Hrun |]. split; [exact Hl |]. exact Hp.
Defined.

Lemma MitigateRisk_known now id actions rm old :
  RM_Risks rm !! id = Some old ->
  MitigateRisk now id actions rm
  = (None, updateRegister now
             (set_Risks (<[id := Risk_mitigated actions old]> (RM_Risks rm)) rm)).
Proof. intros Hold. unfold MitigateRisk. by rewrite Hold. Qed.

Lemma RealizeOpportunity_known now id actions rm old :
  RM_Opportunities rm !! id = Some old ->
  RealizeOpportunity now id actions rm
  = (None, updateRegister now
             (set_Opportunities (<[id := Opp_planned actions old]> (RM_Opportunities rm)) rm)).
Proof. intros Hold. unfold RealizeOpportunity. by rewrite Hold. Qed.

(** X19.  MitigateRisk on a known risk succeeds, appends the given actions
    to the mitigation of the risk and sets the status mitigated, also when
    the list of actions is empty; two calls in a row leave the earlier
    actions followed by those of the first and then those of the second
    call. *)
Theorem MitigateRisk_accumulates now1 now2 id actions1 actions2 rm old :
  RM_Risks rm !! id = Some old ->
  fst (MitigateRisk now1 id actions1 rm) = None
  /\ fst (MitigateRisk now2 id actions2 (snd (MitigateRisk now1 id actions1 rm))) = None
  /\ exists once twice,
       RM_Risks (snd (MitigateRisk now1 id actions1 rm)) !! id = Some once
       /\ Mitigation once = (Mitigation old ++ actions1)%list
       /\ Risk_Status once = RiskStatusMitigated
       /\ RM_Risks (snd (MitigateRisk now2 id actions2 (snd (MitigateRisk now1 id actions1 rm))))
            !! id = Some twice
       /\ Mitigation twice = (Mitigation old ++ actions1 ++ actions2)%list
       /\ Risk_Status twice = RiskStatusMitigated
       /\ Likelihood twice = Likelihood old /\ Impact twice = Impact old
       /\ Risk_Priority twice = Risk_Priority old.
Proof.
  intros Hold. rewrite (MitigateRisk_known now1 id actions1 rm old Hold). cbn [fst snd].
  rewrite (MitigateRisk_known now2 id actions2 _ (Risk_mitigated actions1 old))
    by apply lookup_insert_eq.
  cbn [fst snd updateRegister set_Risks RM_Risks].
  split; [done |]. split; [done |].
  eexists _, _. rewrite !lookup_insert_eq. repeat split.
  cbn. by rewrite app_assoc.
Qed.

Lemma MitigateRisk_accumulates_witness :
  exists twice,
    RM_Risks twiceMitigatedManager !! "RISK-001" = Some twice
    /\ Mitigation twice = [sampleAction; secondAction]
    /\ Risk_Status twice = RiskStatusMitigated.
Proof.
  destruct (MitigateRisk_accumulates (clockFrom 2%Z) (clockFrom 3%Z) "RISK-001" [sampleAction] [secondAction]
              identifiedManager (Risk_identified 1%Z (sampleRisk "" "")) ltac:(by vm_compute))
    as (_ & _ & once & twice & _ & _ & _ & Hl & Hm & Hs & _).
  exists twice. split; [exact Hl |]. split; [exact Hm | exact Hs].
Defined.

(** X20.  RealizeOpportunity on a known opportunity succeeds, replaces its
    actions by the given ones and sets the status planned: after two calls in
    a row only the actions of the second remain.  The risks are untouched. *)
Theorem RealizeOpportunity_replaces now1 now2 id actions1 actions2 rm old :
  RM_Opportunities rm !! id = Some old ->
  fst (RealizeOpportunity now1 id actions1 rm) = None
  /\ fst (RealizeOpportunity now2 id actions2 (snd (RealizeOpportunity now1 id actions1 rm)))
     = None
  /\ RM_Risks (snd (RealizeOpportunity now2 id actions2
                      (snd (RealizeOpportunity now1 id actions1 rm)))) = RM_Risks rm
  /\ exists twice,
       RM_Opportunities (snd (RealizeOpportunity now2 id actions2
                                (snd (RealizeOpportunity now1 id actions1 rm)))) !! id
       = Some twice
       /\ Opp_Actions twice = actions2
       /\ Opp_Status twice = OpportunityStatusPlanned
       /\ Opp_Description twice = Opp_Description old.
Proof.
  intros Hold. rewrite (RealizeOpportunity_known now1 id actions1 rm old Hold). cbn [fst snd].
  rewrite (RealizeOpportunity_known now2 id actions2 _ (Opp_planned actions1 old))
    by apply lookup_insert_eq.
  cbn [fst snd updateRegister set_Opportunities RM_Opportunities RM_Risks].
  split; [done |]. split; [done |]. split; [done |].
  eexists. rewrite lookup_insert_eq. by repeat split.
Qed.

Lemma RealizeOpportunity_replaces_witness :
  exists twice,
    RM_Opportunities (snd (RealizeOpportunity (clockFrom 3%Z) "OPP-2" [secondAction]
                             (snd (RealizeOpportunity (clockFrom 2%Z) "OPP-2" [sampleAction]
                                     opportunityManager)))) !! "OPP-2" = Some twice
    /\ Opp_Actions twice = [secondAction].
Proof.
  destruct (RealizeOpportunity_replaces (clockFrom 2%Z) (clockFrom 3%Z) "OPP-2" [sampleAction] [secondAction]
              opportunityManager (Opp_identified 1%Z bareOpportunity) ltac:(by vm_compute))
    as (_ & _ & _ & twice & Hl & Ha & _).
  exists twice. split; [exact Hl | exact Ha].
Defined.

(** ** Queries by priority and by overdue mitigation *)

Lemma priorityRank_cases (p : Priority) :
  (p = PriorityCritical /\ priorityRank p = 4%Z)
  \/ (p = PriorityHigh /\ priorityRank p = 3%Z)
  \/ (p = PriorityMedium /\ priorityRank p = 2%Z)
  \/ (p = PriorityLow /\ priorityRank p = 1%Z)
  \/ (~ In p [PriorityLow; PriorityMedium; PriorityHigh; PriorityCritical]
      /\ priorityRank p = 0%Z).
Proof.
  unfold priorityRank, priorityOrder. rewrite !lookup_insert, lookup_empty.
  repeat case_decide; subst; cbn; try tauto;
    do 4 right; (split; [| done]); intuition congruence.
Qed.

Lemma GetHighPriorityRisks_filter minPriority rm :
  GetHighPriorityRisks minPriority rm
  = List.filter (fun risk => (priorityRank minPriority <=? priorityRank (Risk_Priority risk))%Z)
      (range_Risks rm).
Proof.
  unfold GetHighPriorityRisks.
  rewrite (collect_filter_map
             (fun risk => (0 <=? comparePriority (Risk_Priority risk) minPriority)%Z)
             (fun risk => risk)).
  rewrite map_id. apply List.filter_ext. intros risk. unfold comparePriority.
  destruct (Z.leb_spec 0 (priorityRank (Risk_Priority risk) - priorityRank minPriority)),
    (Z.leb_spec (priorityRank minPriority) (priorityRank (Risk_Priority risk))); lia.
Qed.

(** X21.  The priorities rank low 1, medium 2, high 3, critical 4, and any
    other string 0.  GetHighPriorityRisks returns the risks whose rank is at
    least the rank of the threshold: a risk without a recognised priority,
    such as one never assessed, is returned for no recognised threshold; an
    unrecognised threshold returns every risk; the threshold critical returns
    the critical risks only; and a higher threshold returns a part of what a
    lower one returns. *)
Theorem GetHighPriorityRisks_threshold rm :
  (forall minPriority risk,
     risk ∈ GetHighPriorityRisks minPriority rm
     <-> risk ∈ range_Risks rm
         /\ (priorityRank minPriority <= priorityRank (Risk_Priority risk))%Z)
  /\ (priorityRank PriorityLow, priorityRank PriorityMedium, priorityRank PriorityHigh,
      priorityRank PriorityCritical, priorityRank "") = (1, 2, 3, 4, 0)%Z
  /\ (forall minPriority risk,
        In minPriority [PriorityLow; PriorityMedium; PriorityHigh; PriorityCritical] ->
        ~ In (Risk_Priority risk) [PriorityLow; PriorityMedium; PriorityHigh; PriorityCritical] ->
        risk ∉ GetHighPriorityRisks minPriority rm)
  /\ (forall minPriority,
        ~ In minPriority [PriorityLow; PriorityMedium; PriorityHigh; PriorityCritical] ->
        GetHighPriorityRisks minPriority rm = range_Risks rm)
  /\ (forall risk,
        risk ∈ GetHighPriorityRisks PriorityCritical rm
        <-> risk ∈ range_Risks rm /\ Risk_Priority risk = PriorityCritical)
  /\ (forall minPriority minPriority' risk,
        (priorityRank minPriority <= priorityRank minPriority')%Z ->
        risk ∈ GetHighPriorityRisks minPriority' rm ->
        risk ∈ GetHighPriorityRisks minPriority rm).
Proof.
  assert (forall minPriority risk,
            risk ∈ GetHighPriorityRisks minPriority rm
            <-> risk ∈ range_Risks rm
                /\ (priorityRank minPriority <= priorityRank (Risk_Priority risk))%Z) as Hspec.
  { intros minPriority risk.
    rewrite GetHighPriorityRisks_filter, list_elem_of_In, List.filter_In, <- list_elem_of_In.
    by rewrite Z.leb_le. }
  split; [exact Hspec |]. split; [done |].
  split; [| split; [| split]].
  - intros minPriority risk Hmin Hrisk [_ Hle]%Hspec.
    destruct (priorityRank_cases (Risk_Priority risk))
      as [[Hp _] | [[Hp _] | [[Hp _] | [[Hp _] | [_ Hr]]]]];
      try (apply Hrisk; rewrite Hp; cbn; tauto).
    destruct (priorityRank_cases minPriority)
      as [[_ Hm] | [[_ Hm] | [[_ Hm] | [[_ Hm] | [Hn _]]]]]; try lia. done.
  - intros minPriority Hmin. rewrite GetHighPriorityRisks_filter.
    apply filter_all, Forall_forall. intros risk _. apply Z.leb_le.
    destruct (priorityRank_cases minPriority)
      as [[Hp _] | [[Hp _] | [[Hp _] | [[Hp _] | [_ ->]]]]];
      try (exfalso; apply Hmin; rewrite Hp; cbn; tauto).
    destruct (priorityRank_cases (Risk_Priority risk))
      as [[_ ->] | [[_ ->] | [[_ ->] | [[_ ->] | [_ ->]]]]]; lia.
  - intros risk. rewrite Hspec. split; intros [Hin Hp]; (split; [done |]).
    + destruct (priorityRank_cases (Risk_Priority risk))
        as [[Hq _] | [[_ Hr] | [[_ Hr] | [[_ Hr] | [_ Hr]]]]]; [done | ..];
        rewrite Hr in Hp; by vm_compute in Hp.
    + by rewrite Hp.
  - intros minPriority minPriority' risk Hle [Hin Hr]%Hspec. apply Hspec. split; [done | lia].
Qed.

Lemma scanMitigation_spec now risk actions overdue :
  scanMitigation now risk actions overdue
  = if existsb (actionOverdue now) actions then (overdue ++ [risk])%list else overdue.
Proof.
  induction actions as [|action rest IH]; cbn; [done |].
  by destruct (actionOverdue now action).
Qed.

Lemma GetOverdueMitigations_filter now rm :
  GetOverdueMitigations now rm
  = List.filter (fun risk => existsb (actionOverdue now) (Mitigation risk)) (range_Risks rm).
Proof.
  unfold GetOverdueMitigations, for_range.
  enough (forall l i acc,
            for_range_from i l (fun (_ : nat) risk overdue =>
              scanMitigation now risk (Mitigation risk) overdue) acc
            = (acc ++ List.filter (fun risk => existsb (actionOverdue now) (Mitigation risk)) l)%list)
    as H by apply H.
  induction l as [|risk l IH]; intros i acc; cbn.
  - by rewrite app_nil_r.
  - rewrite scanMitigation_spec, IH.
    destruct (existsb (actionOverdue now) (Mitigation risk)); [| done].
    by rewrite <- app_assoc.
Qed.

(** X22.  GetOverdueMitigations returns the risks that have at least one
    mitigation action whose status is not completed and whose date is before
    the current time, each such risk once however many of its actions are
    overdue; a risk without mitigation actions is never returned; an action
    whose date was never set (the zero time) is overdue until completed. *)
Theorem GetOverdueMitigations_spec now rm :
  GetOverdueMitigations now rm
  = List.filter (fun risk => existsb (actionOverdue now) (Mitigation risk)) (range_Risks rm)
  /\ (forall risk,
        risk ∈ GetOverdueMitigations now rm
        <-> risk ∈ range_Risks rm
            /\ exists action, action ∈ Mitigation risk
                 /\ Action_Status action <> ActionStatusCompleted
                 /\ (Action_Timeline action < now)%Z)
  /\ length (GetOverdueMitigations now rm) <= size (RM_Risks rm)
  /\ (forall risk, Mitigation risk = [] -> risk ∉ GetOverdueMitigations now rm)
  /\ (forall action, (0 < now)%Z -> Action_Timeline action = 0%Z ->
        Action_Status action <> ActionStatusCompleted -> actionOverdue now action = true).
Proof.
  rewrite GetOverdueMitigations_filter.
  assert (forall risk,
            existsb (actionOverdue now) (Mitigation risk) = true
            <-> exists action, action ∈ Mitigation risk
                  /\ Action_Status action <> ActionStatusCompleted
                  /\ (Action_Timeline action < now)%Z) as Hex.
  { intros risk. rewrite existsb_exists. unfold actionOverdue, Before.
    split; intros (action & Hin & H).
    - apply andb_true_iff in H as [Hs Ht]. exists action.
      split; [by apply list_elem_of_In |].
      split; [by apply String.eqb_neq, negb_true_iff | by apply Z.ltb_lt].
    - destruct H as [Hs Ht]. exists action. split; [by apply list_elem_of_In |].
      apply andb_true_iff. split; [by apply negb_true_iff, String.eqb_neq | by apply Z.ltb_lt]. }
  split; [done |]. split; [| split; [| split]].
  - intros risk. by rewrite list_elem_of_In, List.filter_In, <- list_elem_of_In, Hex.
  - etransitivity; [apply List.filter_length_le |].
    unfold range_Risks. by rewrite length_fmap, length_map_to_list.
  - intros risk Hm Hin. apply list_elem_of_In, List.filter_In in Hin as [_ Hin].
    by rewrite Hm in Hin.
  - intros action Hnow Ht Hs. unfold actionOverdue, Before. rewrite Ht.
    apply andb_true_iff. split; [by apply negb_true_iff, String.eqb_neq | by apply Z.ltb_lt].
Qed.

(** ** Statistics and heat map *)

Lemma countIf_cons {A} (p : A -> bool) x l : countIf p (x :: l) = b2n (p x) + countIf p l.
Proof. unfold countIf. cbn. by destruct (p x). Qed.

Lemma countIf_le {A} (p : A -> bool) l : countIf p l <= length l.
Proof. apply List.filter_length_le. Qed.

Lemma countRiskStatus_fields status s :
  Stat_Identified (countRiskStatus status s)
  = Stat_Identified s + b2n (String.eqb status RiskStatusIdentified)
  /\ Stat_Assessed (countRiskStatus status s)
     = Stat_Assessed s + b2n (String.eqb status RiskStatusAssessed)
  /\ Stat_Mitigated (countRiskStatus status s)
     = Stat_Mitigated s + b2n (String.eqb status RiskStatusMitigated)
  /\ Stat_Monitored (countRiskStatus status s)
     = Stat_Monitored s + b2n (String.eqb status RiskStatusMonitored)
  /\ Stat_Critical (countRiskStatus status s) = Stat_Critical s
  /\ Stat_High (countRiskStatus status s) = Stat_High s
  /\ Stat_Medium (countRiskStatus status s) = Stat_Medium s
  /\ Stat_Low (countRiskStatus status s) = Stat_Low s
  /\ OpportunitiesIdentified (countRiskStatus status s) = OpportunitiesIdentified s
  /\ OpportunitiesPlanned (countRiskStatus status s) = OpportunitiesPlanned s
  /\ OpportunitiesImplemented (countRiskStatus status s) = OpportunitiesImplemented s
  /\ OpportunitiesRealized (countRiskStatus status s) = OpportunitiesRealized s.
Proof.
  unfold countRiskStatus.
  destruct (String.eqb_spec status RiskStatusIdentified) as [-> |]; [cbn; repeat split; lia |].
  destruct (String.eqb_spec status RiskStatusAssessed) as [-> |]; [cbn; repeat split; lia |].
  destruct (String.eqb_spec status RiskStatusMitigated) as [-> |]; [cbn; repeat split; lia |].
  destruct (String.eqb_spec status RiskStatusMonitored) as [-> |]; cbn; repeat split; lia.
Qed.

Lemma countRiskPriority_fields priority s :
  Stat_Identified (countRiskPriority priority s) = Stat_Identified s
  /\ Stat_Assessed (countRiskPriority priority s) = Stat_Assessed s
  /\ Stat_Mitigated (countRiskPriority priority s) = Stat_Mitigated s
  /\ Stat_Monitored (countRiskPriority priority s) = Stat_Monitored s
  /\ Stat_Critical (countRiskPriority priority s)
     = Stat_Critical s + b2n (String.eqb priority PriorityCritical)
  /\ Stat_High (countRiskPriority priority s)
     = Stat_High s + b2n (String.eqb priority PriorityHigh)
  /\ Stat_Medium (countRiskPriority priority s)
     = Stat_Medium s + b2n (String.eqb priority PriorityMedium)
  /\ Stat_Low (countRiskPriority priority s)
     = Stat_Low s + b2n (String.eqb priority PriorityLow)
  /\ OpportunitiesIdentified (countRiskPriority priority s) = OpportunitiesIdentified s
  /\ OpportunitiesPlanned (countRiskPriority priority s) = OpportunitiesPlanned s
  /\ OpportunitiesImplemented (countRiskPriority priority s) = OpportunitiesImplemented s
  /\ OpportunitiesRealized (countRiskPriority priority s) = OpportunitiesRealized s.
Proof.
  unfold countRiskPriority.
  destruct (String.eqb_spec priority PriorityCritical) as [-> |]; [cbn; repeat split; lia |].
  destruct (String.eqb_spec priority PriorityHigh) as [-> |]; [cbn; repeat split; lia |].
  destruct (String.eqb_spec priority PriorityMedium) as [-> |]; [cbn; repeat split; lia |].
  destruct (String.eqb_spec priority PriorityLow) as [-> |]; cbn; repeat split; lia.
Qed.

Lemma countOpportunityStatus_fields status s :
  Stat_Identified (countOpportunityStatus status s) = Stat_Identified s
  /\ Stat_Assessed (countOpportunityStatus status s) = Stat_Assessed s
  /\ Stat_Mitigated (countOpportunityStatus status s) = Stat_Mitigated s
  /\ Stat_Monitored (countOpportunityStatus status s) = Stat_Monitored s
  /\ Stat_Critical (countOpportunityStatus status s) = Stat_Critical s
  /\ Stat_High (countOpportunityStatus status s) = Stat_High s
  /\ Stat_Medium (countOpportunityStatus status s) = Stat_Medium s
  /\ Stat_Low (countOpportunityStatus status s) = Stat_Low s
  /\ OpportunitiesIdentified (countOpportunityStatus status s)
     = OpportunitiesIdentified s + b2n (String.eqb status OpportunityStatusIdentified)
  /\ OpportunitiesPlanned (countOpportunityStatus status s)
     = OpportunitiesPlanned s + b2n (String.eqb status OpportunityStatusPlanned)
  /\ OpportunitiesImplemented (countOpportunityStatus status s)
     = OpportunitiesImplemented s + b2n (String.eqb status OpportunityStatusImplemented)
  /\ OpportunitiesRealized (countOpportunityStatus status s)
     = OpportunitiesRealized s + b2n (String.eqb status OpportunityStatusRealized).
Proof.
  unfold countOpportunityStatus.
  destruct (String.eqb_spec status OpportunityStatusIdentified) as [-> |];
    [cbn; repeat split; lia |].
  destruct (String.eqb_spec status OpportunityStatusPlanned) as [-> |];
    [cbn; repeat split; lia |].
  destruct (String.eqb_spec status OpportunityStatusImplemented) as [-> |];
    [cbn; repeat split; lia |].
  destruct (String.eqb_spec status OpportunityStatusRealized) as [-> |];
    cbn; repeat split; lia.
Qed.

Lemma risk_statistics_loop (l : list Risk) :
  forall i s,
    let s' := for_range_from i l (fun (_ : nat) risk stats =>
                countRiskPriority (Risk_Priority risk)
                  (countRiskStatus (Risk_Status risk) stats)) s in
    Stat_Identified s'
    = Stat_Identified s + countIf (fun r => String.eqb (Risk_Status r) RiskStatusIdentified) l
    /\ Stat_Assessed s'
       = Stat_Assessed s + countIf (fun r => String.eqb (Risk_Status r) RiskStatusAssessed) l
    /\ Stat_Mitigated s'
       = Stat_Mitigated s + countIf (fun r => String.eqb (Risk_Status r) RiskStatusMitigated) l
    /\ Stat_Monitored s'
       = Stat_Monitored s + countIf (fun r => String.eqb (Risk_Status r) RiskStatusMonitored) l
    /\ Stat_Critical s'
       = Stat_Critical s + countIf (fun r => String.eqb (Risk_Priority r) PriorityCritical) l
    /\ Stat_High s'
       = Stat_High s + countIf (fun r => String.eqb (Risk_Priority r) PriorityHigh) l
    /\ Stat_Medium s'
       = Stat_Medium s + countIf (fun r => String.eqb (Risk_Priority r) PriorityMedium) l
    /\ Stat_Low s'
       = Stat_Low s + countIf (fun r => String.eqb (Risk_Priority r) PriorityLow) l
    /\ OpportunitiesIdentified s' = OpportunitiesIdentified s
    /\ OpportunitiesPlanned s' = OpportunitiesPlanned s
    /\ OpportunitiesImplemented s' = OpportunitiesImplemented s
    /\ OpportunitiesRealized s' = OpportunitiesRealized s.
Proof.
  induction l as [|risk l IH]; intros i s; cbn zeta.
  - unfold countIf; cbn. repeat split; lia.
  - cbn [for_range_from]. rewrite !countIf_cons.
    destruct (IH (S i) (countRiskPriority (Risk_Priority risk)
                          (countRiskStatus (Risk_Status risk) s)))
      as (-> & -> & -> & -> & -> & -> & -> & -> & -> & -> & -> & ->).
    destruct (countRiskPriority_fields (Risk_Priority risk)
                (countRiskStatus (Risk_Status risk) s))
      as (-> & -> & -> & -> & -> & -> & -> & -> & -> & -> & -> & ->).
    destruct (countRiskStatus_fields (Risk_Status risk) s)
      as (-> & -> & -> & -> & -> & -> & -> & -> & -> & -> & -> & ->).
    repeat split; lia.
Qed.

Lemma opportunity_statistics_loop (l : list Opportunity) :
  forall i s,
    let s' := for_range_from i l (fun (_ : nat) opportunity stats =>
                countOpportunityStatus (Opp_Status opportunity) stats) s in
    Stat_Identified s' = Stat_Identified s
    /\ Stat_Assessed s' = Stat_Assessed s
    /\ Stat_Mitigated s' = Stat_Mitigated s
    /\ Stat_Monitored s' = Stat_Monitored s
    /\ Stat_Critical s' = Stat_Critical s
    /\ Stat_High s' = Stat_High s
    /\ Stat_Medium s' = Stat_Medium s
    /\ Stat_Low s' = Stat_Low s
    /\ OpportunitiesIdentified s'
       = OpportunitiesIdentified s
         + countIf (fun o => String.eqb (Opp_Status o) OpportunityStatusIdentified) l
    /\ OpportunitiesPlanned s'
       = OpportunitiesPlanned s
         + countIf (fun o => String.eqb (Opp_Status o) OpportunityStatusPlanned) l
    /\ OpportunitiesImplemented s'
       = OpportunitiesImplemented s
         + countIf (fun o => String.eqb (Opp_Status o) OpportunityStatusImplemented) l
    /\ OpportunitiesRealized s'
       = OpportunitiesRealized s
         + countIf (fun o => String.eqb (Opp_Status o) OpportunityStatusRealized) l.
Proof.
  induction l as [|o l IH]; intros i s; cbn zeta.
  - unfold countIf; cbn. repeat split; lia.
  - cbn [for_range_from]. rewrite !countIf_cons.
    destruct (IH (S i) (countOpportunityStatus (Opp_Status o) s))
      as (-> & -> & -> & -> & -> & -> & -> & -> & -> & -> & -> & ->).
    destruct (countOpportunityStatus_fields (Opp_Status o) s)
      as (-> & -> & -> & -> & -> & -> & -> & -> & -> & -> & -> & ->).
    repeat split; lia.
Qed.

Lemma countIf_four {A} (p1 p2 p3 p4 : A -> bool) (l : list A) :
  (forall x, b2n (p1 x) + b2n (p2 x) + b2n (p3 x) + b2n (p4 x)
             = b2n (p1 x || p2 x || p3 x || p4 x)) ->
  countIf p1 l + countIf p2 l + countIf p3 l + countIf p4 l
  = countIf (fun x => p1 x || p2 x || p3 x || p4 x) l.
Proof.
  intros Hx. induction l as [|x l IH]; [done |].
  rewrite !countIf_cons, <- IH, <- Hx. lia.
Qed.

Lemma one_of_four (s c1 c2 c3 c4 : string) :
  c1 <> c2 -> c1 <> c3 -> c1 <> c4 -> c2 <> c3 -> c2 <> c4 -> c3 <> c4 ->
  b2n (String.eqb s c1) + b2n (String.eqb s c2) + b2n (String.eqb s c3) + b2n (String.eqb s c4)
  = b2n (String.eqb s c1 || String.eqb s c2 || String.eqb s c3 || String.eqb s c4).
Proof.
  intros. destruct (String.eqb_spec s c1), (String.eqb_spec s c2), (String.eqb_spec s c3),
    (String.eqb_spec s c4); cbn; congruence.
Qed.

(** X23.  Each status counter of GetRiskStatistics is the number of risks
    with that status and each priority counter the number of risks with that
    priority, and each of the four opportunity counters is the number of
    opportunities with that status; a risk whose status or priority is not
    one of the four names, such as the empty priority of a risk never
    assessed, is counted in no counter, so the four status counters add up
    to the number of risks with a recognised status and the four priority
    counters to the number with a recognised priority, neither above the
    number of risks, and the four opportunity counters add up to at most the
    number of opportunities. *)
Theorem GetRiskStatistics_counts rm :
  let s := GetRiskStatistics rm in
  Stat_Identified s
  = countIf (fun r => String.eqb (Risk_Status r) RiskStatusIdentified) (range_Risks rm)
  /\ Stat_Assessed s
     = countIf (fun r => String.eqb (Risk_Status r) RiskStatusAssessed) (range_Risks rm)
  /\ Stat_Mitigated s
     = countIf (fun r => String.eqb (Risk_Status r) RiskStatusMitigated) (range_Risks rm)
  /\ Stat_Monitored s
     = countIf (fun r => String.eqb (Risk_Status r) RiskStatusMonitored) (range_Risks rm)
  /\ Stat_Critical s
     = countIf (fun r => String.eqb (Risk_Priority r) PriorityCritical) (range_Risks rm)
  /\ Stat_High s
     = countIf (fun r => String.eqb (Risk_Priority r) PriorityHigh) (range_Risks rm)
  /\ Stat_Medium s
     = countIf (fun r => String.eqb (Risk_Priority r) PriorityMedium) (range_Risks rm)
  /\ Stat_Low s
     = countIf (fun r => String.eqb (Risk_Priority r) PriorityLow) (range_Risks rm)
  /\ OpportunitiesIdentified s
     = countIf (fun o => String.eqb (Opp_Status o) OpportunityStatusIdentified)
         (range_Opportunities rm)
  /\ OpportunitiesPlanned s
     = countIf (fun o => String.eqb (Opp_Status o) OpportunityStatusPlanned)
         (range_Opportunities rm)
  /\ OpportunitiesImplemented s
     = countIf (fun o => String.eqb (Opp_Status o) OpportunityStatusImplemented)
         (range_Opportunities rm)
  /\ OpportunitiesRealized s
     = countIf (fun o => String.eqb (Opp_Status o) OpportunityStatusRealized)
         (range_Opportunities rm)
  /\ Stat_Identified s + Stat_Assessed s + Stat_Mitigated s + Stat_Monitored s
     = countIf knownRiskStatus (range_Risks rm)
  /\ Stat_Critical s + Stat_High s + Stat_Medium s + Stat_Low s
     = countIf knownPriority (range_Risks rm)
  /\ countIf knownRiskStatus (range_Risks rm) <= size (RM_Risks rm)
  /\ countIf knownPriority (range_Risks rm) <= size (RM_Risks rm)
  /\ OpportunitiesIdentified s + OpportunitiesPlanned s + OpportunitiesImplemented s
     + OpportunitiesRealized s <= size (RM_Opportunities rm).
Proof.
  intros s. subst s. unfold GetRiskStatistics, for_range.
  set (s0 := mkStatistics 0 0 0 0 0 0 0 0 0 0 0 0).
  destruct (opportunity_statistics_loop (range_Opportunities rm) 0
              (for_range_from 0 (range_Risks rm) (fun (_ : nat) risk stats =>
                 countRiskPriority (Risk_Priority risk)
                   (countRiskStatus (Risk_Status risk) stats)) s0))
    as (-> & -> & -> & -> & -> & -> & -> & -> & -> & -> & -> & ->).
  destruct (risk_statistics_loop (range_Risks rm) 0 s0)
    as (-> & -> & -> & -> & -> & -> & -> & -> & -> & -> & -> & ->).
  cbn [s0 Stat_Identified Stat_Assessed Stat_Mitigated Stat_Monitored Stat_Critical Stat_High
       Stat_Medium Stat_Low OpportunitiesIdentified OpportunitiesPlanned
       OpportunitiesImplemented OpportunitiesRealized Nat.add].
  assert (length (range_Risks rm) = size (RM_Risks rm)) as Hlen.
  { unfold range_Risks. by rewrite length_fmap, length_map_to_list. }
  assert (length (range_Opportunities rm) = size (RM_Opportunities rm)) as Hlen'.
  { unfold range_Opportunities. by rewrite length_fmap, length_map_to_list. }
  repeat (split; [done |]).
  split; [| split; [| split; [| split]]].
  - apply (countIf_four _ _ _ _ (range_Risks rm)). intros r. by apply one_of_four.
  - apply (countIf_four _ _ _ _ (range_Risks rm)). intros r. by apply one_of_four.
  - rewrite <- Hlen. apply countIf_le.
  - rewrite <- Hlen. apply countIf_le.
  - rewrite (countIf_four _ _ _ _ (range_Opportunities rm)), <- Hlen';
      [apply countIf_le | intros o; by apply one_of_four].
Qed.

Lemma cell_increment k m l : cell (increment k m) l = cell m l + b2n (String.eqb k l).
Proof.
  unfold increment, cell at 1. rewrite lookup_insert.
  case_decide as Hk.
  - subst. rewrite String.eqb_refl. cbn. unfold cell. lia.
  - apply String.eqb_neq in Hk. rewrite Hk. cbn. unfold cell. lia.
Qed.

Lemma heatMapStep_row risk h (i : Level) l :
  cell (heatMapRow (heatMapStep risk h) (levelName i)) l
  = cell (heatMapRow h (levelName i)) l
    + b2n (String.eqb (Impact risk) (levelName i) && String.eqb (Likelihood risk) l).
Proof.
  unfold heatMapStep. generalize (Impact risk) as impact. intros impact.
  destruct (String.eqb_spec impact RiskLevelVeryHigh) as [-> | H1];
    [destruct i; cbn; rewrite ?cell_increment; lia |].
  destruct (String.eqb_spec impact RiskLevelHigh) as [-> | H2];
    [destruct i; cbn; rewrite ?cell_increment; lia |].
  destruct (String.eqb_spec impact RiskLevelMedium) as [-> | H3];
    [destruct i; cbn; rewrite ?cell_increment; lia |].
  destruct (String.eqb_spec impact RiskLevelLow) as [-> | H4];
    [destruct i; cbn; rewrite ?cell_increment; lia |].
  destruct (String.eqb_spec impact RiskLevelVeryLow) as [-> | H5];
    [destruct i; cbn; rewrite ?cell_increment; lia |].
  destruct (String.eqb_spec impact (levelName i)) as [-> | _]; [by destruct i |].
  cbn. lia.
Qed.

Lemma heatMap_loop (l : list Risk) (i : Level) (k : RiskLevel) :
  forall n h,
    cell (heatMapRow (for_range_from n l (fun (_ : nat) risk heatMap =>
                        heatMapStep risk heatMap) h) (levelName i)) k
    = cell (heatMapRow h (levelName i)) k
      + countIf (fun r => String.eqb (Impact r) (levelName i) && String.eqb (Likelihood r) k) l.
Proof.
  induction l as [|risk l IH]; intros n h; cbn [for_range_from].
  - unfold countIf; cbn. lia.
  - rewrite IH, heatMapStep_row, countIf_cons. lia.
Qed.

(** X24.  Each cell of the heat map is the number of risks with the impact
    of its row and the likelihood of its key, for any likelihood string; a
    likelihood that no risk of the row has reads 0, and a risk whose impact
    is none of the five level names, such as a risk never assessed, is
    counted in no row. *)
Theorem GetRiskHeatMap_cells rm (likelihood : RiskLevel) :
  let count impact :=
    countIf (fun r => String.eqb (Impact r) impact && String.eqb (Likelihood r) likelihood)
      (range_Risks rm) in
  cell (HM_VeryHigh (GetRiskHeatMap rm)) likelihood = count RiskLevelVeryHigh
  /\ cell (HM_High (GetRiskHeatMap rm)) likelihood = count RiskLevelHigh
  /\ cell (HM_Medium (GetRiskHeatMap rm)) likelihood = count RiskLevelMedium
  /\ cell (HM_Low (GetRiskHeatMap rm)) likelihood = count RiskLevelLow
  /\ cell (HM_VeryLow (GetRiskHeatMap rm)) likelihood = count RiskLevelVeryLow.
Proof.
  intros count. subst count. unfold GetRiskHeatMap, for_range.
  pose proof (fun i => heatMap_loop (range_Risks rm) i likelihood 0 (mkHeatMap ∅ ∅ ∅ ∅ ∅))
    as Hrow.
  split; [exact (Hrow VeryHigh) |]. split; [exact (Hrow High) |].
  split; [exact (Hrow Medium) |]. split; [exact (Hrow Low) | exact (Hrow VeryLow)].
Qed.

(** ** The tracker of the objectives manager *)

Lemma UpdateObjectiveProgress_known objectiveID p qom objective :
  QOM_Objectives qom !! objectiveID = Some objective ->
  exists objective',
    UpdateObjectiveProgress objectiveID p qom
    = (None,
       mkQOM (<[objectiveID := objective']> (QOM_Objectives qom))
         (mkTracker (ProgressReports (Tracker qom) ++ [loggedReport objectiveID p])
            (Achievements (Tracker qom)
             ++ (if f64_ge (Progress p) 100 then [loggedAchievement objectiveID p] else []))
            (Trends (Tracker qom))))
    /\ objective' = Objective_set_Status
                      (statusAfterReport (Objective_Status objective) (Progress p)) objective.
Proof.
  intros Hobj. unfold UpdateObjectiveProgress, statusAfterReport, loggedReport,
    loggedAchievement. rewrite Hobj. cbn [Progress Progress_Date Comments].
  destruct (f64_ge (Progress p) 100); [eexists; split; [reflexivity | done] |].
  destruct (f64_gt (Progress p) 0); [eexists; split; [by rewrite app_nil_r | done] |].
  exists objective. rewrite app_nil_r. split; [| by destruct objective].
  by rewrite insert_id.
Qed.

(** X25.  Every progress report on a registered objective is logged in the
    tracker in order, under the ID given to the call whatever ID the report
    itself carried, and every report of 100 or more logs one achievement
    with the date and comments of the report: an objective reported at 100
    twice has two achievements. *)
Theorem reportAll_tracker objectiveID reports qom objective :
  QOM_Objectives qom !! objectiveID = Some objective ->
  ProgressReports (Tracker (reportAll objectiveID reports qom))
  = (ProgressReports (Tracker qom) ++ map (loggedReport objectiveID) reports)%list
  /\ Achievements (Tracker (reportAll objectiveID reports qom))
     = (Achievements (Tracker qom)
        ++ map (loggedAchievement objectiveID)
             (List.filter (fun p => f64_ge (Progress p) 100) reports))%list
  /\ Trends (Tracker (reportAll objectiveID reports qom)) = Trends (Tracker qom).
Proof.
  unfold reportAll. revert qom objective.
  induction reports as [|p reports IH]; intros qom objective Hobj; cbn [fold_left map List.filter].
  - by rewrite !app_nil_r.
  - destruct (UpdateObjectiveProgress_known objectiveID p qom objective Hobj)
      as (objective' & -> & _). cbn [snd].
    destruct (IH (mkQOM (<[objectiveID := objective']> (QOM_Objectives qom))
                    (mkTracker (ProgressReports (Tracker qom) ++ [loggedReport objectiveID p])
                       (Achievements (Tracker qom)
                        ++ (if f64_ge (Progress p) 100
                            then [loggedAchievement objectiveID p] else []))
                       (Trends (Tracker qom)))) objective')
      as (-> & -> & ->); [apply lookup_insert_eq |].
    cbn [Tracker ProgressReports Achievements Trends].
    rewrite <- !app_assoc. by destruct (f64_ge (Progress p) 100).
Qed.

Lemma reportAll_tracker_witness :
  length (Achievements (Tracker (reportAll "OBJ-001" [report 100; report 50; report 100]
                                   oneObjectiveManager))) = 2
  /\ length (ProgressReports (Tracker (reportAll "OBJ-001" [report 100; report 50; report 100]
                                         oneObjectiveManager))) = 3.
Proof.
  destruct (reportAll_tracker "OBJ-001" [report 100; report 50; report 100] oneObjectiveManager
              (Objective_created 1%Z sampleObjective) ltac:(by vm_compute)) as (Hp & Ha & _).
  rewrite Hp, Ha. split; reflexivity.
Defined.

(** ** Objectives as the operations can make them *)

Lemma insert_keeps_known {V} (m : gmap string V) i x k :
  is_Some (m !! k) -> is_Some (<[i := x]> m !! k).
Proof. intros H. rewrite lookup_insert_is_Some. destruct (decide (i = k)); tauto. Qed.

Lemma soundObjectivesManager_step now op qom :
  soundObjectivesManager qom -> soundObjectivesManager (snd (runObjectiveOp now op qom)).
Proof.
  intros Hs. pose proof Hs as (Hobj & Hrep & Hach).
  destruct op as [objective | id p]; cbn [runObjectiveOp].
  - unfold CreateObjective, empty.
    destruct (String.eqb_spec (Objective_ID objective) "") as [| Hid]; [exact Hs |].
    destruct (String.eqb_spec (Objective_Name objective) "") as [| Hname]; [exact Hs |].
    destruct (Measurable objective) eqn:Hm; [| exact Hs]. cbn [negb].
    destruct (Targets objective) as [| t ts] eqn:Ht; [exact Hs |]. cbn [len0].
    destruct (String.eqb_spec (Responsible objective) "") as [| Hresp]; [exact Hs |].
    cbn [snd Objective_created Objective_ID].
    split; [| split]; cbn [QOM_Objectives Tracker].
    + intros k o. rewrite lookup_insert. case_decide as Hk; [| by apply Hobj].
      intros [= <-]. subst k. cbn. rewrite Ht. repeat split; try done. tauto.
    + eapply Forall_impl; [exact Hrep |]. intros q Hq. by apply insert_keeps_known.
    + eapply Forall_impl; [exact Hach |]. intros a Ha. by apply insert_keeps_known.
  - destruct (QOM_Objectives qom !! id) as [objective |] eqn:Hl;
      [| unfold UpdateObjectiveProgress; rewrite Hl; exact Hs].
    destruct (UpdateObjectiveProgress_known id p qom objective Hl) as (o' & -> & ->).
    cbn [snd]. destruct (Hobj id objective Hl) as (H1 & H2 & H3 & H4 & H5 & H6 & H7).
    split; [| split]; cbn [QOM_Objectives Tracker ProgressReports Achievements].
    + intros k o. rewrite lookup_insert. case_decide as Hk; [| by apply Hobj].
      intros [= <-]. subst k. cbn. repeat split; try done.
      unfold statusAfterReport.
      destruct (f64_ge (Progress p) 100); [cbn; tauto |].
      destruct (f64_gt (Progress p) 0); [cbn; tauto | done].
    + apply Forall_app. split.
      * eapply Forall_impl; [exact Hrep |]. intros q Hq. by apply insert_keeps_known.
      * repeat constructor. cbn. rewrite lookup_insert_eq. by eexists.
    + apply Forall_app. split.
      * eapply Forall_impl; [exact Hach |]. intros q Hq. by apply insert_keeps_known.
      * destruct (f64_ge (Progress p) 100); repeat constructor.
        cbn. rewrite lookup_insert_eq. by eexists.
Qed.

Lemma soundObjectivesManager_reachable qom :
  reachableObjectivesManager qom -> soundObjectivesManager qom.
Proof.
  induction 1 as [| now op qom _ IH]; [| by apply soundObjectivesManager_step].
  split; [| by split; constructor].
  intros k o Hk. unfold NewQualityObjectivesManager in Hk. cbn in Hk.
  by rewrite lookup_empty in Hk.
Qed.

(** X26.  In every objectives manager reached from a new one through its
    operations, each objective is stored under its own non-empty ID, has a
    name, targets and a responsible party, is measurable, and is in status
    planned, in_progress or achieved; and every progress report and every
    achievement of the tracker names a registered objective. *)
Theorem reachable_objectives_manager_sound qom :
  reachableObjectivesManager qom ->
  (forall k o, QOM_Objectives qom !! k = Some o ->
     Objective_ID o = k /\ k <> "" /\ Objective_Name o <> "" /\ Measurable o = true
     /\ Targets o <> [] /\ Responsible o <> ""
     /\ In (Objective_Status o)
          [ObjectiveStatusPlanned; ObjectiveStatusInProgress; ObjectiveStatusAchieved])
  /\ Forall (fun p => is_Some (QOM_Objectives qom !! Progress_ObjectiveID p))
       (ProgressReports (Tracker qom))
  /\ Forall (fun a => is_Some (QOM_Objectives qom !! Achievement_ObjectiveID a))
       (Achievements (Tracker qom)).
Proof. exact (soundObjectivesManager_reachable qom). Qed.

Lemma reachable_reportedManager : reachableObjectivesManager reportedManager.
Proof. repeat apply reachable_step_qom. apply reachable_new_qom. Defined.

Lemma reachable_objectives_manager_sound_witness :
  Forall (fun a => is_Some (QOM_Objectives reportedManager !! Achievement_ObjectiveID a))
    (Achievements (Tracker reportedManager)).
Proof.
  exact (proj2 (proj2 (reachable_objectives_manager_sound reportedManager
                         reachable_reportedManager))).
Defined.

(** ** The progress summary *)

Lemma countObjectiveStatus_fields status s :
  TotalObjectives (countObjectiveStatus status s) = TotalObjectives s
  /\ Summary_Planned (countObjectiveStatus status s)
     = Summary_Planned s + b2n (String.eqb status ObjectiveStatusPlanned)
  /\ Summary_InProgress (countObjectiveStatus status s)
     = Summary_InProgress s + b2n (String.eqb status ObjectiveStatusInProgress)
  /\ Summary_Achieved (countObjectiveStatus status s)
     = Summary_Achieved s + b2n (String.eqb status ObjectiveStatusAchieved)
  /\ Summary_NotAchieved (countObjectiveStatus status s)
     = Summary_NotAchieved s + b2n (String.eqb status ObjectiveStatusNotAchieved).
Proof.
  unfold countObjectiveStatus.
  destruct (String.eqb_spec status ObjectiveStatusPlanned) as [-> |];
    [cbn; repeat split; lia |].
  destruct (String.eqb_spec status ObjectiveStatusInProgress) as [-> |];
    [cbn; repeat split; lia |].
  destruct (String.eqb_spec status ObjectiveStatusAchieved) as [-> |];
    [cbn; repeat split; lia |].
  destruct (String.eqb_spec status ObjectiveStatusNotAchieved) as [-> |];
    cbn; repeat split; lia.
Qed.

Lemma objective_summary_loop (l : list QualityObjective) :
  forall i s,
    let s' := for_range_from i l (fun (_ : nat) objective summary =>
                countObjectiveStatus (Objective_Status objective) summary) s in
    TotalObjectives s' = TotalObjectives s
    /\ Summary_Planned s'
       = Summary_Planned s
         + countIf (fun o => String.eqb (Objective_Status o) ObjectiveStatusPlanned) l
    /\ Summary_InProgress s'
       = Summary_InProgress s
         + countIf (fun o => String.eqb (Objective_Status o) ObjectiveStatusInProgress) l
    /\ Summary_Achieved s'
       = Summary_Achieved s
         + countIf (fun o => String.eqb (Objective_Status o) ObjectiveStatusAchieved) l
    /\ Summary_NotAchieved s'
       = Summary_NotAchieved s
         + countIf (fun o => String.eqb (Objective_Status o) ObjectiveStatusNotAchieved) l.
Proof.
  induction l as [|o l IH]; intros i s; cbn zeta.
  - unfold countIf; cbn. repeat split; lia.
  - cbn [for_range_from]. rewrite !countIf_cons.
    destruct (IH (S i) (countObjectiveStatus (Objective_Status o) s))
      as (-> & -> & -> & -> & ->).
    destruct (countObjectiveStatus_fields (Objective_Status o) s)
      as (-> & -> & -> & -> & ->).
    repeat split; lia.
Qed.

Lemma countIf_none {A} (p : A -> bool) (l : list A) :
  (forall x, x ∈ l -> p x = false) -> countIf p l = 0.
Proof.
  induction l as [|x l IH]; intros H; [done |].
  rewrite countIf_cons, (H x) by by left. cbn. apply IH. intros y Hy. apply H. by right.
Qed.

Lemma countIf_all {A} (p : A -> bool) (l : list A) :
  (forall x, x ∈ l -> p x = true) -> countIf p l = length l.
Proof.
  induction l as [|x l IH]; intros H; [done |].
  rewrite countIf_cons, (H x) by by left. cbn. f_equal. apply IH. intros y Hy. apply H. by right.
Qed.

Lemma countObjectiveStatus_rate status s :
  AchievementRate (countObjectiveStatus status s) = AchievementRate s.
Proof.
  unfold countObjectiveStatus.
  destruct (String.eqb status ObjectiveStatusPlanned); [done |].
  destruct (String.eqb status ObjectiveStatusInProgress); [done |].
  destruct (String.eqb status ObjectiveStatusAchieved); [done |].
  by destruct (String.eqb status ObjectiveStatusNotAchieved).
Qed.

Lemma objective_summary_loop_rate (l : list QualityObjective) i s :
  AchievementRate (for_range_from i l (fun (_ : nat) objective summary =>
                     countObjectiveStatus (Objective_Status objective) summary) s)
  = AchievementRate s.
Proof.
  revert i s. induction l as [|o l IH]; intros i s; cbn [for_range_from]; [done |].
  by rewrite IH, countObjectiveStatus_rate.
Qed.

Lemma CalculateObjectiveProgress_counters qom :
  let s := CalculateObjectiveProgress qom in
  TotalObjectives s = size (QOM_Objectives qom)
  /\ Summary_Planned s
     = countIf (fun o => String.eqb (Objective_Status o) ObjectiveStatusPlanned)
         (range_Objectives qom)
  /\ Summary_InProgress s
     = countIf (fun o => String.eqb (Objective_Status o) ObjectiveStatusInProgress)
         (range_Objectives qom)
  /\ Summary_Achieved s
     = countIf (fun o => String.eqb (Objective_Status o) ObjectiveStatusAchieved)
         (range_Objectives qom)
  /\ Summary_NotAchieved s
     = countIf (fun o => String.eqb (Objective_Status o) ObjectiveStatusNotAchieved)
         (range_Objectives qom)
  /\ AchievementRate s
     = (if (0 <? size (QOM_Objectives qom))%nat
        then (inject_Z (Z.of_nat (Summary_Achieved s))
              / inject_Z (Z.of_nat (size (QOM_Objectives qom))) * 100)%Q
        else 0%Q).
Proof.
  intros s. subst s. unfold CalculateObjectiveProgress, for_range.
  set (s0 := mkSummary (size (QOM_Objectives qom)) 0 0 0 0 0%Q).
  destruct (objective_summary_loop (range_Objectives qom) 0 s0) as (Ht & Hp & Hi & Ha & Hn).
  cbv zeta in Ht, Hp, Hi, Ha, Hn.
  set (s1 := for_range_from 0 _ _ s0) in *.
  assert (AchievementRate s1 = 0%Q) as Hr
    by (subst s1; by rewrite objective_summary_loop_rate).
  rewrite Ht. cbn [s0 TotalObjectives] in *.
  destruct (0 <? size (QOM_Objectives qom))%nat;
    cbn [TotalObjectives Summary_Planned Summary_InProgress Summary_Achieved
         Summary_NotAchieved AchievementRate float64_of_int];
    rewrite ?Ht, ?Hp, ?Hi, ?Ha, ?Hn; cbn [s0 Summary_Planned Summary_InProgress
      Summary_Achieved Summary_NotAchieved Nat.add]; repeat split; done.
Qed.

Lemma GetAchievedObjectives_filter qom :
  GetAchievedObjectives qom
  = List.filter (fun o => String.eqb (Objective_Status o) ObjectiveStatusAchieved)
      (range_Objectives qom).
Proof.
  unfold GetAchievedObjectives.
  rewrite (collect_filter_map _ (fun o : QualityObjective => o)). apply map_id.
Qed.

(** X27.  The total of the progress summary is the number of objectives
    and its four status counters add up to at most the total, an objective
    with another status being counted in none; the list of achieved
    objectives has as many elements as the achieved counter;
    the achievement rate is 100 times achieved over total, between 0 and
    100, and 0 when there is no objective.  In a manager reached through
    its operations no objective is not_achieved and the planned, in-progress
    and achieved counters add up to the total. *)
Theorem CalculateObjectiveProgress_summary qom :
  let s := CalculateObjectiveProgress qom in
  TotalObjectives s = size (QOM_Objectives qom)
  /\ Summary_Planned s + Summary_InProgress s + Summary_Achieved s + Summary_NotAchieved s
     <= TotalObjectives s
  /\ length (GetAchievedObjectives qom) = Summary_Achieved s
  /\ (0 <= AchievementRate s)%Q /\ (AchievementRate s <= 100)%Q
  /\ (size (QOM_Objectives qom) = 0 -> AchievementRate s = 0%Q)
  /\ (0 < size (QOM_Objectives qom) ->
      (AchievementRate s
       == inject_Z (Z.of_nat (Summary_Achieved s))
          / inject_Z (Z.of_nat (TotalObjectives s)) * 100)%Q)
  /\ (reachableObjectivesManager qom ->
      Summary_NotAchieved s = 0
      /\ Summary_Planned s + Summary_InProgress s + Summary_Achieved s = TotalObjectives s).
Proof.
  intros s.
  destruct (CalculateObjectiveProgress_counters qom) as (Ht & Hp & Hi & Ha & Hn & Hr).
  fold s in Ht, Hp, Hi, Ha, Hn, Hr.
  assert (length (range_Objectives qom) = size (QOM_Objectives qom)) as Hlen.
  { unfold range_Objectives. by rewrite length_fmap, length_map_to_list. }
  assert (Summary_Planned s + Summary_InProgress s + Summary_Achieved s + Summary_NotAchieved s
          = countIf (fun o =>
                String.eqb (Objective_Status o) ObjectiveStatusPlanned
                || String.eqb (Objective_Status o) ObjectiveStatusInProgress
                || String.eqb (Objective_Status o) ObjectiveStatusAchieved
                || String.eqb (Objective_Status o) ObjectiveStatusNotAchieved)
              (range_Objectives qom)) as Hsum.
  { rewrite Hp, Hi, Ha, Hn. apply (countIf_four _ _ _ _ (range_Objectives qom)).
    intros o. by apply one_of_four. }
  assert (Summary_Achieved s <= size (QOM_Objectives qom)) as Hle.
  { rewrite Ha, <- Hlen. apply countIf_le. }
  split; [done |].
  split; [rewrite Hsum, Ht, <- Hlen; apply countIf_le |].
  split; [by rewrite GetAchievedObjectives_filter, Ha |].
  assert ((0 <= AchievementRate s)%Q /\ (AchievementRate s <= 100)%Q) as [Hlo Hhi].
  { rewrite Hr. destruct (Nat.ltb_spec 0 (size (QOM_Objectives qom))) as [Hpos | _];
      [| split; done].
    assert (0 <= Z.of_nat (Summary_Achieved s) <= Z.of_nat (size (QOM_Objectives qom)))%Z
      as Hbounds by (clearbody s; lia).
    assert (0 < Z.of_nat (size (QOM_Objectives qom)))%Z as HposZ by lia.
    destruct (ratio_bounds _ _ Hbounds HposZ) as (H0 & H1 & _).
    set (r := (inject_Z _ / inject_Z _)%Q) in *. clearbody r.
    split; lra. }
  split; [done |]. split; [done |].
  split; [intros H0; rewrite Hr, H0; done |].
  split.
  { intros Hpos. rewrite Hr, Ht.
    destruct (Nat.ltb_spec 0 (size (QOM_Objectives qom))); [reflexivity | lia]. }
  intros Hreach.
  assert (forall o, o ∈ range_Objectives qom ->
            In (Objective_Status o)
              [ObjectiveStatusPlanned; ObjectiveStatusInProgress; ObjectiveStatusAchieved])
    as Hstatus.
  { intros o Ho. unfold range_Objectives in Ho.
    apply list_elem_of_fmap in Ho as ([k o'] & -> & Hin). apply elem_of_map_to_list in Hin.
    destruct (soundObjectivesManager_reachable qom Hreach) as (Hs & _).
    by apply (Hs k o'). }
  assert (countIf (fun o => String.eqb (Objective_Status o) ObjectiveStatusNotAchieved)
            (range_Objectives qom) = 0) as Hna.
  { apply countIf_none. intros o Ho. apply String.eqb_neq. intros Heq.
    specialize (Hstatus o Ho). rewrite Heq in Hstatus.
    cbn in Hstatus. intuition discriminate. }
  rewrite Hn, Hna. split; [done |].
  assert (countIf (fun o =>
              String.eqb (Objective_Status o) ObjectiveStatusPlanned
              || String.eqb (Objective_Status o) ObjectiveStatusInProgress
              || String.eqb (Objective_Status o) ObjectiveStatusAchieved
              || String.eqb (Objective_Status o) ObjectiveStatusNotAchieved)
            (range_Objectives qom) = length (range_Objectives qom)) as Hall.
  { apply countIf_all. intros o Ho.
    specialize (Hstatus o Ho). cbn in Hstatus.
    destruct Hstatus as [<- | [<- | [<- | []]]]; reflexivity. }
  rewrite Hn, Hna in Hsum. lia.
Qed.

(** ** The audit manager *)

Section AuditProperties.

Variables ManagementReviewInputs ManagementReviewOutputs : Type.

#[local] Arguments Audits {_ _} _.
#[local] Arguments ManagementReviews {_ _} _.
#[local] Arguments Review_ID {_ _} _.
#[local] Arguments Review_Title {_ _} _.
#[local] Arguments Review_Status {_ _} _.
#[local] Arguments NewAuditManager {_ _}.
#[local] Arguments runAuditOp {_ _} _ _ _.
#[local] Arguments StartAudit {_ _} _ _ _ _.
#[local] Arguments AddFinding {_ _} _ _ _ _.
#[local] Arguments CompleteAudit {_ _} _ _ _ _ _.
#[local] Arguments CreateAudit {_ _} _ _ _.
#[local] Arguments CreateManagementReview {_ _} _ _ _.
#[local] Arguments CompleteManagementReview {_ _} _ _ _.
#[local] Arguments range_Audits {_ _} _.
#[local] Arguments GetAuditsDue {_ _} _ _.
#[local] Arguments GetOverdueFindings {_ _} _ _.
#[local] Arguments reachableAuditManager {_ _} _.
#[local] Arguments soundAuditManager {_ _} _.
#[local] Arguments soundReview {_ _} _ _.

Implicit Types am : AuditManager ManagementReviewInputs ManagementReviewOutputs.

Lemma StartAudit_started now auditID startDate am audit :
  Audits am !! auditID = Some audit ->
  Audit_Status audit = AuditStatusPlanned ->
  StartAudit now auditID startDate am
  = (None, mkAuditManager _ _ (<[auditID := Audit_started (now 0) startDate audit]> (Audits am))
             (ManagementReviews am)).
Proof. intros Hk Hs. unfold StartAudit. by rewrite Hk, Hs. Qed.

Lemma StartAudit_refused now auditID startDate am audit :
  Audits am !! auditID = Some audit ->
  Audit_Status audit <> AuditStatusPlanned ->
  StartAudit now auditID startDate am = (Some "audit is not in planned status", am).
Proof.
  intros Hk Hs. unfold StartAudit. rewrite Hk.
  by apply String.eqb_neq in Hs as ->.
Qed.

(** X28.  The life cycle of a registered audit.  StartAudit succeeds exactly
    when the audit is planned; it then records the start date, sets the
    status in_progress and leaves every other audit and the reviews alone,
    and a second StartAudit on the same audit is refused without a change.
    CompleteAudit has no guard on the status: it succeeds on an audit in any
    status, also one never started, whose start date then stays as it was,
    and after it StartAudit is refused.  AddFinding succeeds in any status,
    appends the finding stamped with the current time after the findings
    already there, and keeps the status. *)
Theorem audit_life_cycle now auditID am audit :
  Audits am !! auditID = Some audit ->
  (forall startDate,
     fst (StartAudit now auditID startDate am) = None
     <-> Audit_Status audit = AuditStatusPlanned)
  /\ (forall startDate,
        Audit_Status audit = AuditStatusPlanned ->
        let am' := snd (StartAudit now auditID startDate am) in
        (exists audit',
           Audits am' !! auditID = Some audit'
           /\ Audit_Status audit' = AuditStatusInProgress
           /\ ActualStartDate audit' = Some startDate
           /\ Findings audit' = Findings audit)
        /\ (forall k, k <> auditID -> Audits am' !! k = Audits am !! k)
        /\ ManagementReviews am' = ManagementReviews am
        /\ forall now' startDate',
             StartAudit now' auditID startDate' am'
             = (Some "audit is not in planned status", am'))
  /\ (forall endDate report,
        let am' := snd (CompleteAudit now auditID endDate report am) in
        fst (CompleteAudit now auditID endDate report am) = None
        /\ (exists audit',
              Audits am' !! auditID = Some audit'
              /\ Audit_Status audit' = AuditStatusCompleted
              /\ ActualEndDate audit' = Some endDate
              /\ Report audit' = report
              /\ ActualStartDate audit' = ActualStartDate audit)
        /\ forall now' startDate',
             StartAudit now' auditID startDate' am'
             = (Some "audit is not in planned status", am'))
  /\ (forall finding,
        let am' := snd (AddFinding now auditID finding am) in
        fst (AddFinding now auditID finding am) = None
        /\ exists audit',
             Audits am' !! auditID = Some audit'
             /\ Audit_Status audit' = Audit_Status audit
             /\ Findings audit' = (Findings audit ++ [Finding_set_Created (now 0) finding])%list).
Proof.
  intros Hk. split; [| split; [| split]].
  - intros startDate. unfold StartAudit. rewrite Hk.
    destruct (String.eqb_spec (Audit_Status audit) AuditStatusPlanned); cbn; by split.
  - intros startDate Hs. rewrite (StartAudit_started _ _ _ _ _ Hk Hs). cbn [snd Audits ManagementReviews].
    split; [eexists; rewrite lookup_insert_eq; by repeat split |].
    split; [by intros k Hne; rewrite lookup_insert_ne |].
    split; [done |].
    intros now' startDate'. eapply StartAudit_refused; [cbn; apply lookup_insert_eq | done].
  - intros endDate report. unfold CompleteAudit. rewrite Hk. cbn [fst snd Audits].
    split; [done |].
    split; [eexists; rewrite lookup_insert_eq; by repeat split |].
    intros now' startDate'. eapply StartAudit_refused; [cbn; apply lookup_insert_eq | done].
  - intros finding. unfold AddFinding. rewrite Hk. cbn [fst snd Audits].
    split; [done |]. eexists. rewrite lookup_insert_eq. by repeat split.
Qed.

Ltac sound_entry :=
  repeat split; try done; cbn;
  first [by left | by right; left | by right; right; left | discriminate | by eexists].

Lemma soundAuditManager_step now op am :
  soundAuditManager am -> soundAuditManager (snd (runAuditOp now op am)).
Proof.
  intros Hs. pose proof Hs as [Ha Hr].
  destruct op as [audit | id startDate | id finding | id endDate report | review | id outputs];
    cbn [runAuditOp].
  - unfold CreateAudit, empty.
    destruct (String.eqb_spec (Audit_ID audit) ""); [exact Hs |].
    destruct (String.eqb_spec (Audit_Title audit) ""); [exact Hs |].
    destruct (String.eqb_spec (AuditScope_Description (Audit_Scope audit)) ""); [exact Hs |].
    split; [| exact Hr]. cbn [snd Audits Audit_created Audit_ID].
    apply map_Forall_insert_2; [| exact Ha].
    sound_entry.
  - unfold StartAudit. destruct (Audits am !! id) as [audit |] eqn:Hk; [| exact Hs].
    destruct (String.eqb (Audit_Status audit) AuditStatusPlanned); [| exact Hs].
    split; [| exact Hr]. cbn [snd Audits negb].
    apply map_Forall_insert_2; [| exact Ha].
    destruct (Ha id audit Hk) as (Hid & Hne & Ht & Hd & _).
    sound_entry.
  - unfold AddFinding. destruct (Audits am !! id) as [audit |] eqn:Hk; [| exact Hs].
    split; [| exact Hr]. cbn [snd Audits].
    apply map_Forall_insert_2; [| exact Ha]. exact (Ha id audit Hk).
  - unfold CompleteAudit. destruct (Audits am !! id) as [audit |] eqn:Hk; [| exact Hs].
    split; [| exact Hr]. cbn [snd Audits].
    apply map_Forall_insert_2; [| exact Ha].
    destruct (Ha id audit Hk) as (Hid & Hne & Ht & Hd & _).
    sound_entry.
  - unfold CreateManagementReview, empty.
    destruct (String.eqb_spec (Review_ID review) ""); [exact Hs |].
    destruct (String.eqb_spec (Review_Title review) ""); [exact Hs |].
    split; [exact Ha |]. cbn [snd ManagementReviews].
    apply map_Forall_insert_2; [| exact Hr].
    sound_entry.
  - unfold CompleteManagementReview.
    destruct (ManagementReviews am !! id) as [review |] eqn:Hk; [| exact Hs].
    split; [exact Ha |]. cbn [snd ManagementReviews].
    apply map_Forall_insert_2; [| exact Hr].
    destruct (Hr id review Hk) as (Hid & Hne & Ht & _).
    sound_entry.
Qed.

Lemma soundAuditManager_reachable am : reachableAuditManager am -> soundAuditManager am.
Proof.
  induction 1 as [| now op am _ IH]; [| by apply soundAuditManager_step].
  split; apply map_Forall_empty.
Qed.

(** X29.  In every audit manager reached from a new one through its
    operations, each audit is stored under its own non-empty ID, has a title
    and a scope description, and is planned, in progress or completed (never
    reported or closed); an audit in progress has its actual start date and
    a completed one its actual end date; each management review is stored
    under its own non-empty ID, has a title and is pending or completed. *)
Theorem reachable_audit_manager_sound am :
  reachableAuditManager am ->
  (forall k audit, Audits am !! k = Some audit ->
     Audit_ID audit = k /\ k <> "" /\ Audit_Title audit <> ""
     /\ AuditScope_Description (Audit_Scope audit) <> ""
     /\ In (Audit_Status audit)
          [AuditStatusPlanned; AuditStatusInProgress; AuditStatusCompleted]
     /\ (Audit_Status audit = AuditStatusInProgress -> is_Some (ActualStartDate audit))
     /\ (Audit_Status audit = AuditStatusCompleted -> is_Some (ActualEndDate audit)))
  /\ (forall k review, ManagementReviews am !! k = Some review ->
        Review_ID review = k /\ k <> "" /\ Review_Title review <> ""
        /\ In (Review_Status review) [ReviewStatusPending; ReviewStatusCompleted]).
Proof. exact (soundAuditManager_reachable am). Qed.

Lemma elem_of_range_Audits am audit :
  audit ∈ range_Audits am <-> exists k, Audits am !! k = Some audit.
Proof.
  unfold range_Audits. rewrite list_elem_of_fmap. split.
  - intros ([k a] & -> & Hin). exists k. by apply elem_of_map_to_list.
  - intros (k & Hk). exists (k, audit). split; [done |]. by apply elem_of_map_to_list.
Qed.

Lemma GetAuditsDue_filter now am :
  GetAuditsDue now am
  = List.filter (fun audit => String.eqb (Audit_Status audit) AuditStatusPlanned
                              && Before (PlannedStartDate audit) now) (range_Audits am).
Proof.
  unfold GetAuditsDue.
  rewrite (collect_filter_map _ (fun audit : Audit => audit)). apply map_id.
Qed.

Lemma GetOverdueFindings_concat now am :
  GetOverdueFindings now am
  = concat (map (fun audit => List.filter (findingOverdue now) (Findings audit))
              (range_Audits am)).
Proof.
  unfold GetOverdueFindings, for_range.
  assert (forall (l : list AuditFinding) i acc,
            for_range_from i l (fun (_ : nat) finding overdue =>
              if findingOverdue now finding then (overdue ++ [finding])%list else overdue) acc
            = (acc ++ List.filter (findingOverdue now) l)%list) as Hinner.
  { induction l as [|finding l IH]; intros i acc; cbn.
    - by rewrite app_nil_r.
    - rewrite IH. destruct (findingOverdue now finding); [| done]. by rewrite <- app_assoc. }
  enough (forall (l : list Audit) i acc,
            for_range_from i l (fun (_ : nat) audit overdue =>
              for_range_from 0 (Findings audit) (fun (_ : nat) finding overdue =>
                if findingOverdue now finding then (overdue ++ [finding])%list else overdue)
                overdue) acc
            = (acc ++ concat (map (fun audit =>
                                List.filter (findingOverdue now) (Findings audit)) l))%list)
    as H by apply H.
  induction l as [|audit l IH]; intros i acc; cbn.
  - by rewrite app_nil_r.
  - by rewrite IH, Hinner, <- app_assoc.
Qed.

(** X30.  GetAuditsDue returns the audits that are planned and whose planned
    start date is before the current time, each once and no more of them
    than there are audits; GetOverdueFindings
    returns, audit by audit and in the order of each audit's findings, the
    findings that are not closed and whose due date is before the current
    time.  In a manager reached through its operations an audit that was
    started is not due, whatever the clock says, and a finding that was
    added with a past due date and a status other than closed is overdue. *)
Theorem audit_queries now am :
  GetAuditsDue now am
  = List.filter (fun audit => String.eqb (Audit_Status audit) AuditStatusPlanned
                              && Before (PlannedStartDate audit) now) (range_Audits am)
  /\ (forall audit,
     audit ∈ GetAuditsDue now am
     <-> (exists k, Audits am !! k = Some audit)
         /\ Audit_Status audit = AuditStatusPlanned /\ (PlannedStartDate audit < now)%Z)
  /\ length (GetAuditsDue now am) <= size (Audits am)
  /\ GetOverdueFindings now am
     = concat (map (fun audit => List.filter (findingOverdue now) (Findings audit))
                 (range_Audits am))
  /\ (forall finding,
        finding ∈ GetOverdueFindings now am
        <-> exists k audit, Audits am !! k = Some audit /\ finding ∈ Findings audit
              /\ Finding_Status finding <> FindingStatusClosed
              /\ (Finding_DueDate finding < now)%Z)
  /\ (reachableAuditManager am ->
      forall t auditID startDate,
        fst (StartAudit t auditID startDate am) = None ->
        forall audit, audit ∈ GetAuditsDue now (snd (StartAudit t auditID startDate am)) ->
                      Audit_ID audit <> auditID)
  /\ (forall t auditID finding,
        fst (AddFinding t auditID finding am) = None ->
        Finding_Status finding <> FindingStatusClosed ->
        (Finding_DueDate finding < now)%Z ->
        Finding_set_Created (t 0) finding
        ∈ GetOverdueFindings now (snd (AddFinding t auditID finding am))).
Proof.
  assert (forall am' finding,
            finding ∈ GetOverdueFindings now am'
            <-> exists k audit, Audits am' !! k = Some audit /\ finding ∈ Findings audit
                  /\ Finding_Status finding <> FindingStatusClosed
                  /\ (Finding_DueDate finding < now)%Z) as Hfind.
  { intros am' finding. rewrite GetOverdueFindings_concat, list_elem_of_In, in_concat. split.
    - intros (l & Hl & Hin). apply in_map_iff in Hl as (audit & <- & Ha).
      apply list_elem_of_In, elem_of_range_Audits in Ha as (k & Hk).
      apply List.filter_In in Hin as [Hin Hov]. unfold findingOverdue, Before in Hov.
      apply andb_true_iff in Hov as [Hs Ht]. exists k, audit.
      split; [done |]. split; [by apply list_elem_of_In |].
      split; [by apply String.eqb_neq, negb_true_iff | by apply Z.ltb_lt].
    - intros (k & audit & Hk & Hin & Hs & Ht).
      exists (List.filter (findingOverdue now) (Findings audit)). split.
      + apply in_map_iff. exists audit. split; [done |].
        apply list_elem_of_In, elem_of_range_Audits. by exists k.
      + apply List.filter_In. split; [by apply list_elem_of_In |].
        unfold findingOverdue, Before. apply andb_true_iff.
        split; [by apply negb_true_iff, String.eqb_neq | by apply Z.ltb_lt]. }
  assert (forall am' audit,
            audit ∈ GetAuditsDue now am'
            <-> (exists k, Audits am' !! k = Some audit)
                /\ Audit_Status audit = AuditStatusPlanned /\ (PlannedStartDate audit < now)%Z)
    as Hdue.
  { intros am' audit.
    rewrite GetAuditsDue_filter, list_elem_of_In, List.filter_In, <- list_elem_of_In,
      elem_of_range_Audits, andb_true_iff, String.eqb_eq. unfold Before.
    by rewrite Z.ltb_lt. }
  split; [apply GetAuditsDue_filter |].
  split; [apply Hdue |].
  split.
  { rewrite GetAuditsDue_filter. etransitivity; [apply List.filter_length_le |].
    unfold range_Audits. by rewrite length_fmap, length_map_to_list. }
  split; [apply GetOverdueFindings_concat |].
  split; [apply Hfind |].
  split.
  - intros Hreach t auditID startDate Hok audit Hin.
    apply Hdue in Hin as ((k & Hk) & Hs & _). intros Hid.
    assert (soundAuditManager (snd (StartAudit t auditID startDate am))) as [Ha _].
    { apply (soundAuditManager_step t (OpStartAudit _ _ auditID startDate)).
      by apply soundAuditManager_reachable. }
    destruct (Ha k audit Hk) as (Hkey & _). rewrite Hid in Hkey. subst k.
    revert Hok Hk. unfold StartAudit.
    destruct (Audits am !! auditID) as [audit0 |]; [| done].
    destruct (String.eqb (Audit_Status audit0) AuditStatusPlanned); [| done].
    cbn. rewrite lookup_insert_eq. intros _ [= <-]. by cbn in Hs.
  - intros t auditID finding Hok Hs Ht. apply Hfind.
    revert Hok. unfold AddFinding.
    destruct (Audits am !! auditID) as [audit0 |]; [| done]. intros _. cbn.
    exists auditID, (Audit_add_finding (t 1) (Finding_set_Created (t 0) finding) audit0).
    split; [apply lookup_insert_eq |].
    split; [cbn; apply list_elem_of_In, in_or_app; right; by left |].
    split; done.
Qed.

End AuditProperties.

Lemma audit_life_cycle_witness :
  Audits unit unit plannedAuditManager !! "AUDIT-001"
  = Some (Audit_created 1%Z 2%Z sampleAudit)
  /\ (forall now' startDate',
        StartAudit unit unit now' "AUDIT-001" startDate'
          (snd (CompleteAudit unit unit (clockFrom 3%Z) "AUDIT-001" 9%Z None plannedAuditManager))
        = (Some "audit is not in planned status",
           snd (CompleteAudit unit unit (clockFrom 3%Z) "AUDIT-001" 9%Z None plannedAuditManager))).
Proof.
  assert (Audits unit unit plannedAuditManager !! "AUDIT-001"
          = Some (Audit_created 1%Z 2%Z sampleAudit)) as Hk by by vm_compute.
  split; [exact Hk |].
  exact (proj2 (proj2 (proj1 (proj2 (proj2
           (audit_life_cycle unit unit (clockFrom 3%Z) "AUDIT-001" plannedAuditManager _ Hk)))
           9%Z None))).
Defined.

Lemma reachable_auditedManager : reachableAuditManager unit unit auditedManager.
Proof. repeat apply reachable_step_am. apply reachable_new_am. Defined.

Lemma reachable_audit_manager_sound_witness :
  reachableAuditManager unit unit auditedManager
  /\ (forall k audit, Audits unit unit auditedManager !! k = Some audit ->
        Audit_Status audit = AuditStatusInProgress -> is_Some (ActualStartDate audit)).
Proof.
  split; [exact reachable_auditedManager |].
  intros k audit Hk.
  exact (proj1 (proj2 (proj2 (proj2 (proj2 (proj2
           (proj1 (reachable_audit_manager_sound unit unit auditedManager
                     reachable_auditedManager) k audit Hk))))))).
Defined.

Lemma audit_queries_witness :
  Finding_set_Created 4%Z (sampleFinding "open" 5%Z)
  ∈ GetOverdueFindings unit unit 6%Z auditedManager.
Proof.
  apply (proj2 (proj2 (proj2 (proj2 (proj2 (proj2
           (audit_queries unit unit 6%Z
              (snd (runAuditOp unit unit (clockFrom 2%Z) (OpStartAudit unit unit "AUDIT-001" 2%Z)
                      plannedAuditManager)))))))) (clockFrom 4%Z) "AUDIT-001"
           (sampleFinding "open" 5%Z));
    by vm_compute.
Defined.

Lemma CalculateObjectiveProgress_summary_witness :
  Summary_NotAchieved (CalculateObjectiveProgress reportedManager) = 0
  /\ Summary_Planned (CalculateObjectiveProgress reportedManager)
     + Summary_InProgress (CalculateObjectiveProgress reportedManager)
     + Summary_Achieved (CalculateObjectiveProgress reportedManager)
     = TotalObjectives (CalculateObjectiveProgress reportedManager).
Proof.
  exact (proj2 (proj2 (proj2 (proj2 (proj2 (proj2 (proj2
           (CalculateObjectiveProgress_summary reportedManager)))))))
           reachable_reportedManager).
Defined.
